(** * Verification of the S3 file mover and CSV merge lambdas

    Shallow embedding of
    - [s3_file_mover_lambda.py]      (module [Mover]),
    - [csv_merge_lambda.py]          (module [Merge]),
    - [batch_generator_lambda.py]    (module [Planner]),
    - [results_aggregator_lambda.py] (module [Aggregator]).

    The object store, the clock and the sleeps are effects: the code runs
    in a state-and-exception monad over an abstract world [W] and leaves a
    chronological trace of the calls it issued. *)

From Stdlib Require Import ZArith List String Ascii Bool Lia Arith DecimalString Permutation.
Import ListNotations.
Local Open Scope string_scope.
Local Open Scope list_scope.
Local Open Scope Z_scope.

Set Implicit Arguments.

(* ===================================================================== *)
(** * Python exceptions, outcomes and the trace of effects *)
(* ===================================================================== *)

(** [botocore.exceptions.ClientError] carries [e.response['Error']['Code']];
    every other [Exception] (network errors, decoding errors, ...) is
    [OtherError]. *)
Inductive exn : Type :=
| ClientError (code : string)
| OtherError (what : string).

(** What one call to the store gives back. *)
Inductive outcome (A : Type) : Type :=
| Ok (a : A)
| Err (e : exn).
Arguments Ok {A} a.
Arguments Err {A} e.

(** Text is a sequence of Unicode code points (a Python [str]); keys and
    bucket names are [string]s (their UTF-8 bytes: the tests the code makes
    on keys only look for ASCII characters). *)
Definition text := list Z.

(** One listed object: [{'Key', 'Size', 'LastModified'}]. *)
Record obj : Type := mkObj {
  Key : string;
  Size : Z;
  LastModified : Z  (* microseconds, naive wall-clock *)
}.

(** The calls the code issues, in the order it issues them. [ok] tells
    whether the call returned ([true]) or raised ([false]). *)
Inductive event : Type :=
| EvAttempt (n : Z)                                        (* "Tentativa n de listagem" *)
| EvSleep (millis : Z) (jitter : bool)                     (* time.sleep; jitter = random.uniform(0, 1) added *)
| EvPaginate (bucket prefix : string) (max_items page_size : Z)
| EvListObjectsV2 (bucket prefix : string) (max_keys : Z) (token : option string) (ok : bool)
| EvCopy (src_bucket src_key dst_bucket dst_key : string) (ok : bool)
| EvHead (bucket key : string) (ok : bool)
| EvDelete (bucket key : string) (ok : bool)
| EvGet (bucket key : string) (ok : bool)
| EvPut (bucket key : string) (body : text) (content_type : string) (ok : bool).

(** A page of a listing: ['Contents'] may be absent. *)
Record page : Type := mkPage { Contents : option (list obj) }.

(** The pages a paginator yields while it is iterated: finitely many, the
    iteration possibly ending in an exception. *)
Inductive pages : Type :=
| PagesEnd
| PagesNext (p : page) (rest : pages)
| PagesRaise (e : exn).

(** The response of one [list_objects_v2] call. *)
Record list_response : Type := mkResp {
  RContents : option (list obj);
  IsTruncated : option bool;
  NextContinuationToken : option string
}.

(** The object store client and the clock, over a world [W]. *)
Class S3Client (W : Type) : Type := {
  copy_object : string -> string -> string -> string -> W -> outcome unit * W;
  head_object : string -> string -> W -> outcome unit * W;
  delete_object : string -> string -> W -> outcome unit * W;
  (** [get_object(...)['Body'].read().decode('utf-8')]: a decoding error is
      an [OtherError] of this one step *)
  get_object : string -> string -> W -> outcome text * W;
  put_object : string -> string -> text -> string -> W -> outcome unit * W;
  list_objects_v2 : string -> string -> Z -> option string -> W -> outcome list_response * W;
  paginate : string -> string -> Z -> Z -> W -> pages * W;
  (** [datetime.now()] *)
  now : W -> Z * W;
  (** [int(time.time())] *)
  time_time : W -> Z * W
}.

Record state (W : Type) : Type := mkState {
  world : W;
  trace : list event
}.

(** The result of running a piece of code: it returns, raises, or the
    model ran out of fuel (only the [while] loop of the manual pagination
    can). *)
Inductive res (W A : Type) : Type :=
| Ret (a : A) (s : state W)
| Raise (e : exn) (s : state W)
| OutOfFuel.
Arguments Ret {W A} a s.
Arguments Raise {W A} e s.
Arguments OutOfFuel {W A}.

Definition M (W A : Type) : Type := state W -> res W A.

Definition ret {W A} (a : A) : M W A := fun s => Ret a s.

Definition bind {W A B} (m : M W A) (k : A -> M W B) : M W B :=
  fun s => match m s with
           | Ret a s' => k a s'
           | Raise e s' => Raise e s'
           | OutOfFuel => OutOfFuel
           end.

Definition raise {W A} (e : exn) : M W A := fun s => Raise e s.

(** [try: m except Exception as e: h e] *)
Definition try_catch {W A} (m : M W A) (h : exn -> M W A) : M W A :=
  fun s => match m s with
           | Ret a s' => Ret a s'
           | Raise e s' => h e s'
           | OutOfFuel => OutOfFuel
           end.

Declare Scope m_scope.
Delimit Scope m_scope with m.
Notation "x <- m ;; k" := (bind m (fun x => k))
  (at level 61, m at next level, right associativity) : m_scope.
Notation "m ;; k" := (bind m (fun _ => k))
  (at level 61, right associativity) : m_scope.
Local Open Scope m_scope.

Definition emit {W} (e : event) : M W unit :=
  fun s => Ret tt (mkState (world s) (trace s ++ [e])).

(** Lift a call of the client: run it on the world, log it, return or
    raise. *)
Definition call {W A} (op : W -> outcome A * W) (ev : bool -> event) : M W A :=
  fun s => match op (world s) with
           | (Ok a, w') => Ret a (mkState w' (trace s ++ [ev true]))
           | (Err e, w') => Raise e (mkState w' (trace s ++ [ev false]))
           end.

Definition sleep {W} (millis : Z) (jitter : bool) : M W unit :=
  emit (EvSleep millis jitter).

Definition when {W} (b : bool) (m : M W unit) : M W unit :=
  if b then m else ret tt.

Definition is_ok (ev : event) : bool :=
  match ev with
  | EvListObjectsV2 _ _ _ _ ok | EvCopy _ _ _ _ ok | EvHead _ _ ok
  | EvDelete _ _ ok | EvGet _ _ ok | EvPut _ _ _ _ ok => ok
  | _ => true
  end.

Definition is_sleep (ev : event) : bool :=
  match ev with EvSleep _ _ => true | _ => false end.

Definition is_attempt (ev : event) : bool :=
  match ev with EvAttempt _ => true | _ => false end.

Definition is_delete (ev : event) : bool :=
  match ev with EvDelete _ _ _ => true | _ => false end.

Definition is_put (ev : event) : bool :=
  match ev with EvPut _ _ _ _ _ => true | _ => false end.



(** A single-page listing call asking for [max_keys] keys. *)
Definition asks_keys (ev : event) : option Z :=
  match ev with EvListObjectsV2 _ _ max_keys _ _ => Some max_keys | _ => None end.


Definition is_copy (ev : event) : bool :=
  match ev with EvCopy _ _ _ _ _ => true | _ => false end.

(** How many events of a kind a trace holds. *)
Definition count (kind : event -> bool) (t : list event) : nat :=
  List.length (filter kind t).

(** No event of a kind. *)
Definition none_of (kind : event -> bool) (t : list event) : Prop :=
  Forall (fun ev => kind ev = false) t.

(** Every delete of a trace comes after a probe of [bucket]/[key] that
    succeeded. *)
Definition deletes_verified (bucket key : string) (t : list event) : Prop :=
  forall pre ev post,
    t = pre ++ ev :: post -> is_delete ev = true -> In (EvHead bucket key true) pre.

(** Whatever a computation adds to the trace, whether it returns or
    raises, satisfies [Q] event by event. *)
Definition adds_only {W A} (Q : event -> Prop) (m : M W A) : Prop :=
  forall s, match m s with
            | Ret _ s' | Raise _ s' =>
                exists added, trace s' = trace s ++ added /\ Forall Q added
            | OutOfFuel => True
            end.

(** The events of a listing strategy: listing calls and pauses. *)
Definition is_listing (ev : event) : Prop :=
  match ev with
  | EvPaginate _ _ _ _ | EvListObjectsV2 _ _ _ _ _ | EvSleep _ _ => True
  | _ => False
  end.

(** The events of the resilient listing: attempts, listing calls, pauses. *)
Definition is_retry_event (ev : event) : Prop :=
  match ev with
  | EvAttempt _ | EvPaginate _ _ _ _ | EvListObjectsV2 _ _ _ _ _ | EvSleep _ _ => True
  | _ => False
  end.

(** Whether the backoff after an error has the random part: it has after
    a [ClientError], not after another exception. *)
Definition jitter_after (e : exn) : bool :=
  match e with ClientError _ => true | OtherError _ => false end.

(** The errors the listing does not retry. *)
Definition permanent (e : exn) : bool :=
  match e with
  | ClientError error_code => existsb (String.eqb error_code) ["NoSuchBucket"; "AccessDenied"]
  | OtherError _ => false
  end.

(** A strategy that, from any state, returns no object or raises an error
    that is not permanent. *)
Definition yields_nothing {W} (m : M W (list obj)) : Prop :=
  forall s, (exists s', m s = Ret [] s')
            \/ (exists e s', m s = Raise e s' /\ permanent e = false).

(** [code in [c1, ..., cn]] *)
Definition code_in (code : string) (l : list string) : bool :=
  existsb (String.eqb code) l.

(* ===================================================================== *)
(** * Python strings and sequences *)
(* ===================================================================== *)

Module Py.

Definition slash : ascii := "/"%char.

(** [s.endswith(suffix)] *)
Definition endswith (s suffix : string) : bool :=
  let n := String.length s in
  let m := String.length suffix in
  if Nat.ltb n m then false
  else String.eqb (substring (n - m) m s) suffix.

(** [s.startswith(p)] *)
Definition startswith (s p : string) : bool := prefix p s.

(** [s.lstrip('/')] *)
Fixpoint lstrip_slash (s : string) : string :=
  match s with
  | EmptyString => EmptyString
  | String c r => if Ascii.eqb c slash then lstrip_slash r else s
  end.

(** [s.rstrip('/')] *)
Fixpoint rstrip_slash (s : string) : string :=
  match s with
  | EmptyString => EmptyString
  | String c r =>
      match rstrip_slash r with
      | EmptyString => if Ascii.eqb c slash then EmptyString else String c EmptyString
      | r' => String c r'
      end
  end.

(** [s[n:]] for [0 <= n] *)
Definition drop (n : nat) (s : string) : string :=
  substring n (String.length s - n) s.

(** [c.lower()] on one byte: only ASCII letters change; no other
    character lowers to an ASCII one of ".csv". *)
Definition lower_ascii (c : ascii) : ascii :=
  let n := nat_of_ascii c in
  if andb (Nat.leb 65 n) (Nat.leb n 90) then ascii_of_nat (n + 32) else c.

Fixpoint lower (s : string) : string :=
  match s with
  | EmptyString => EmptyString
  | String c r => String (lower_ascii c) (lower r)
  end.

(** Truthiness of a string: [bool(s)]. *)
Definition truthy (s : string) : bool :=
  match s with EmptyString => false | _ => true end.

(** [a or b] on optional strings ([None] and [''] are falsy). *)
Definition or_else (a b : option string) : option string :=
  match a with
  | Some s => if truthy s then a else b
  | None => b
  end.

(** [bool(x)] for an optional string. *)
Definition truthy_opt (a : option string) : bool :=
  match a with Some s => truthy s | None => false end.

(** [str.isspace] on one code point: the Unicode white space of CPython. *)
Definition isspace (c : Z) : bool :=
  orb (andb (9 <=? c) (c <=? 13))
 (orb (andb (28 <=? c) (c <=? 32))
 (orb (c =? 133) (orb (c =? 160) (orb (c =? 5760)
 (orb (andb (8192 <=? c) (c <=? 8202))
 (orb (c =? 8232) (orb (c =? 8233) (orb (c =? 8239)
 (orb (c =? 8287) (c =? 12288)))))))))).

(** [t.lstrip()] *)
Fixpoint lstrip (t : text) : text :=
  match t with
  | [] => []
  | c :: r => if isspace c then lstrip r else t
  end.

(** [t.rstrip()] *)
Definition rstrip (t : text) : text := rev (lstrip (rev t)).

(** [t.strip()] *)
Definition strip (t : text) : text := rstrip (lstrip t).

Definition newline : Z := 10.

(** [t.split('\n')], the current line being accumulated in [cur]. *)
Fixpoint split_from (cur : text) (t : text) : list text :=
  match t with
  | [] => [cur]
  | c :: r => if c =? newline then cur :: split_from [] r
              else split_from (cur ++ [c]) r
  end.

Definition split_lines (t : text) : list text := split_from [] t.

(** A literal: the code points of an ASCII string. *)
Fixpoint txt (s : string) : text :=
  match s with
  | EmptyString => []
  | String c r => Z.of_nat (nat_of_ascii c) :: txt r
  end.

(** [str(n)] for an integer. *)
Definition str_of_Z (n : Z) : string := NilZero.string_of_int (Z.to_int n).

(** [len(l)] *)
Definition len {A} (l : list A) : Z := Z.of_nat (List.length l).

(** [range(start, stop, step)] for [step > 0], at most [fuel] values. *)
Fixpoint range_up (fuel : nat) (start stop step : Z) : list Z :=
  match fuel with
  | O => []
  | S fuel' => if start <? stop then start :: range_up fuel' (start + step) stop step
               else []
  end.

(** [range(0, stop, step)] for [stop >= 0]: a zero step raises
    [ValueError], a negative one gives the empty range. *)
Definition range0 (stop step : Z) : outcome (list Z) :=
  if step =? 0 then Err (OtherError "range() arg 3 must not be zero")
  else if step <? 0 then Ok []
  else Ok (range_up (Z.to_nat stop) 0 stop step).

(** [l[i:j]] for [0 <= i]. *)
Definition slice {A} (l : list A) (i j : Z) : list A :=
  firstn (Z.to_nat (j - i)) (skipn (Z.to_nat i) l).

End Py.

(* ===================================================================== *)
(** * The batch partitioner *)
(* ===================================================================== *)

Module Partitioner.

(** The batches of
    [for i in range(0, len(files), batch_size): batch = files[i:i + batch_size]]
    as both orchestrators form them. *)
Definition batches {A} (files : list A) (batch_size : Z) : outcome (list (list A)) :=
  match Py.range0 (Py.len files) batch_size with
  | Ok starts => Ok (map (fun i => Py.slice files i (i + batch_size)) starts)
  | Err e => Err e
  end.

(** [ceil(n / b)] on integers, for [b > 0]. *)
Definition ceil_div (n b : Z) : Z := (n + b - 1) / b.

End Partitioner.

(* ===================================================================== *)
(** * The resilient lister *)
(* ===================================================================== *)

Module Lister.

(** Non-empty list: the truthiness test [if files:]. *)
Definition nonempty {A} (l : list A) : bool :=
  match l with [] => false | _ => true end.

(** The inner loop over [page['Contents']] of the standard listing:
    append the kept objects, stop once [max_files] are held. *)
Fixpoint scan_contents (keep : obj -> bool) (max_files : Z)
    (files : list obj) (objs : list obj) : list obj :=
  match objs with
  | [] => files
  | o :: rest =>
      if keep o then
        let files' := files ++ [o] in
        if Py.len files' >=? max_files then files'
        else scan_contents keep max_files files' rest
      else scan_contents keep max_files files rest
  end.

(** The loop over the pages; an exception of the paginator surfaces when
    the iteration reaches it. *)
Fixpoint scan_pages (keep : obj -> bool) (max_files : Z)
    (files : list obj) (ps : pages) : list obj * option exn :=
  match ps with
  | PagesEnd => (files, None)
  | PagesRaise e => (files, Some e)
  | PagesNext p rest =>
      let files' := match Contents p with
                    | Some objs => scan_contents keep max_files files objs
                    | None => files
                    end in
      if Py.len files' >=? max_files then (files', None)
      else scan_pages keep max_files files' rest
  end.

(** 24 hours, in microseconds. *)
Definition day : Z := 24 * 3600 * 1000000.

Section WithClient.
Context {W : Type} {S3 : S3Client W}.

(** [keep] is the test on the key of an object: not a directory marker
    (mover), a [.csv] that is not a directory marker (merge). *)
Variable keep : string -> bool.

Definition start_paginate (bucket prefix : string) (max_items page_size : Z) : M W pages :=
  fun s => let (ps, w') := paginate bucket prefix max_items page_size (world s) in
           Ret ps (mkState w' (trace s ++ [EvPaginate bucket prefix max_items page_size])).

Definition datetime_now : M W Z :=
  fun s => let (t, w') := now (world s) in Ret t (mkState w' (trace s)).

(** [list_files_standard] / [list_csv_files_standard] *)
Definition list_standard (bucket prefix : string) (max_files : Z) : M W (list obj) :=
  ps <- start_paginate bucket prefix max_files 1000 ;;
  match scan_pages (fun o => keep (Key o)) max_files [] ps with
  | (files, None) => ret files
  | (_, Some e) => raise e
  end.

(** The [while len(files) < max_files] loop of the manual pagination. *)
Fixpoint pagination_loop (fuel : nat) (bucket prefix : string) (max_files : Z)
    (files : list obj) (continuation_token : option string) : M W (list obj) :=
  match fuel with
  | O => fun _ => OutOfFuel
  | S fuel' =>
      if Py.len files <? max_files then
        let token := match continuation_token with
                     | Some t => if Py.truthy t then Some t else None
                     | None => None
                     end in
        let max_keys := Z.min 1000 (max_files - Py.len files) in
        response <- call (list_objects_v2 bucket prefix max_keys token)
                         (EvListObjectsV2 bucket prefix max_keys token) ;;
        match RContents response with
        | None => ret files
        | Some objs =>
            let files' := files ++ filter (fun o => keep (Key o)) objs in
            if negb (match IsTruncated response with Some b => b | None => false end)
            then ret files'
            else
              sleep 100 false ;;
              pagination_loop fuel' bucket prefix max_files files'
                (NextContinuationToken response)
        end
      else ret files
  end.

(** [list_files_with_pagination] / [list_csv_files_with_pagination] *)
Definition list_with_pagination (fuel : nat) (bucket prefix : string) (max_files : Z)
    : M W (list obj) :=
  pagination_loop fuel bucket prefix max_files [] None.

(** [list_files_by_time_range] / [list_csv_files_by_time_range]: an
    exception of the listing is logged and swallowed, what was collected
    so far is returned. *)
Definition list_by_time_range (bucket prefix : string) (max_files : Z) : M W (list obj) :=
  t <- datetime_now ;;
  let cutoff_time := t - day in
  ps <- start_paginate bucket prefix (max_files * 2) 500 ;;
  ret (fst (scan_pages (fun o => andb (keep (Key o)) (LastModified o >=? cutoff_time))
              max_files [] ps)).

End WithClient.

Section Retry.
Context {W : Type}.

(** The three strategies, already applied to [(bucket, prefix, max_files)]. *)
Variables (standard with_pagination by_time_range : M W (list obj)).

(** The body of the [try] of one attempt: [Some files] is [return files]. *)
Definition attempt_body (max_retries attempt : Z) : M W (option (list obj)) :=
  emit (EvAttempt (attempt + 1)) ;;
  files <- standard ;;
  if nonempty files then ret (Some files) else
  found <- (if attempt =? 0 then
              files <- with_pagination ;;
              ret (if nonempty files then Some files else None)
            else ret None) ;;
  match found with
  | Some files => ret (Some files)
  | None =>
  found <- (if attempt =? 1 then
              files <- by_time_range ;;
              ret (if nonempty files then Some files else None)
            else ret None) ;;
  match found with
  | Some files => ret (Some files)
  | None =>
      when (attempt <? max_retries - 1) (sleep (2 ^ attempt * 1000) true) ;;
      ret None
  end end.

(** The two [except] clauses. *)
Definition attempt_handler (max_retries attempt : Z) (e : exn) : M W (option (list obj)) :=
  match e with
  | ClientError error_code =>
      if code_in error_code ["NoSuchBucket"; "AccessDenied"] then raise e
      else when (attempt <? max_retries - 1) (sleep (2 ^ attempt * 1000) true) ;;
           ret None
  | OtherError _ =>
      when (attempt <? max_retries - 1) (sleep (2 ^ attempt * 1000) false) ;;
      ret None
  end.

Fixpoint retry_from (max_retries : Z) (todo : nat) (attempt : Z) : M W (list obj) :=
  match todo with
  | O => ret []
  | S todo' =>
      r <- try_catch (attempt_body max_retries attempt)
                     (attempt_handler max_retries attempt) ;;
      match r with
      | Some files => ret files
      | None => retry_from max_retries todo' (attempt + 1)
      end
  end.

(** [for attempt in range(max_retries): ...; return []] *)
Definition with_retry (max_retries : Z) : M W (list obj) :=
  retry_from max_retries (Z.to_nat max_retries) 0.

End Retry.
End Lister.

(* ===================================================================== *)
(** * The file mover: [s3_file_mover_lambda.py] *)
(* ===================================================================== *)

Module Mover.

Section WithClient.
Context {W : Type} {S3 : S3Client W}.

(** One iteration of the [for attempt in range(max_retries)] loop of
    [move_file]: [Some b] is [return b], [None] falls through to the next
    iteration. *)
Definition move_file_attempt (source_bucket source_key dest_bucket dest_key : string)
    (max_retries attempt : Z) : M W (option bool) :=
  try_catch
    (call (copy_object source_bucket source_key dest_bucket dest_key)
          (EvCopy source_bucket source_key dest_bucket dest_key) ;;
     (* the inner try: only a ClientError of the probe is handled here *)
     verified <- try_catch
        (call (head_object dest_bucket dest_key) (EvHead dest_bucket dest_key) ;; ret true)
        (fun e => match e with
                  | ClientError _ => ret false
                  | OtherError _ => raise e
                  end) ;;
     if verified : bool then
       call (delete_object source_bucket source_key) (EvDelete source_bucket source_key) ;;
       ret (Some true)
     else if attempt <? max_retries - 1 then ret None      (* continue *)
     else ret (Some false))
    (fun e =>
       match e with
       | ClientError error_code =>
           if code_in error_code ["NoSuchKey"; "NoSuchBucket"; "AccessDenied"]
           then ret (Some false)
           else when (attempt <? max_retries - 1) (sleep (500 * (attempt + 1)) false) ;;
                ret None
       | OtherError _ =>
           when (attempt <? max_retries - 1) (sleep (500 * (attempt + 1)) false) ;;
           ret None
       end).

(** The loop from [attempt] on, [todo] iterations left. *)
Fixpoint move_file_from (source_bucket source_key dest_bucket dest_key : string)
    (max_retries : Z) (todo : nat) (attempt : Z) : M W bool :=
  match todo with
  | O => ret false
  | S todo' =>
      r <- move_file_attempt source_bucket source_key dest_bucket dest_key max_retries attempt ;;
      match r with
      | Some b => ret b
      | None => move_file_from source_bucket source_key dest_bucket dest_key
                  max_retries todo' (attempt + 1)
      end
  end.

Definition move_file (source_bucket source_key dest_bucket dest_key : string)
    (max_retries : Z) : M W bool :=
  move_file_from source_bucket source_key dest_bucket dest_key
    max_retries (Z.to_nat max_retries) 0.

(** The destination key of [process_batch]: the source key with the
    source prefix stripped, under the destination prefix. *)
Definition dest_key_of (source_prefix dest_prefix source_key : string) : string :=
  let relative_key :=
    if andb (Py.truthy source_prefix) (Py.startswith source_key source_prefix)
    then Py.lstrip_slash (Py.drop (String.length source_prefix) source_key)
    else source_key in
  if Py.truthy dest_prefix
  then (Py.rstrip_slash dest_prefix ++ "/" ++ relative_key)%string
  else relative_key.

(** [{'success': ..., 'errors': ...}] *)
Record batch_results : Type := mkBatchResults { success : Z; errors : Z }.

(** The [for file_info in batch] loop of [process_batch], the counters
    passed along. *)
Fixpoint process_batch_from (batch : list obj)
    (source_bucket dest_bucket source_prefix dest_prefix : string)
    (success errors : Z) : M W batch_results :=
  match batch with
  | [] => ret (mkBatchResults success errors)
  | file_info :: rest =>
      moved <- try_catch
        (let source_key := Key file_info in
         let dest_key := dest_key_of source_prefix dest_prefix source_key in
         b <- move_file source_bucket source_key dest_bucket dest_key 2 ;;
         ret (Some b))
        (fun _ => ret None) ;;
      match moved with
      | Some true =>
          process_batch_from rest source_bucket dest_bucket source_prefix dest_prefix
            (success + 1) errors
      | Some false | None =>
          process_batch_from rest source_bucket dest_bucket source_prefix dest_prefix
            success (errors + 1)
      end
  end.

Definition process_batch (batch : list obj)
    (source_bucket dest_bucket source_prefix dest_prefix : string) : M W batch_results :=
  process_batch_from batch source_bucket dest_bucket source_prefix dest_prefix 0 0.

(** [{'success_count': ..., 'error_count': ...}]; the elapsed time is
    not modelled. *)
Record results : Type := mkResults { success_count : Z; error_count : Z }.

(** The loop of [process_files_in_batches] over the start indices. *)
Fixpoint process_starts (starts : list Z) (files : list obj)
    (source_bucket dest_bucket source_prefix dest_prefix : string) (batch_size : Z)
    (success_count error_count : Z) : M W results :=
  match starts with
  | [] => ret (mkResults success_count error_count)
  | i :: rest =>
      let batch := Py.slice files i (i + batch_size) in
      r <- process_batch batch source_bucket dest_bucket source_prefix dest_prefix ;;
      when (i + batch_size <? Py.len files) (sleep 100 false) ;;
      process_starts rest files source_bucket dest_bucket source_prefix dest_prefix
        batch_size (success_count + success r) (error_count + errors r)
  end.

Definition process_files_in_batches (files : list obj)
    (source_bucket dest_bucket source_prefix dest_prefix : string) (batch_size : Z)
    : M W results :=
  match Py.range0 (Py.len files) batch_size with
  | Err e => raise e
  | Ok starts =>
      process_starts starts files source_bucket dest_bucket source_prefix dest_prefix
        batch_size 0 0
  end.

(** The pipeline seen file by file, as the claim about its counters
    speaks of it: the files are moved one after another, in the order of
    the list, each by [move_file] on its destination key from the state
    the move before left; between two moves the pipeline may pause for
    0.1 s. [moved] holds, file by file, what [move_file] returned. *)
Inductive moved_in_order (source_bucket dest_bucket source_prefix dest_prefix : string)
    : list obj -> list bool -> state W -> state W -> Prop :=
| moved_none (s : state W) :
    moved_in_order source_bucket dest_bucket source_prefix dest_prefix [] [] s s
| moved_pause files moved (s s' : state W) :
    moved_in_order source_bucket dest_bucket source_prefix dest_prefix files moved
      (mkState (world s) (trace s ++ [EvSleep 100 false])) s' ->
    moved_in_order source_bucket dest_bucket source_prefix dest_prefix files moved s s'
| moved_file file_info files b moved (s s1 s' : state W) :
    move_file source_bucket (Key file_info) dest_bucket
      (dest_key_of source_prefix dest_prefix (Key file_info)) 2 s = Ret b s1 ->
    moved_in_order source_bucket dest_bucket source_prefix dest_prefix files moved s1 s' ->
    moved_in_order source_bucket dest_bucket source_prefix dest_prefix
      (file_info :: files) (b :: moved) s s'.

(** The key test of the mover's listings: [not obj['Key'].endswith('/')]. *)
Definition keep_file (key : string) : bool := negb (Py.endswith key "/").

Definition list_files_standard := Lister.list_standard keep_file.
Definition list_files_with_pagination := Lister.list_with_pagination keep_file.
Definition list_files_by_time_range := Lister.list_by_time_range keep_file.

Definition get_files_with_retry (fuel : nat) (bucket prefix : string)
    (max_files max_retries : Z) : M W (list obj) :=
  Lister.with_retry
    (list_files_standard bucket prefix max_files)
    (list_files_with_pagination fuel bucket prefix max_files)
    (list_files_by_time_range bucket prefix max_files)
    max_retries.

End WithClient.
End Mover.

(* ===================================================================== *)
(** * The CSV merge: [csv_merge_lambda.py] *)
(* ===================================================================== *)

Module Merge.

(** The variables shared by the workers, changed under the lock only. *)
Record shared : Type := mkShared {
  header_written : bool;
  files_processed : Z
}.

(** One running [process_csv_batch(batch)]: the files still to read and
    its two locals. *)
Record worker : Type := mkWorker {
  pending : list obj;
  batch_content : list text;
  batch_rows : Z
}.

(** What [process_csv_batch] does with the content read for one file:
    nothing unless it is non-empty and has two lines once stripped. *)
Definition contribute (sh : shared) (content : list text) (rows : Z)
    (csv_content : option text) : shared * (list text * Z) :=
  match csv_content with
  | Some c =>
      if Lister.nonempty c then
        let lines := Py.split_lines (Py.strip c) in
        if Py.len lines >=? 2 then
          let header := nth 0 lines [] in
          let data_line := nth 1 lines [] in
          (* with lock: *)
          let content' := if header_written sh then content else content ++ [header] in
          (mkShared true (files_processed sh + 1),
           (content' ++ [data_line], rows + 1))
        else (sh, (content, rows))
      else (sh, (content, rows))
  | None => (sh, (content, rows))
  end.

(** A content that [process_csv_batch] takes a row from: read, not empty,
    and of two lines or more once stripped. *)
Definition usable (csv_content : option text) : bool :=
  match csv_content with
  | Some c => andb (Lister.nonempty c) (Py.len (Py.split_lines (Py.strip c)) >=? 2)
  | None => false
  end.





(** The rows counted by a list of workers. *)
Definition sum_rows (ws : list worker) : Z :=
  fold_right (fun wk acc => batch_rows wk + acc) 0 ws.

(** [merged_content.write(line + '\n')] for every line. *)
Definition write_lines (lines : list text) : text :=
  flat_map (fun line => line ++ [Py.newline]) lines.


(** A measure of a worker, summed over the workers. *)
Definition total (f : worker -> Z) (ws : list worker) : Z :=
  fold_right (fun wk acc => f wk + acc) 0 ws.


(** Replace the element at index [b]. *)
Fixpoint set_nth {A} (b : nat) (x : A) (l : list A) : list A :=
  match l, b with
  | [], _ => []
  | _ :: r, O => x :: r
  | y :: r, S b' => y :: set_nth b' x r
  end.

(** The order in which [as_completed] hands over the [n] futures:
    [order] first (what of it names a future, once), then the others. *)
Definition completion_order (order : list nat) (n : nat) : list nat :=
  let named := nodup Nat.eq_dec (filter (fun b => Nat.ltb b n) order) in
  named ++ filter (fun b => negb (existsb (Nat.eqb b) named)) (seq 0 n).

(** Every worker steps once per file of its batch: appended to a schedule
    it lets every worker run to its end. *)
Fixpoint run_to_end (b : nat) (batches : list (list obj)) : list nat :=
  match batches with
  | [] => []
  | batch :: rest => repeat b (List.length batch) ++ run_to_end (S b) rest
  end.

(** [{'files_processed', 'output_file', 'total_rows'}]; the elapsed time
    is not modelled. *)
Record results : Type := mkResults {
  r_files_processed : Z;
  output_file : string;
  total_rows : Z
}.

(** The event and the environment variables of [lambda_handler]. *)
Record request : Type := mkRequest {
  source_bucket : option string;
  dest_bucket : option string;
  source_prefix : option string;
  dest_prefix : option string;
  max_files_per_execution : option Z;
  batch_size : option Z;
  output_filename : option string
}.

Record environ : Type := mkEnviron {
  SOURCE_BUCKET : option string;
  DEST_BUCKET : option string;
  SOURCE_PREFIX : option string;
  DEST_PREFIX : option string
}.

(** The JSON body of a response. *)
Inductive body : Type :=
| BodyNoFiles (message : string) (files_processed : Z) (source_bucket dest_bucket : string)
| BodyDone (message : string) (files_processed : Z) (output_file : string)
    (source_bucket dest_bucket : string) (total_rows : Z)
| BodyError (error : string) (message : string).

Record response : Type := mkResponse { statusCode : Z; r_body : body }.

(** [str(e)] *)
Definition str_of_exn (e : exn) : string :=
  match e with
  | ClientError code => ("An error occurred (" ++ code ++ ")")%string
  | OtherError what => what
  end.

Section WithClient.
Context {W : Type} {S3 : S3Client W}.

(** One iteration of the loop of [read_csv_from_s3]: [Some r] is
    [return r]. *)
Definition read_attempt (bucket key : string) (max_retries attempt : Z)
    : M W (option (option text)) :=
  try_catch
    (content <- call (get_object bucket key) (EvGet bucket key) ;;
     ret (Some (Some content)))
    (fun e =>
       match e with
       | ClientError error_code =>
           if code_in error_code ["NoSuchKey"; "NoSuchBucket"; "AccessDenied"]
           then ret (Some None)
           else when (attempt <? max_retries - 1) (sleep (500 * (attempt + 1)) false) ;;
                ret None
       | OtherError _ =>
           when (attempt <? max_retries - 1) (sleep (500 * (attempt + 1)) false) ;;
           ret None
       end).

Fixpoint read_from (bucket key : string) (max_retries : Z) (todo : nat) (attempt : Z)
    : M W (option text) :=
  match todo with
  | O => ret None
  | S todo' =>
      r <- read_attempt bucket key max_retries attempt ;;
      match r with
      | Some content => ret content
      | None => read_from bucket key max_retries todo' (attempt + 1)
      end
  end.

Definition read_csv_from_s3 (bucket key : string) (max_retries : Z) : M W (option text) :=
  read_from bucket key max_retries (Z.to_nat max_retries) 0.


(** One turn of the [for file_info in batch] loop of a worker: the read
    (outside the lock) and the critical section. The read touches none of
    the shared variables, so the turn is one step of the interleaving. *)
Definition worker_step (source_bucket : string) (sh : shared) (wk : worker)
    : M W (shared * worker) :=
  match pending wk with
  | [] => ret (sh, wk)
  | file_info :: rest =>
      r <- try_catch
             (csv_content <- read_csv_from_s3 source_bucket (Key file_info) 2 ;;
              ret (contribute sh (batch_content wk) (batch_rows wk) csv_content))
             (fun _ => ret (sh, (batch_content wk, batch_rows wk))) ;;
      let '(sh', (content', rows')) := r in
      ret (sh', mkWorker rest content' rows')
  end.

(** The workers run as a schedule says: each entry lets the worker of
    that batch take one turn (none if it has finished or does not exist).
    Any interleaving of the turns is some schedule; the pool's bound on
    the number of running workers only forbids some of them. *)
Fixpoint run_schedule (source_bucket : string) (sched : list nat)
    (sh : shared) (ws : list worker) : M W (shared * list worker) :=
  match sched with
  | [] => ret (sh, ws)
  | b :: sched' =>
      match nth_error ws b with
      | None => run_schedule source_bucket sched' sh ws
      | Some wk =>
          r <- worker_step source_bucket sh wk ;;
          let '(sh', wk') := r in
          run_schedule source_bucket sched' sh' (set_nth b wk' ws)
      end
  end.

(** [merge_csv_files]; [sched] and [order] are the interleaving of the
    workers and the order of [as_completed]. A worker handles every
    exception of a file itself, so [future.result()] does not raise. *)
Definition merge_csv_files (sched order : list nat) (csv_files : list obj)
    (source_bucket dest_bucket dest_prefix output_filename : string) (batch_size : Z)
    : M W results :=
  (* ThreadPoolExecutor(max_workers=min(10, len(csv_files))) *)
  if Z.min 10 (Py.len csv_files) <=? 0
  then raise (OtherError "max_workers must be greater than 0")
  else
  match Partitioner.batches csv_files batch_size with
  | Err e => raise e
  | Ok batches =>
      let ws := map (fun batch => mkWorker batch [] 0) batches in
      r <- run_schedule source_bucket (sched ++ run_to_end 0 batches)
             (mkShared false 0) ws ;;
      let '(sh, ws') := r in
      let done := map (fun b => nth b ws' (mkWorker [] [] 0))
                      (completion_order order (List.length ws')) in
      let merged_csv := flat_map (fun wk => write_lines (batch_content wk)) done in
      let total_rows := fold_left (fun acc wk => acc + batch_rows wk) done 0 in
      let output_key :=
        if Py.truthy dest_prefix
        then (Py.rstrip_slash dest_prefix ++ "/" ++ output_filename)%string
        else output_filename in
      call (put_object dest_bucket output_key merged_csv "text/csv")
           (EvPut dest_bucket output_key merged_csv "text/csv") ;;
      ret (mkResults (files_processed sh)
             ("s3://" ++ dest_bucket ++ "/" ++ output_key)%string
             total_rows)
  end.

(** The key test of the merge's listings:
    [obj['Key'].lower().endswith('.csv') and not obj['Key'].endswith('/')]. *)
Definition keep_csv (key : string) : bool :=
  andb (Py.endswith (Py.lower key) ".csv") (negb (Py.endswith key "/")).

Definition list_csv_files_standard := Lister.list_standard keep_csv.
Definition list_csv_files_with_pagination := Lister.list_with_pagination keep_csv.
Definition list_csv_files_by_time_range := Lister.list_by_time_range keep_csv.

Definition get_csv_files_with_retry (fuel : nat) (bucket prefix : string)
    (max_files max_retries : Z) : M W (list obj) :=
  Lister.with_retry
    (list_csv_files_standard bucket prefix max_files)
    (list_csv_files_with_pagination fuel bucket prefix max_files)
    (list_csv_files_by_time_range bucket prefix max_files)
    max_retries.

Definition get_time : M W Z :=
  fun s => let (t, w') := time_time (world s) in Ret t (mkState w' (trace s)).

Definition default (d : Z) (x : option Z) : Z :=
  match x with Some v => v | None => d end.

Definition str_or_empty (x : option string) : string :=
  match x with Some v => v | None => "" end.

(** [lambda_handler(event, context)] with the environment variables. *)
Definition lambda_handler (fuel : nat) (sched order : list nat)
    (event : request) (env : environ) : M W response :=
  try_catch
    (let source_bucket := Py.or_else (source_bucket event) (SOURCE_BUCKET env) in
     let dest_bucket := Py.or_else (dest_bucket event) (DEST_BUCKET env) in
     let source_prefix := str_or_empty (Py.or_else (source_prefix event) (SOURCE_PREFIX env)) in
     let dest_prefix := str_or_empty (Py.or_else (dest_prefix event) (DEST_PREFIX env)) in
     let max_files_per_execution := default 1000 (max_files_per_execution event) in
     let batch_size := default 100 (batch_size event) in
     output_filename <-
       (if Py.truthy_opt (output_filename event)
        then ret (str_or_empty (output_filename event))
        else t <- get_time ;; ret ("merged_csv_" ++ Py.str_of_Z t ++ ".csv")%string) ;;
     if orb (negb (Py.truthy_opt source_bucket)) (negb (Py.truthy_opt dest_bucket))
     then raise (OtherError "source_bucket e dest_bucket são obrigatórios")
     else
       let source_bucket := str_or_empty source_bucket in
       let dest_bucket := str_or_empty dest_bucket in
       csv_files <- get_csv_files_with_retry fuel source_bucket source_prefix
                      max_files_per_execution 3 ;;
       if negb (Lister.nonempty csv_files) then
         ret (mkResponse 200
                (BodyNoFiles "Nenhum arquivo CSV encontrado" 0 source_bucket dest_bucket))
       else
         results <- merge_csv_files sched order csv_files source_bucket dest_bucket
                      dest_prefix output_filename batch_size ;;
         ret (mkResponse 200
                (BodyDone "Merge de CSVs concluído" (r_files_processed results)
                   (output_file results) source_bucket dest_bucket (total_rows results))))
    (fun e => ret (mkResponse 500 (BodyError (str_of_exn e) "Erro na execução da Lambda"))).

End WithClient.
End Merge.

(* ===================================================================== *)
(** * The handler of the file mover *)
(* ===================================================================== *)

Module MoverLambda.

(** The event and the environment variables of the mover's
    [lambda_handler]. *)
Record request : Type := mkRequest {
  source_bucket : option string;
  dest_bucket : option string;
  source_prefix : option string;
  dest_prefix : option string;
  max_files_per_execution : option Z;
  batch_size : option Z
}.

(** The JSON body of a response; the elapsed time is not modelled. *)
Inductive body : Type :=
| BodyNoFiles (message : string) (files_processed : Z) (source_bucket dest_bucket : string)
| BodyDone (message : string) (files_processed errors : Z) (source_bucket dest_bucket : string)
| BodyError (error : string) (message : string).

Record response : Type := mkResponse { statusCode : Z; r_body : body }.

Section WithClient.
Context {W : Type} {S3 : S3Client W}.

(** [lambda_handler(event, context)] of [s3_file_mover_lambda.py]. *)
Definition lambda_handler (fuel : nat) (event : request) (env : Merge.environ)
    : M W response :=
  try_catch
    (let source_bucket := Py.or_else (source_bucket event) (Merge.SOURCE_BUCKET env) in
     let dest_bucket := Py.or_else (dest_bucket event) (Merge.DEST_BUCKET env) in
     let source_prefix :=
       Merge.str_or_empty (Py.or_else (source_prefix event) (Merge.SOURCE_PREFIX env)) in
     let dest_prefix :=
       Merge.str_or_empty (Py.or_else (dest_prefix event) (Merge.DEST_PREFIX env)) in
     let max_files_per_execution := Merge.default 1000 (max_files_per_execution event) in
     let batch_size := Merge.default 100 (batch_size event) in
     if orb (negb (Py.truthy_opt source_bucket)) (negb (Py.truthy_opt dest_bucket))
     then raise (OtherError "source_bucket e dest_bucket são obrigatórios")
     else
       let source_bucket := Merge.str_or_empty source_bucket in
       let dest_bucket := Merge.str_or_empty dest_bucket in
       files_to_process <- Mover.get_files_with_retry fuel source_bucket source_prefix
                             max_files_per_execution 3 ;;
       if negb (Lister.nonempty files_to_process) then
         ret (mkResponse 200
                (BodyNoFiles "Nenhum arquivo encontrado" 0 source_bucket dest_bucket))
       else
         results <- Mover.process_files_in_batches files_to_process source_bucket
                      dest_bucket source_prefix dest_prefix batch_size ;;
         ret (mkResponse 200
                (BodyDone "Processamento concluído" (Mover.success_count results)
                   (Mover.error_count results) source_bucket dest_bucket)))
    (fun e => ret (mkResponse 500
                     (BodyError (Merge.str_of_exn e) "Erro na execução da Lambda"))).

End WithClient.
End MoverLambda.

(* ===================================================================== *)
(** * Python's true division of integers and [math.ceil] *)
(* ===================================================================== *)

Module Float.

(** A finite binary64 value [m * 2^e], kept as mantissa and exponent. *)
Definition dyadic : Type := (Z * Z)%type.

(** [floor(log2(a / b))] for [a, b > 0]. *)
Definition floor_log2_ratio (a b : Z) : Z :=
  let d := Z.log2 a - Z.log2 b in
  if (if 0 <=? d then b * 2 ^ d <=? a else b <=? a * 2 ^ (- d)) then d else d - 1.

(** The integer nearest to [n / d] for [d > 0], ties to even. *)
Definition round_half_even (n d : Z) : Z :=
  let q := n / d in
  let r := n mod d in
  if 2 * r <? d then q
  else if d <? 2 * r then q + 1
  else if Z.even q then q else q + 1.

(** [a / b] for [a >= 0] and [b > 0]: the quotient rounded to the nearest
    binary64 (53 bits of mantissa, exponents from -1074), as CPython's
    [long_true_divide] computes it. *)
Definition true_divide_pos (a b : Z) : outcome dyadic :=
  if a =? 0 then Ok (0, 0)
  else
    let e := Z.max (floor_log2_ratio a b - 52) (-1074) in
    let m := if 0 <=? e then round_half_even a (b * 2 ^ e)
             else round_half_even (a * 2 ^ (- e)) b in
    if andb (0 <=? e) (2 ^ 1024 <=? m * 2 ^ e)
    then Err (OtherError "integer division result too large for a float")
    else Ok (m, e).

(** [a / b] on integers. *)
Definition true_divide (a b : Z) : outcome dyadic :=
  if b =? 0 then Err (OtherError "division by zero")
  else
    match true_divide_pos (Z.abs a) (Z.abs b) with
    | Ok (m, e) => Ok (Z.sgn a * Z.sgn b * m, e)
    | Err e => Err e
    end.

(** [math.ceil(x)] *)
Definition ceil (x : dyadic) : Z :=
  let (m, e) := x in
  if 0 <=? e then m * 2 ^ e else - ((- m) / 2 ^ (- e)).

End Float.

(* ===================================================================== *)
(** * The batch planner: [batch_generator_lambda.py] *)
(* ===================================================================== *)

Module Planner.

(** [f"{n:03d}"] for [n >= 0]. *)
Definition pad3 (n : Z) : string :=
  let s := Py.str_of_Z n in
  match String.length s with
  | 1%nat => ("00" ++ s)%string
  | 2%nat => ("0" ++ s)%string
  | _ => s
  end.

Record batch_info : Type := mkBatchInfo {
  batch_number : Z;
  batch_start_index : Z;
  batch_end_index : Z;
  source_bucket : string;
  source_prefix : string;
  output_filename : string
}.

Record request : Type := mkRequest {
  ev_source_bucket : option string;
  ev_source_prefix : option string;
  ev_total_files : option Z;
  ev_files_per_batch : option Z
}.

Inductive response : Type :=
| Resp200 (batches : list batch_info) (total_batches total_files files_per_batch : Z)
| Resp500 (error message : string).

(** The body of the [for batch_num in range(total_batches)] loop. *)
Definition make_batch (source_bucket source_prefix : string)
    (total_files files_per_batch batch_num : Z) : batch_info :=
  let start_index := batch_num * files_per_batch in
  let end_index := Z.min (start_index + files_per_batch) total_files in
  mkBatchInfo (batch_num + 1) start_index end_index source_bucket source_prefix
    ("merged_batch_" ++ pad3 (batch_num + 1) ++ ".csv")%string.

(** [range(n)] *)
Definition range (n : Z) : list Z := map Z.of_nat (seq 0 (Z.to_nat n)).

(** The plan: [math.ceil(total_files / files_per_batch)] descriptors. *)
Definition plan (source_bucket source_prefix : string)
    (total_files files_per_batch : Z) : outcome (list batch_info) :=
  match Float.true_divide total_files files_per_batch with
  | Err e => Err e
  | Ok x =>
      let total_batches := Float.ceil x in
      Ok (map (make_batch source_bucket source_prefix total_files files_per_batch)
              (range total_batches))
  end.

Definition lambda_handler (event : request) : response :=
  let source_bucket := ev_source_bucket event in
  let source_prefix := match ev_source_prefix event with Some p => p | None => "" end in
  let total_files := match ev_total_files event with Some n => n | None => 300000 end in
  let files_per_batch := match ev_files_per_batch event with Some n => n | None => 1000 end in
  if negb (Py.truthy_opt source_bucket)
  then Resp500 "source_bucket é obrigatório" "Erro na geração de lotes"
  else
    let source_bucket := match source_bucket with Some b => b | None => "" end in
    match plan source_bucket source_prefix total_files files_per_batch with
    | Err e => Resp500 (Merge.str_of_exn e) "Erro na geração de lotes"
    | Ok batches => Resp200 batches (Py.len batches) total_files files_per_batch
    end.

End Planner.

(* ===================================================================== *)
(** * The result aggregator: [results_aggregator_lambda.py] *)
(* ===================================================================== *)

Module Aggregator.

(** The values of the event: what [json] gives. A float is its 64 bits. *)
#[warnings="-register-all"]
Inductive pyval : Type :=
| PNone
| PBool (b : bool)
| PInt (n : Z)
| PFloat (bits : Z)
| PStr (s : string)
| PList (l : list pyval)
| PDict (items : list (string * pyval)).

(** The builtins the handler applies to such values; their results are
    Python's, whatever they are. *)
Class Builtins : Type := {
  json_loads : pyval -> outcome pyval;
  py_add : pyval -> pyval -> outcome pyval;        (* a + b *)
  py_truediv : pyval -> pyval -> outcome pyval;    (* a / b *)
  py_mul : pyval -> pyval -> outcome pyval;        (* a * b *)
  py_round2 : pyval -> outcome pyval;              (* round(a, 2) *)
  py_eq : pyval -> pyval -> bool;                  (* a == b *)
  py_str : pyval -> string;                        (* str(a) *)
  json_dumps : pyval -> outcome text               (* json.dumps(a, ...) *)
}.

Fixpoint lookup (key : string) (items : list (string * pyval)) : option pyval :=
  match items with
  | [] => None
  | (k, v) :: rest => if String.eqb k key then Some v else lookup key rest
  end.

(** [needle in haystack] on strings. *)
Definition is_substring (needle haystack : string) : bool :=
  match String.index 0 needle haystack with Some _ => true | None => false end.

Definition TypeError : exn := OtherError "TypeError".
Definition KeyError : exn := OtherError "KeyError".
Definition AttributeError : exn := OtherError "AttributeError".

Section WithBuiltins.
Context {B : Builtins}.

(** [key in v] *)
Definition contains (key : string) (v : pyval) : outcome bool :=
  match v with
  | PDict items => Ok (match lookup key items with Some _ => true | None => false end)
  | PList l => Ok (existsb (py_eq (PStr key)) l)
  | PStr s => Ok (is_substring key s)
  | _ => Err TypeError
  end.

(** [v[key]] *)
Definition getitem (v : pyval) (key : string) : outcome pyval :=
  match v with
  | PDict items => match lookup key items with Some x => Ok x | None => Err KeyError end
  | _ => Err TypeError
  end.

(** [v.get(key, default)] *)
Definition get (v : pyval) (key : string) (default : pyval) : outcome pyval :=
  match v with
  | PDict items => Ok (match lookup key items with Some x => x | None => default end)
  | _ => Err AttributeError
  end.

(** The locals the loop over [parallel_results] updates. *)
Record acc : Type := mkAcc {
  total_files_processed : pyval;
  total_rows : pyval;
  successful_batches : Z;
  failed_batches : Z;
  execution_times : list pyval;
  output_files : list pyval;
  errors : list pyval
}.

(** Statements that update the locals and may raise; what was updated
    before an exception stays updated. *)
Definition St (X : Type) : Type := acc -> outcome X * acc.

Definition sret {X} (x : X) : St X := fun a => (Ok x, a).

Definition sbind {X Y} (m : St X) (k : X -> St Y) : St Y :=
  fun a => match m a with
           | (Ok x, a') => k x a'
           | (Err e, a') => (Err e, a')
           end.

Definition lift {X} (o : outcome X) : St X := fun a => (o, a).

Definition update (f : acc -> acc) : St unit := fun a => (Ok tt, f a).

Notation "x <~ m ;; k" := (sbind m (fun x => k))
  (at level 61, m at next level, right associativity).
Notation "m ~~ k" := (sbind m (fun _ => k))
  (at level 61, right associativity).

Definition add_failed : St unit :=
  update (fun a => mkAcc (total_files_processed a) (total_rows a) (successful_batches a)
                         (failed_batches a + 1) (execution_times a) (output_files a)
                         (errors a)).

Definition append_error (e : pyval) : St unit :=
  update (fun a => mkAcc (total_files_processed a) (total_rows a) (successful_batches a)
                         (failed_batches a) (execution_times a) (output_files a)
                         (errors a ++ [e])).

Definition add_successful : St unit :=
  update (fun a => mkAcc (total_files_processed a) (total_rows a) (successful_batches a + 1)
                         (failed_batches a) (execution_times a) (output_files a)
                         (errors a)).

Definition add_files (v : pyval) : St unit :=
  fun a => match py_add (total_files_processed a) v with
           | Ok t => (Ok tt, mkAcc t (total_rows a) (successful_batches a)
                               (failed_batches a) (execution_times a) (output_files a)
                               (errors a))
           | Err e => (Err e, a)
           end.

Definition add_rows (v : pyval) : St unit :=
  fun a => match py_add (total_rows a) v with
           | Ok t => (Ok tt, mkAcc (total_files_processed a) t (successful_batches a)
                               (failed_batches a) (execution_times a) (output_files a)
                               (errors a))
           | Err e => (Err e, a)
           end.

Definition append_time (v : pyval) : St unit :=
  update (fun a => mkAcc (total_files_processed a) (total_rows a) (successful_batches a)
                         (failed_batches a) (execution_times a ++ [v]) (output_files a)
                         (errors a)).

Definition append_output (v : pyval) : St unit :=
  update (fun a => mkAcc (total_files_processed a) (total_rows a) (successful_batches a)
                         (failed_batches a) (execution_times a) (output_files a ++ [v])
                         (errors a)).

(** The body of the [try] for one result. *)
Definition classify (result : pyval) : St unit :=
  has_payload <~ lift (contains "Payload" result) ;;
  has_body <~ (if has_payload : bool then
                 payload <~ lift (getitem result "Payload") ;;
                 lift (contains "body" payload)
               else sret false) ;;
  if has_body : bool then
    payload <~ lift (getitem result "Payload") ;;
    raw <~ lift (getitem payload "body") ;;
    body <~ lift (json_loads raw) ;;
    payload <~ lift (getitem result "Payload") ;;
    status <~ lift (getitem payload "statusCode") ;;
    if py_eq status (PInt 200) then
      add_successful ~~
      v <~ lift (get body "files_processed" (PInt 0)) ;;
      add_files v ~~
      v <~ lift (get body "total_rows" (PInt 0)) ;;
      add_rows v ~~
      v <~ lift (get body "execution_time_seconds" (PInt 0)) ;;
      append_time v ~~
      has_output <~ lift (contains "output_file" body) ;;
      if has_output : bool then
        v <~ lift (getitem body "output_file") ;;
        append_output v
      else sret tt
    else
      add_failed ~~
      e <~ lift (get body "error" (PStr "Erro desconhecido")) ;;
      m <~ lift (get body "message" (PStr "")) ;;
      append_error (PDict [("error", e); ("message", m)])
  else
    has_error <~ lift (contains "error" result) ;;
    if has_error : bool then
      add_failed ~~
      e <~ lift (getitem result "error") ;;
      info <~ lift (get result "batch_info" (PDict [])) ;;
      append_error (PDict [("error", PStr (py_str e)); ("batch_info", info)])
    else sret tt.

(** One turn of the loop: the [try] and its [except Exception]. *)
Definition aggregate_one (result : pyval) (a : acc) : acc :=
  match classify result a with
  | (Ok _, a') => a'
  | (Err e, a') =>
      snd (sbind add_failed (fun _ =>
           append_error
             (PDict [("error", PStr ("Erro no parsing do resultado: "
                                     ++ Merge.str_of_exn e)%string);
                     ("raw_result", PStr (py_str result))])) a')
  end.

Definition aggregate (parallel_results : list pyval) : acc :=
  fold_left (fun a result => aggregate_one result a) parallel_results
    (mkAcc (PInt 0) (PInt 0) 0 0 [] [] []).

(** [sum(l)] *)
Fixpoint py_sum_from (total : pyval) (l : list pyval) : outcome pyval :=
  match l with
  | [] => Ok total
  | v :: rest => match py_add total v with
                 | Ok t => py_sum_from t rest
                 | Err e => Err e
                 end
  end.

Definition py_sum (l : list pyval) : outcome pyval := py_sum_from (PInt 0) l.

Record summary_report : Type := mkReport {
  timestamp : Z;
  total_batches : Z;
  r_successful_batches : Z;
  r_failed_batches : Z;
  success_rate : pyval;
  r_total_files_processed : pyval;
  total_data_rows : pyval;
  average_execution_time_seconds : pyval;
  total_execution_time_seconds : pyval;
  r_output_files : list pyval;
  r_errors : list pyval
}.

(** The report as a value, for [json.dumps]. *)
Definition report_value (r : summary_report) : pyval :=
  PDict [("execution_summary",
          PDict [("timestamp", PInt (timestamp r));
                 ("total_batches", PInt (total_batches r));
                 ("successful_batches", PInt (r_successful_batches r));
                 ("failed_batches", PInt (r_failed_batches r));
                 ("success_rate", success_rate r)]);
         ("processing_stats",
          PDict [("total_files_processed", r_total_files_processed r);
                 ("total_data_rows", total_data_rows r);
                 ("average_execution_time_seconds", average_execution_time_seconds r);
                 ("total_execution_time_seconds", total_execution_time_seconds r)]);
         ("output_files", PList (r_output_files r));
         ("errors", PList (r_errors r))].

(** [sum(execution_times) / len(execution_times) if execution_times else 0] *)
Definition average_time (a : acc) : outcome pyval :=
  let times := execution_times a in
  if Lister.nonempty times then
    match py_sum times with
    | Ok total => py_truediv total (PInt (Py.len times))
    | Err e => Err e
    end
  else Ok (PInt 0).

(** The report, built after the average and the reading of the clock;
    any exception here, as in the average, reaches the outer [except]. *)
Definition summarize (now : Z) (parallel_results : list pyval) (a : acc)
    (avg_execution_time : pyval) : outcome summary_report :=
  match (if Lister.nonempty parallel_results then
           match py_truediv (PInt (successful_batches a)) (PInt (Py.len parallel_results)) with
           | Ok q => py_mul q (PInt 100)
           | Err e => Err e
           end
         else Ok (PInt 0)) with
  | Err e => Err e
  | Ok rate =>
  match py_round2 avg_execution_time with
  | Err e => Err e
  | Ok avg =>
  match py_sum (execution_times a) with
  | Err e => Err e
  | Ok total =>
  match py_round2 total with
  | Err e => Err e
  | Ok total_time =>
      Ok (mkReport now (Py.len parallel_results) (successful_batches a) (failed_batches a)
            rate (total_files_processed a) (total_rows a) avg total_time
            (output_files a)
            (if Lister.nonempty (errors a) then firstn 10 (errors a) else []))
  end end end end.

Record request : Type := mkRequest {
  parallel_results : option (list pyval);
  dest_bucket : option string;
  dest_prefix : option string
}.

Inductive response : Type :=
| Resp200 (summary : summary_report) (report_location : string)
| Resp500 (error message : string).

Section WithClient.
Context {W : Type} {S3 : S3Client W}.

Definition lambda_handler (event : request) : M W response :=
  try_catch
    (let parallel_results := match parallel_results event with Some l => l | None => [] end in
     let dest_prefix := Merge.str_or_empty (dest_prefix event) in
     if negb (Py.truthy_opt (dest_bucket event))
     then raise (OtherError "dest_bucket é obrigatório")
     else
       let dest_bucket := Merge.str_or_empty (dest_bucket event) in
       let a := aggregate parallel_results in
       match average_time a with
       | Err e => raise e
       | Ok avg_execution_time =>
       t <- Lister.datetime_now ;;
       match summarize t parallel_results a avg_execution_time with
       | Err e => raise e
       | Ok summary_report =>
           t' <- Lister.datetime_now ;;
           let name := ("execution_report_" ++ Py.str_of_Z (t' / 1000000) ++ ".json")%string in
           let report_key :=
             if Py.truthy dest_prefix
             then (Py.rstrip_slash dest_prefix ++ "/" ++ name)%string
             else name in
           try_catch
             (match json_dumps (report_value summary_report) with
              | Err e => raise e
              | Ok body =>
                  call (put_object dest_bucket report_key body "application/json")
                       (EvPut dest_bucket report_key body "application/json")
              end)
             (fun _ => ret tt) ;;
           ret (Resp200 summary_report ("s3://" ++ dest_bucket ++ "/" ++ report_key)%string)
       end end)
    (fun e => ret (Resp500 (Merge.str_of_exn e) "Erro na agregação de resultados")).

End WithClient.
End WithBuiltins.
End Aggregator.

(* ===================================================================== *)
(** * What a paginator lists *)
(* ===================================================================== *)


(** Whether a single-page listing asks for between 1 and 1000 keys. *)
Definition asks_within_limits (ev : event) : Prop :=
  match asks_keys ev with
  | Some max_keys => 1 <= max_keys <= 1000
  | None => True
  end.

(* ===================================================================== *)
(** * Test doubles of the object store *)
(* ===================================================================== *)

Module Mock.

(** An in-memory store: the objects of every bucket, in key order, and a
    clock that does not move. *)
Record store : Type := mkStore {
  objects : list (string * string * text);   (* bucket, key, content *)
  clock : Z
}.

Definition same (bucket key : string) (o : string * string * text) : bool :=
  andb (String.eqb (fst (fst o)) bucket) (String.eqb (snd (fst o)) key).

Definition find_object (bucket key : string) (st : store) : option text :=
  match filter (same bucket key) (objects st) with
  | o :: _ => Some (snd o)
  | [] => None
  end.

Definition store_object (bucket key : string) (content : text) (st : store) : store :=
  mkStore (filter (fun o => negb (same bucket key o)) (objects st)
             ++ [(bucket, key, content)])
          (clock st).

Definition listing (bucket prefix : string) (st : store) : list obj :=
  map (fun o => mkObj (snd (fst o)) (Py.len (snd o)) (clock st))
      (filter (fun o => andb (String.eqb (fst (fst o)) bucket)
                             (Py.startswith (snd (fst o)) prefix))
              (objects st)).

Definition mem_client : S3Client store := {|
  copy_object := fun sb sk db dk st =>
    match find_object sb sk st with
    | Some c => (Ok tt, store_object db dk c st)
    | None => (Err (ClientError "NoSuchKey"), st)
    end;
  head_object := fun b k st =>
    match find_object b k st with
    | Some _ => (Ok tt, st)
    | None => (Err (ClientError "404"), st)
    end;
  delete_object := fun b k st =>
    (Ok tt, mkStore (filter (fun o => negb (same b k o)) (objects st)) (clock st));
  get_object := fun b k st =>
    match find_object b k st with
    | Some c => (Ok c, st)
    | None => (Err (ClientError "NoSuchKey"), st)
    end;
  put_object := fun b k body _ st => (Ok tt, store_object b k body st);
  list_objects_v2 := fun b p _ _ st =>
    match listing b p st with
    | [] => (Ok (mkResp None (Some false) None), st)
    | l => (Ok (mkResp (Some l) (Some false) None), st)
    end;
  paginate := fun b p max_items _ st =>
    match firstn (Z.to_nat max_items) (listing b p st) with
    | [] => (PagesNext (mkPage None) PagesEnd, st)
    | l => (PagesNext (mkPage (Some l)) PagesEnd, st)
    end;
  now := fun st => (clock st, st);
  time_time := fun st => (clock st / 1000000, st)
|}.

(** A store whose calls all answer the same way, whatever was done
    before: the copy, the probe and the listing are given; nothing is ever
    listed with content. *)
Definition scripted (copy head : outcome unit) (pages_listed : pages)
    (listed : outcome list_response) : S3Client unit := {|
  copy_object := fun _ _ _ _ w => (copy, w);
  head_object := fun _ _ w => (head, w);
  delete_object := fun _ _ w => (Ok tt, w);
  get_object := fun _ _ w => (Err (ClientError "NoSuchKey"), w);
  put_object := fun _ _ _ _ w => (Ok tt, w);
  list_objects_v2 := fun _ _ _ _ w => (listed, w);
  paginate := fun _ _ _ _ w => (pages_listed, w);
  now := fun w => (0, w);
  time_time := fun w => (0, w)
|}.

Definition empty_response : list_response := mkResp None (Some false) None.

(** Copies land but the probe never sees them. *)
Definition blind_client : S3Client unit :=
  scripted (Ok tt) (Err (ClientError "404")) PagesEnd (Ok empty_response).

(** Every listing call fails with the given error. *)
Definition failing_client (e : exn) : S3Client unit :=
  scripted (Ok tt) (Ok tt) (PagesRaise e) (Err e).

(** Nothing is ever listed. *)
Definition empty_client : S3Client unit :=
  scripted (Ok tt) (Ok tt) (PagesNext (mkPage None) PagesEnd) (Ok empty_response).

Definition start {W} (w : W) : state W := mkState w [].

(** The three objects of [test_csv_merge.py]. *)
Definition test_objects : list (string * string * text) :=
  [("test-source-bucket", "test1.csv", Py.txt "name,age,city" ++ [10] ++ Py.txt "Joao,25,Sao Paulo");
   ("test-source-bucket", "test2.csv", Py.txt "name,age,city" ++ [10] ++ Py.txt "Maria,30,Rio de Janeiro");
   ("test-source-bucket", "test3.csv", Py.txt "name,age,city" ++ [10] ++ Py.txt "Pedro,35,Belo Horizonte")].

Definition test_store : store := mkStore test_objects 0.

(** A source bucket without any CSV object, and a request to merge it. *)
Definition notes_store : store :=
  mkStore [("notes-bucket", "readme.txt", Py.txt "hello");
           ("notes-bucket", "archive/", [])] 0.

Definition notes_request : Merge.request :=
  Merge.mkRequest (Some "notes-bucket") (Some "merged-bucket") (Some "") (Some "merged")
    (Some 10) (Some 2) (Some "out.csv").

Definition no_environ : Merge.environ := Merge.mkEnviron None None None None.

Definition test_files : list obj := listing "test-source-bucket" "" test_store.

(** Builtins for integers only: enough to run the aggregator on
    integer-valued results. *)
Definition int_builtins : Aggregator.Builtins := {|
  Aggregator.json_loads := fun v =>
    match v with
    | Aggregator.PStr "{}" => Ok (Aggregator.PDict [])
    | _ => Err (OtherError "JSONDecodeError")
    end;
  Aggregator.py_add := fun a b =>
    match a, b with
    | Aggregator.PInt x, Aggregator.PInt y => Ok (Aggregator.PInt (x + y))
    | _, _ => Err Aggregator.TypeError
    end;
  Aggregator.py_truediv := fun a b =>
    match a, b with
    | Aggregator.PInt x, Aggregator.PInt y =>
        if y =? 0 then Err (OtherError "division by zero") else Ok (Aggregator.PInt (x / y))
    | _, _ => Err Aggregator.TypeError
    end;
  Aggregator.py_mul := fun a b =>
    match a, b with
    | Aggregator.PInt x, Aggregator.PInt y => Ok (Aggregator.PInt (x * y))
    | _, _ => Err Aggregator.TypeError
    end;
  Aggregator.py_round2 := fun a =>
    match a with
    | Aggregator.PInt x => Ok a
    | _ => Err Aggregator.TypeError
    end;
  Aggregator.py_eq := fun a b =>
    match a, b with
    | Aggregator.PInt x, Aggregator.PInt y => x =? y
    | Aggregator.PStr x, Aggregator.PStr y => String.eqb x y
    | _, _ => false
    end;
  Aggregator.py_str := fun a =>
    match a with
    | Aggregator.PStr x => x
    | Aggregator.PInt x => Py.str_of_Z x
    | _ => "<value>"
    end;
  Aggregator.json_dumps := fun _ => Ok []
|}.

End Mock.

(* ===================================================================== *)
(** * Theorems *)
(* ===================================================================== *)

(** ** Traces *)

Lemma none_of_app kind t1 t2 :
  none_of kind t1 -> none_of kind t2 -> none_of kind (t1 ++ t2).
Proof. unfold none_of. intros H1 H2. apply Forall_app. split; assumption. Qed.

Lemma count_app kind t1 t2 :
  count kind (t1 ++ t2) = (count kind t1 + count kind t2)%nat.
Proof. unfold count. rewrite filter_app, length_app. reflexivity. Qed.

Lemma count_none_of kind t : none_of kind t -> count kind t = 0%nat.
Proof.
  unfold none_of, count. induction 1 as [|ev t Hev _ IH]; simpl.
  - reflexivity.
  - rewrite Hev. exact IH.
Qed.

Lemma deletes_verified_none bucket key t :
  none_of is_delete t -> deletes_verified bucket key t.
Proof.
  intros Hnone pre ev post -> Hdel.
  apply Forall_app in Hnone as [_ Hnone].
  inversion Hnone as [|? ? Hev _]; subst. congruence.
Qed.

Lemma deletes_verified_app bucket key t1 t2 :
  deletes_verified bucket key t1 -> deletes_verified bucket key t2 ->
  deletes_verified bucket key (t1 ++ t2).
Proof.
  intros H1 H2 pre ev post Heq Hdel.
  symmetry in Heq. apply app_eq_app in Heq as [l [[-> Ht2] | [Ht1 Hrest]]].
  - apply in_or_app. right. eapply H2; eauto.
  - destruct l as [|x l]; simpl in Hrest.
    + exfalso. exact (H2 [] ev post (eq_sym Hrest) Hdel).
    + injection Hrest as <- _.
      apply (H1 pre ev l Ht1 Hdel).
Qed.

Lemma deletes_verified_probe bucket key b k ok t :
  none_of is_delete t ->
  deletes_verified bucket key (EvHead bucket key true :: EvDelete b k ok :: t).
Proof.
  intros Hnone pre ev post Heq Hdel.
  destruct pre as [|x pre]; simpl in Heq.
  - injection Heq as <- _. discriminate.
  - injection Heq as <- Heq. left. reflexivity.
Qed.

(** ** The transfer worker *)

Arguments code_in : simpl never.

Section MoverFacts.
Context {W : Type} {S3 : S3Client W}.

(** Unfold the monad on a run. *)
Ltac run := unfold bind, try_catch, call, ret, raise, when, sleep, emit; simpl.

(** One attempt returns, and what it adds to the trace deletes only after
    a probe that succeeded; when the copy lands and the probe fails, it
    adds one copy and no delete, and does not report success. *)
Lemma move_file_attempt_spec sb sk db dk max_retries attempt (s : state W) :
  exists r s' added,
    Mover.move_file_attempt sb sk db dk max_retries attempt s = Ret r s'
    /\ trace s' = trace s ++ added
    /\ deletes_verified db dk added
    /\ ((forall w, fst (copy_object sb sk db dk w) = Ok tt) ->
        (forall w, exists e, fst (head_object db dk w) = Err e) ->
        r <> Some true /\ none_of is_delete added /\ count is_copy added = 1%nat
        /\ (r = Some false -> max_retries - 1 <= attempt)).
Proof.
  unfold Mover.move_file_attempt. run.
  destruct (copy_object sb sk db dk (world s)) as [[[]|ec] w1] eqn:Hcopy; simpl.
  - destruct (head_object db dk w1) as [[[]|eh] w2] eqn:Hhead; simpl.
    + (* verified: delete *)
      destruct (delete_object sb sk w2) as [[[]|ed] w3] eqn:Hdel; simpl.
      * eexists _, _, [_; _; _]. split; [reflexivity|]. simpl.
        split; [rewrite <- !app_assoc; reflexivity|].
        split.
        { apply (deletes_verified_app (t1 := [_])).
          - apply deletes_verified_none. repeat constructor.
          - apply deletes_verified_probe. constructor. }
        intros _ Hh. destruct (Hh w1) as [e He]. rewrite Hhead in He. discriminate.
      * assert (Hdv : deletes_verified db dk
                  [EvCopy sb sk db dk true; EvHead db dk true; EvDelete sb sk false]).
        { apply (deletes_verified_app (t1 := [_])).
          - apply deletes_verified_none. repeat constructor.
          - apply deletes_verified_probe. constructor. }
        assert (Hno : (forall w, exists e, fst (head_object db dk w) = Err e) -> False).
        { intros Hh. destruct (Hh w1) as [e He]. rewrite Hhead in He. discriminate. }
        destruct ed as [code|what]; simpl.
        -- destruct (code_in code _); simpl.
           ++ eexists _, _, [_; _; _]. split; [reflexivity|]. simpl.
              split; [rewrite <- !app_assoc; reflexivity|].
              split; [exact Hdv|]. intros _ Hh. exfalso. eauto.
           ++ destruct (attempt <? max_retries - 1); simpl.
              ** eexists _, _, [_; _; _; _]. split; [reflexivity|]. simpl.
                 split; [rewrite <- !app_assoc; reflexivity|].
                 split.
                 { apply (deletes_verified_app (t1 := [_; _; _]) (t2 := [_])); [exact Hdv|].
                   apply deletes_verified_none. repeat constructor. }
                 intros _ Hh. exfalso. eauto.
              ** eexists _, _, [_; _; _]. split; [reflexivity|]. simpl.
                 split; [rewrite <- !app_assoc; reflexivity|].
                 split; [exact Hdv|]. intros _ Hh. exfalso. eauto.
        -- destruct (attempt <? max_retries - 1); simpl.
           ++ eexists _, _, [_; _; _; _]. split; [reflexivity|]. simpl.
              split; [rewrite <- !app_assoc; reflexivity|].
              split.
              { apply (deletes_verified_app (t1 := [_; _; _]) (t2 := [_])); [exact Hdv|].
                apply deletes_verified_none. repeat constructor. }
              intros _ Hh. exfalso. eauto.
           ++ eexists _, _, [_; _; _]. split; [reflexivity|]. simpl.
              split; [rewrite <- !app_assoc; reflexivity|].
              split; [exact Hdv|]. intros _ Hh. exfalso. eauto.
    + (* the probe failed *)
      destruct eh as [code|what]; simpl.
      * destruct (attempt <? max_retries - 1) eqn:Hlast; simpl.
        -- eexists _, _, [_; _]. split; [reflexivity|]. simpl.
           split; [rewrite <- !app_assoc; reflexivity|].
           split; [apply deletes_verified_none; repeat constructor|].
           intros _ _. repeat split; try discriminate. repeat constructor.
        -- eexists _, _, [_; _]. split; [reflexivity|]. simpl.
           split; [rewrite <- !app_assoc; reflexivity|].
           split; [apply deletes_verified_none; repeat constructor|].
           intros _ _. repeat split; try discriminate; [repeat constructor|].
           intros _. apply Z.ltb_ge in Hlast. exact Hlast.
      * destruct (attempt <? max_retries - 1) eqn:Hlast; simpl.
        -- eexists _, _, [_; _; _]. split; [reflexivity|]. simpl.
           split; [rewrite <- !app_assoc; reflexivity|].
           split; [apply deletes_verified_none; repeat constructor|].
           intros _ _. repeat split; try discriminate. repeat constructor.
        -- eexists _, _, [_; _]. split; [reflexivity|]. simpl.
           split; [rewrite <- !app_assoc; reflexivity|].
           split; [apply deletes_verified_none; repeat constructor|].
           intros _ _. repeat split; try discriminate. repeat constructor.
  - (* the copy failed *)
    assert (Hno : (forall w, fst (copy_object sb sk db dk w) = Ok tt) -> False).
    { intros Hc. specialize (Hc (world s)). rewrite Hcopy in Hc. discriminate. }
    destruct ec as [code|what]; simpl.
    + destruct (code_in code _); simpl.
      * eexists _, _, [_]. split; [reflexivity|]. simpl.
        split; [reflexivity|].
        split; [apply deletes_verified_none; repeat constructor|].
        intros Hc _. exfalso. eauto.
      * destruct (attempt <? max_retries - 1); simpl.
        -- eexists _, _, [_; _]. split; [reflexivity|]. simpl.
           split; [rewrite <- !app_assoc; reflexivity|].
           split; [apply deletes_verified_none; repeat constructor|].
           intros Hc _. exfalso. eauto.
        -- eexists _, _, [_]. split; [reflexivity|]. simpl.
           split; [reflexivity|].
           split; [apply deletes_verified_none; repeat constructor|].
           intros Hc _. exfalso. eauto.
    + destruct (attempt <? max_retries - 1); simpl.
      * eexists _, _, [_; _]. split; [reflexivity|]. simpl.
        split; [rewrite <- !app_assoc; reflexivity|].
        split; [apply deletes_verified_none; repeat constructor|].
        intros Hc _. exfalso. eauto.
      * eexists _, _, [_]. split; [reflexivity|]. simpl.
        split; [reflexivity|].
        split; [apply deletes_verified_none; repeat constructor|].
        intros Hc _. exfalso. eauto.
Qed.

(** The loop of [move_file] from any attempt on. *)
Lemma move_file_from_spec sb sk db dk max_retries todo :
  forall attempt (s : state W),
  exists b s' added,
    Mover.move_file_from sb sk db dk max_retries todo attempt s = Ret b s'
    /\ trace s' = trace s ++ added
    /\ deletes_verified db dk added
    /\ ((forall w, fst (copy_object sb sk db dk w) = Ok tt) ->
        (forall w, exists e, fst (head_object db dk w) = Err e) ->
        Z.of_nat todo = Z.max 0 (max_retries - attempt) ->
        b = false /\ none_of is_delete added /\ count is_copy added = todo).
Proof.
  induction todo as [|todo IH]; intros attempt s; simpl.
  - exists false, s, []. unfold ret. rewrite app_nil_r.
    repeat split; try reflexivity.
    + apply deletes_verified_none. constructor.
    + constructor.
  - unfold bind.
    destruct (move_file_attempt_spec sb sk db dk max_retries attempt s)
      as (r & s1 & added1 & Hrun & Htr & Hdv & Hfail).
    rewrite Hrun. destruct r as [b|].
    + exists b, s1, added1. unfold ret. repeat split; try assumption.
      * destruct (Hfail H H0) as (Hr & _). destruct b; congruence.
      * apply (Hfail H H0).
      * destruct (Hfail H H0) as (Hr & _ & Hcount & Hlast).
        destruct b; [congruence|]. specialize (Hlast eq_refl).
        rewrite Hcount. lia.
    + destruct (IH (attempt + 1) s1) as (b & s2 & added2 & Hrun2 & Htr2 & Hdv2 & Hfail2).
      exists b, s2, (added1 ++ added2). rewrite Hrun2.
      split; [reflexivity|].
      split; [rewrite Htr2, Htr, app_assoc; reflexivity|].
      split; [apply deletes_verified_app; assumption|].
      intros Hc Hh Htodo.
      destruct (Hfail Hc Hh) as (_ & Hnone & Hcount & _).
      destruct (Hfail2 Hc Hh) as (Hb & Hnone2 & Hcount2); [lia|].
      repeat split; [assumption|apply none_of_app; assumption|].
      rewrite count_app, Hcount, Hcount2. reflexivity.
Qed.

(** [move_file] always returns a boolean: it neither raises nor loops. *)
Lemma move_file_returns sb sk db dk max_retries (s : state W) :
  exists b s', Mover.move_file sb sk db dk max_retries s = Ret b s'.
Proof.
  destruct (move_file_from_spec sb sk db dk max_retries (Z.to_nat max_retries) 0 s)
    as (b & s' & _ & Hrun & _).
  exists b, s'. exact Hrun.
Qed.

(** C1. [move_file] issues a delete only after a probe of the destination
    key has succeeded; when the copy call succeeds and the probe fails on
    every attempt, it copies [max_retries] times, returns [False] and
    issues no delete at all. *)
Theorem move_file_deletes_only_verified sb sk db dk max_retries (s : state W) :
  exists b s' added,
    Mover.move_file sb sk db dk max_retries s = Ret b s'
    /\ trace s' = trace s ++ added
    /\ deletes_verified db dk added
    /\ ((forall w, fst (copy_object sb sk db dk w) = Ok tt) ->
        (forall w, exists e, fst (head_object db dk w) = Err e) ->
        b = false /\ none_of is_delete added
        /\ count is_copy added = Z.to_nat max_retries).
Proof.
  destruct (move_file_from_spec sb sk db dk max_retries (Z.to_nat max_retries) 0 s)
    as (b & s' & added & Hrun & Htr & Hdv & Hfail).
  exists b, s', added. repeat split; try assumption; apply Hfail; try assumption; lia.
Qed.

End MoverFacts.

(** The probe of [Mock.blind_client] never succeeds: two copies, no
    delete, [False]. *)
Lemma move_file_deletes_only_verified_witness :
  (forall w, fst (@copy_object _ Mock.blind_client "src" "a.txt" "dst" "in/a.txt" w) = Ok tt)
  /\ (forall w, exists e, fst (@head_object _ Mock.blind_client "dst" "in/a.txt" w) = Err e)
  /\ exists s' added,
       @Mover.move_file _ Mock.blind_client "src" "a.txt" "dst" "in/a.txt" 2 (Mock.start tt)
         = Ret false s'
       /\ trace s' = added
       /\ none_of is_delete added /\ count is_copy added = 2%nat.
Proof.
  assert (Hc : forall w, fst (@copy_object _ Mock.blind_client "src" "a.txt" "dst" "in/a.txt" w)
                         = Ok tt) by reflexivity.
  assert (Hh : forall w, exists e,
               fst (@head_object _ Mock.blind_client "dst" "in/a.txt" w) = Err e)
    by (intros w; eexists; reflexivity).
  split; [exact Hc|]. split; [exact Hh|].
  destruct (@move_file_deletes_only_verified _ Mock.blind_client
              "src" "a.txt" "dst" "in/a.txt" 2 (Mock.start tt))
    as (b & s' & added & Hrun & Htr & _ & Hfail).
  destruct (Hfail Hc Hh) as (-> & Hnone & Hcount).
  exists s', added. repeat split; assumption.
Defined.

(** ** The batch partitioner *)

Section CeilDiv.
Variable B : Z.
Hypothesis B_pos : 0 < B.

Lemma ceil_div_bounds n :
  0 < n -> B * (Partitioner.ceil_div n B - 1) < n <= B * Partitioner.ceil_div n B.
Proof.
  intros Hn. unfold Partitioner.ceil_div.
  pose proof (Z.div_mod (n + B - 1) B ltac:(lia)) as Hdm.
  pose proof (Z.mod_pos_bound (n + B - 1) B B_pos) as Hmod.
  lia.
Qed.

Lemma ceil_div_nonpos n : n <= 0 -> Partitioner.ceil_div n B <= 0.
Proof.
  intros Hn. unfold Partitioner.ceil_div.
  pose proof (Z.div_mod (n + B - 1) B ltac:(lia)) as Hdm.
  pose proof (Z.mod_pos_bound (n + B - 1) B B_pos) as Hmod.
  nia.
Qed.

Lemma ceil_div_step n : 0 < n ->
  Partitioner.ceil_div n B = 1 + Partitioner.ceil_div (n - B) B.
Proof.
  intros Hn. unfold Partitioner.ceil_div.
  replace (n + B - 1) with ((n - B + B - 1) + 1 * B) by lia.
  rewrite Z.div_add by lia. lia.
Qed.

End CeilDiv.

Section PartitionFacts.
Variable A : Type.
Variable files : list A.
Variable B : Z.
Hypothesis B_pos : 0 < B.

Let N := Py.len files.

(** The start indices are [0, B, 2B, ...], [ceil(N/B)] of them. *)
Lemma range_up_seq fuel : forall i,
  N - i <= Z.of_nat fuel ->
  Py.range_up fuel i N B
  = map (fun k => i + Z.of_nat k * B)
        (seq 0 (Z.to_nat (Partitioner.ceil_div (N - i) B))).
Proof.
  induction fuel as [|fuel IH]; intros i Hfuel; simpl.
  - pose proof (ceil_div_nonpos B_pos (n := N - i) ltac:(lia)).
    replace (Z.to_nat _) with 0%nat by lia. reflexivity.
  - destruct (i <? N) eqn:Hlt.
    + apply Z.ltb_lt in Hlt.
      rewrite (ceil_div_step B_pos (n := N - i)) by lia.
      assert (Hge : 0 <= Partitioner.ceil_div (N - i - B) B).
      { destruct (Z_lt_le_dec 0 (N - i - B)) as [Hpos|Hneg].
        - pose proof (ceil_div_bounds B_pos Hpos). nia.
        - unfold Partitioner.ceil_div. apply Z.div_pos; lia. }
      replace (Z.to_nat (1 + Partitioner.ceil_div (N - i - B) B))
        with (S (Z.to_nat (Partitioner.ceil_div (N - i - B) B))) by lia.
      simpl. f_equal; [lia|].
      rewrite IH by lia. rewrite <- seq_shift, map_map.
      replace (N - (i + B)) with (N - i - B) by lia.
      apply map_ext. intros k. lia.
    + apply Z.ltb_ge in Hlt.
      pose proof (ceil_div_nonpos B_pos (n := N - i) ltac:(lia)).
      replace (Z.to_nat _) with 0%nat by lia. reflexivity.
Qed.

(** The slices from [i] on, put end to end, are what follows index [i]. *)
Lemma concat_range_up fuel : forall i,
  0 <= i -> N - i <= Z.of_nat fuel ->
  List.concat (map (fun i => Py.slice files i (i + B)) (Py.range_up fuel i N B))
  = skipn (Z.to_nat i) files.
Proof.
  induction fuel as [|fuel IH]; intros i Hi Hfuel; simpl.
  - symmetry. apply skipn_all2. unfold N, Py.len in Hfuel. lia.
  - destruct (i <? N) eqn:Hlt.
    + simpl. rewrite IH by lia. unfold Py.slice.
      replace (i + B - i) with B by lia.
      replace (Z.to_nat (i + B)) with (Z.to_nat B + Z.to_nat i)%nat by lia.
      rewrite <- skipn_skipn. apply firstn_skipn.
    + apply Z.ltb_ge in Hlt. symmetry. apply skipn_all2.
      unfold N, Py.len in Hlt. lia.
Qed.

Lemma len_slice i : 0 <= i ->
  Py.len (Py.slice files i (i + B)) = Z.max 0 (Z.min B (N - i)).
Proof.
  intros Hi. unfold Py.slice, Py.len, N, Py.len.
  rewrite length_firstn, length_skipn. lia.
Qed.

(** The batches, explicitly. *)
Lemma batches_seq :
  Partitioner.batches files B
  = Ok (map (fun k => Py.slice files (Z.of_nat k * B) (Z.of_nat k * B + B))
            (seq 0 (Z.to_nat (Partitioner.ceil_div N B)))).
Proof.
  unfold Partitioner.batches, Py.range0. fold N.
  destruct (B =? 0) eqn:H0; [lia|]. destruct (B <? 0) eqn:Hneg; [lia|].
  rewrite (@range_up_seq (Z.to_nat N) 0) by lia.
  rewrite Z.sub_0_r, map_map. reflexivity.
Qed.

(** C5. For a batch size [B > 0] the batches are the contiguous slices
    [files[kB : kB + B]]; put end to end they are [files] (every element
    once, in order); there are [ceil(N / B)] of them, each of at most [B]
    elements, the last one of [N - B * (ceil(N / B) - 1)]. *)
Theorem batches_cover_in_order :
  exists bs,
    Partitioner.batches files B = Ok bs
    /\ List.concat bs = files
    /\ Py.len bs = Partitioner.ceil_div N B
    /\ (forall k, (k < List.length bs)%nat ->
          nth k bs [] = Py.slice files (Z.of_nat k * B) (Z.of_nat k * B + B))
    /\ Forall (fun b => Py.len b <= B) bs
    /\ (files <> [] ->
          Py.len (last bs []) = N - B * (Partitioner.ceil_div N B - 1)).
Proof.
  assert (HN : 0 <= N) by (unfold N, Py.len; lia).
  assert (Hceil : 0 <= Partitioner.ceil_div N B).
  { unfold Partitioner.ceil_div. apply Z.div_pos; lia. }
  eexists. split; [apply batches_seq|].
  split.
  { pose proof (@concat_range_up (Z.to_nat N) 0 ltac:(lia) ltac:(lia)) as Hc.
    rewrite (@range_up_seq (Z.to_nat N) 0) in Hc by lia.
    rewrite Z.sub_0_r, map_map in Hc. simpl in Hc. exact Hc. }
  split.
  { unfold Py.len. rewrite length_map, length_seq. lia. }
  split.
  { intros k Hk. rewrite length_map, length_seq in Hk.
    set (f := fun k : nat => Py.slice files (Z.of_nat k * B) (Z.of_nat k * B + B)).
    rewrite nth_indep with (d' := f 0%nat)
      by (rewrite length_map, length_seq; exact Hk).
    rewrite (map_nth f), seq_nth by exact Hk. reflexivity. }
  split.
  { apply Forall_forall. intros b Hb. apply in_map_iff in Hb as (k & <- & _).
    rewrite len_slice by lia. lia. }
  intros Hne.
  assert (Hpos : 0 < N).
  { unfold N, Py.len. destruct files; [congruence|simpl; lia]. }
  pose proof (ceil_div_bounds B_pos Hpos) as Hb.
  destruct (Z.to_nat (Partitioner.ceil_div N B)) as [|m] eqn:Hm; [nia|].
  rewrite seq_S, map_app. simpl. rewrite last_last.
  rewrite len_slice by lia.
  assert (Partitioner.ceil_div N B = Z.of_nat m + 1) by lia.
  nia.
Qed.

End PartitionFacts.

Lemma batches_cover_in_order_witness :
  0 < 2
  /\ exists bs,
       Partitioner.batches [1; 2; 3; 4; 5] 2 = Ok bs
       /\ bs = [[1; 2]; [3; 4]; [5]]
       /\ List.concat bs = [1; 2; 3; 4; 5]
       /\ Py.len bs = 3
       /\ Py.len (last bs []) = 1.
Proof.
  split; [lia|].
  destruct (@batches_cover_in_order Z [1; 2; 3; 4; 5] 2 ltac:(lia))
    as (bs & Hbs & Hconcat & Hlen & _ & _ & Hlast).
  exists bs. split; [exact Hbs|].
  split; [vm_compute in Hbs; congruence|].
  split; [exact Hconcat|].
  split; [exact Hlen|].
  rewrite Hlast by discriminate. reflexivity.
Defined.

(** ** The counters of the mover *)

Section MoverCounters.
Context {W : Type} {S3 : S3Client W}.

(** Every file of a batch adds one to exactly one of the two counters. *)
Lemma process_batch_from_counts batch sb db sp dp :
  forall success errors (s : state W),
  exists r s',
    Mover.process_batch_from batch sb db sp dp success errors s = Ret r s'
    /\ Mover.success r + Mover.errors r = success + errors + Py.len batch.
Proof.
  induction batch as [|file_info rest IH]; intros success errors s; simpl.
  - exists (Mover.mkBatchResults success errors), s. split; [reflexivity|].
    simpl. unfold Py.len. simpl. lia.
  - unfold bind, try_catch.
    destruct (move_file_returns sb (Key file_info) db
                (Mover.dest_key_of sp dp (Key file_info)) 2 s) as (b & s1 & Hmove).
    rewrite Hmove. unfold ret.
    destruct b.
    + destruct (IH (success + 1) errors s1) as (r & s' & Hrun & Hsum).
      exists r, s'. split; [exact Hrun|].
      rewrite Hsum. unfold Py.len. simpl List.length. lia.
    + destruct (IH success (errors + 1) s1) as (r & s' & Hrun & Hsum).
      exists r, s'. split; [exact Hrun|].
      rewrite Hsum. unfold Py.len. simpl List.length. lia.
Qed.

Lemma process_starts_counts files sb db sp dp batch_size starts :
  forall sc ec (s : state W),
  exists r s',
    Mover.process_starts starts files sb db sp dp batch_size sc ec s = Ret r s'
    /\ Mover.success_count r + Mover.error_count r
       = sc + ec + Py.len (List.concat
                             (map (fun i => Py.slice files i (i + batch_size)) starts)).
Proof.
  induction starts as [|i rest IH]; intros sc ec s; simpl.
  - exists (Mover.mkResults sc ec), s. split; [reflexivity|].
    simpl. unfold Py.len. simpl. lia.
  - unfold bind, Mover.process_batch.
    destruct (process_batch_from_counts (Py.slice files i (i + batch_size))
                sb db sp dp 0 0 s) as (r1 & s1 & Hrun1 & Hsum1).
    rewrite Hrun1.
    assert (Hwhen : exists s2,
              when (i + batch_size <? Py.len files) (sleep 100 false) s1 = Ret tt s2).
    { unfold when, sleep, emit, ret. destruct (_ <? _); eexists; reflexivity. }
    destruct Hwhen as (s2 & Hwhen). rewrite Hwhen.
    destruct (IH (sc + Mover.success r1) (ec + Mover.errors r1) s2)
      as (r & s' & Hrun & Hsum).
    exists r, s'. split; [exact Hrun|].
    rewrite Hsum. unfold Py.len in *. rewrite length_app. lia.
Qed.

Lemma moved_in_order_length sb db sp dp files moved (s s' : state W) :
  Mover.moved_in_order sb db sp dp files moved s s' ->
  List.length moved = List.length files.
Proof. induction 1; simpl; congruence. Qed.

Lemma moved_in_order_app sb db sp dp files1 moved1 (s s1 : state W) :
  Mover.moved_in_order sb db sp dp files1 moved1 s s1 ->
  forall files2 moved2 s2,
    Mover.moved_in_order sb db sp dp files2 moved2 s1 s2 ->
    Mover.moved_in_order sb db sp dp (files1 ++ files2) (moved1 ++ moved2) s s2.
Proof.
  induction 1 as [s|files moved s s' _ IH|f files b moved s s1 s' Hmove _ IH];
    intros files2 moved2 s2 Hrest; simpl.
  - exact Hrest.
  - apply Mover.moved_pause. apply IH. exact Hrest.
  - eapply Mover.moved_file; [exact Hmove|]. apply IH. exact Hrest.
Qed.

(** A batch moves its files in order; a file [move_file] reports moved
    adds one to [success], any other adds one to [errors]. *)
Lemma process_batch_from_moved batch sb db sp dp :
  forall success errors (s : state W),
  exists r s' moved,
    Mover.process_batch_from batch sb db sp dp success errors s = Ret r s'
    /\ Mover.moved_in_order sb db sp dp batch moved s s'
    /\ Mover.success r = success + Py.len (filter (fun b => b) moved)
    /\ Mover.errors r = errors + Py.len (filter negb moved).
Proof.
  induction batch as [|file_info rest IH]; intros success errors s; simpl.
  - exists (Mover.mkBatchResults success errors), s, [].
    split; [reflexivity|]. split; [constructor|].
    unfold Py.len. simpl. split; lia.
  - unfold bind, try_catch.
    destruct (move_file_returns sb (Key file_info) db
                (Mover.dest_key_of sp dp (Key file_info)) 2 s) as (b & s1 & Hmove).
    rewrite Hmove. unfold ret.
    destruct b.
    + destruct (IH (success + 1) errors s1) as (r & s' & moved & Hrun & Hmoved & Hs & He).
      exists r, s', (true :: moved). split; [exact Hrun|].
      split; [eapply Mover.moved_file; eassumption|].
      rewrite Hs, He. unfold Py.len. simpl. split; lia.
    + destruct (IH success (errors + 1) s1) as (r & s' & moved & Hrun & Hmoved & Hs & He).
      exists r, s', (false :: moved). split; [exact Hrun|].
      split; [eapply Mover.moved_file; eassumption|].
      rewrite Hs, He. unfold Py.len. simpl. split; lia.
Qed.

Lemma process_starts_moved files sb db sp dp batch_size starts :
  forall sc ec (s : state W),
  exists r s' moved,
    Mover.process_starts starts files sb db sp dp batch_size sc ec s = Ret r s'
    /\ Mover.moved_in_order sb db sp dp
         (List.concat (map (fun i => Py.slice files i (i + batch_size)) starts))
         moved s s'
    /\ Mover.success_count r = sc + Py.len (filter (fun b => b) moved)
    /\ Mover.error_count r = ec + Py.len (filter negb moved).
Proof.
  induction starts as [|i rest IH]; intros sc ec s; simpl.
  - exists (Mover.mkResults sc ec), s, [].
    split; [reflexivity|]. split; [constructor|].
    unfold Py.len. simpl. split; lia.
  - unfold bind at 1, Mover.process_batch.
    destruct (process_batch_from_moved (Py.slice files i (i + batch_size))
                sb db sp dp 0 0 s) as (r1 & s1 & moved1 & Hrun1 & Hmoved1 & Hs1 & He1).
    rewrite Hrun1. unfold bind at 1.
    set (s2 := if i + batch_size <? Py.len files
               then mkState (world s1) (trace s1 ++ [EvSleep 100 false]) else s1).
    assert (Hwhen : when (i + batch_size <? Py.len files) (sleep 100 false) s1 = Ret tt s2).
    { unfold when, sleep, emit, ret, s2. destruct (_ <? _); reflexivity. }
    rewrite Hwhen.
    destruct (IH (sc + Mover.success r1) (ec + Mover.errors r1) s2)
      as (r & s' & moved2 & Hrun & Hmoved2 & Hs & He).
    exists r, s', (moved1 ++ moved2). split; [exact Hrun|].
    split.
    + eapply moved_in_order_app; [exact Hmoved1|].
      unfold s2 in Hmoved2. destruct (i + batch_size <? Py.len files).
      * apply Mover.moved_pause. exact Hmoved2.
      * exact Hmoved2.
    + rewrite Hs, He, Hs1, He1, !filter_app. unfold Py.len. rewrite !length_app.
      split; lia.
Qed.

Lemma filter_both (l : list bool) :
  Py.len (filter (fun b => b) l) + Py.len (filter negb l) = Py.len l.
Proof.
  unfold Py.len. induction l as [|[] l IH]; cbn [filter negb List.length] in *; lia.
Qed.

(** C9 (amended: for a positive batch size). [process_files_in_batches]
    returns, having moved the files one after another in the order of
    the list, each by one call of [move_file]. [success_count] is the
    number of files [move_file] reported moved and [error_count] the
    number of the others, so every file is in exactly one counter and the
    two add up to the number of files. *)
Theorem mover_counters_conserved files sb db sp dp batch_size (s : state W) :
  0 < batch_size ->
  exists r s' moved,
    Mover.process_files_in_batches files sb db sp dp batch_size s = Ret r s'
    /\ Mover.moved_in_order sb db sp dp files moved s s'
    /\ Mover.success_count r = Py.len (filter (fun b => b) moved)
    /\ Mover.error_count r = Py.len (filter negb moved)
    /\ Mover.success_count r + Mover.error_count r = Py.len files.
Proof.
  intros Hpos. unfold Mover.process_files_in_batches, Py.range0.
  destruct (batch_size =? 0) eqn:H0; [lia|].
  destruct (batch_size <? 0) eqn:Hneg; [lia|].
  destruct (process_starts_moved files sb db sp dp batch_size
              (Py.range_up (Z.to_nat (Py.len files)) 0 (Py.len files) batch_size) 0 0 s)
    as (r & s' & moved & Hrun & Hmoved & Hs & He).
  rewrite (@concat_range_up _ files batch_size Hpos (Z.to_nat (Py.len files)) 0) in Hmoved
    by lia.
  change (skipn (Z.to_nat 0) files) with files in Hmoved.
  exists r, s', moved. split; [exact Hrun|]. split; [exact Hmoved|].
  split; [lia|]. split; [lia|].
  rewrite Hs, He, !Z.add_0_l, filter_both. unfold Py.len.
  rewrite (moved_in_order_length Hmoved). reflexivity.
Qed.

End MoverCounters.

(** The three objects of the test bucket, in batches of two: all three are
    moved. *)
Lemma mover_counters_conserved_witness :
  0 < 2
  /\ exists s',
       @Mover.process_files_in_batches _ Mock.mem_client Mock.test_files
         "test-source-bucket" "test-dest-bucket" "" "moved/" 2 (Mock.start Mock.test_store)
       = Ret (Mover.mkResults 3 0) s'
       /\ @Mover.moved_in_order _ Mock.mem_client "test-source-bucket" "test-dest-bucket"
            "" "moved/" Mock.test_files [true; true; true] (Mock.start Mock.test_store) s'.
Proof.
  split; [lia|].
  destruct (@mover_counters_conserved _ Mock.mem_client Mock.test_files
              "test-source-bucket" "test-dest-bucket" "" "moved/" 2
              (Mock.start Mock.test_store) ltac:(lia))
    as (r & s' & moved & Hrun & Hmoved & Hs & He & _).
  exists s'.
  assert (Hr : r = Mover.mkResults 3 0).
  { vm_compute in Hrun. injection Hrun as <- _. reflexivity. }
  subst r. split; [exact Hrun|].
  pose proof (moved_in_order_length Hmoved) as Hlen.
  destruct moved as [|b1 [|b2 [|b3 [|b4 moved]]]]; try discriminate Hlen.
  destruct b1, b2, b3; try discriminate Hs; try discriminate He. exact Hmoved.
Defined.

(** C9 as stated, for every batch size the handler lets through: with a
    batch size of -1 the range of the batches is empty, the three files
    of the test bucket are dropped and the counters add up to 0, not 3. *)
Lemma mover_counters_negative_batch_size :
  exists r s',
    @Mover.process_files_in_batches _ Mock.mem_client Mock.test_files
      "test-source-bucket" "test-dest-bucket" "" "moved/" (-1) (Mock.start Mock.test_store)
    = Ret r s'
    /\ Py.len Mock.test_files = 3
    /\ Mover.success_count r + Mover.error_count r <> Py.len Mock.test_files.
Proof.
  exists (Mover.mkResults 0 0), (Mock.start Mock.test_store).
  split; [reflexivity|]. split; [reflexivity|]. discriminate.
Qed.

(** ** What a computation adds to the trace *)

Section AddsOnly.
Context {W : Type}.
Variable Q : event -> Prop.

Lemma adds_only_ret A (a : A) : adds_only Q (@ret W A a).
Proof. intros s. exists []. rewrite app_nil_r. split; [reflexivity|constructor]. Qed.

Lemma adds_only_raise A e : adds_only Q (@raise W A e).
Proof. intros s. exists []. rewrite app_nil_r. split; [reflexivity|constructor]. Qed.

Lemma adds_only_emit ev : Q ev -> adds_only Q (@emit W ev).
Proof. intros Hev s. exists [ev]. split; [reflexivity|repeat constructor; exact Hev]. Qed.

Lemma adds_only_call A (op : W -> outcome A * W) ev :
  (forall ok, Q (ev ok)) -> adds_only Q (call op ev).
Proof.
  intros Hev s. unfold call.
  destruct (op (world s)) as [[a|e] w']; eexists [_]; (split; [reflexivity|]);
    repeat constructor; apply Hev.
Qed.

Lemma adds_only_bind A B (m : M W A) (k : A -> M W B) :
  adds_only Q m -> (forall a, adds_only Q (k a)) -> adds_only Q (bind m k).
Proof.
  intros Hm Hk s. unfold bind. specialize (Hm s).
  destruct (m s) as [a s1|e s1|]; [|exact Hm|exact I].
  destruct Hm as (added1 & Htr1 & HQ1). specialize (Hk a s1).
  destruct (k a s1) as [b s2|e s2|]; [| |exact I];
    destruct Hk as (added2 & Htr2 & HQ2); exists (added1 ++ added2);
    (split; [rewrite Htr2, Htr1, app_assoc; reflexivity|apply Forall_app; split; assumption]).
Qed.

Lemma adds_only_try_catch A (m : M W A) (h : exn -> M W A) :
  adds_only Q m -> (forall e, adds_only Q (h e)) -> adds_only Q (try_catch m h).
Proof.
  intros Hm Hh s. unfold try_catch. specialize (Hm s).
  destruct (m s) as [a s1|e s1|]; [exact Hm| |exact I].
  destruct Hm as (added1 & Htr1 & HQ1). specialize (Hh e s1).
  destruct (h e s1) as [b s2|e2 s2|]; [| |exact I];
    destruct Hh as (added2 & Htr2 & HQ2); exists (added1 ++ added2);
    (split; [rewrite Htr2, Htr1, app_assoc; reflexivity|apply Forall_app; split; assumption]).
Qed.

Lemma adds_only_when b (m : M W unit) : adds_only Q m -> adds_only Q (when b m).
Proof. intros Hm. destruct b; [exact Hm|apply adds_only_ret]. Qed.

End AddsOnly.

Lemma adds_only_mono W A (Q Q' : event -> Prop) (m : M W A) :
  (forall ev, Q ev -> Q' ev) -> adds_only Q m -> adds_only Q' m.
Proof.
  intros Himp Hm s. specialize (Hm s).
  destruct (m s) as [a s1|e s1|]; [| |exact I];
    destruct Hm as (added & Htr & HQ); exists added; (split; [exact Htr|]);
    eapply Forall_impl; eauto.
Qed.

(** ** The listing strategies *)

Section ListerFacts.
Context {W : Type} {S3 : S3Client W}.
Variable keep : string -> bool.

Lemma start_paginate_listing b p max_items page_size :
  adds_only is_listing (Lister.start_paginate b p max_items page_size).
Proof.
  intros s. unfold Lister.start_paginate.
  destruct (paginate b p max_items page_size (world s)) as [ps w'].
  exists [EvPaginate b p max_items page_size]. split; [reflexivity|repeat constructor].
Qed.

Lemma datetime_now_listing : adds_only is_listing (@Lister.datetime_now W S3).
Proof.
  intros s. unfold Lister.datetime_now. destruct (now (world s)) as [t w'].
  exists []. simpl. rewrite app_nil_r. split; [reflexivity|constructor].
Qed.

Lemma list_standard_listing b p m :
  adds_only is_listing (Lister.list_standard keep b p m).
Proof.
  unfold Lister.list_standard. apply adds_only_bind.
  - apply start_paginate_listing.
  - intros ps. destruct (Lister.scan_pages _ _ _ _) as [files [e|]].
    + apply adds_only_raise.
    + apply adds_only_ret.
Qed.

Lemma pagination_loop_listing fuel b p m : forall files token,
  adds_only is_listing (Lister.pagination_loop keep fuel b p m files token).
Proof.
  induction fuel as [|fuel IH]; intros files token; simpl.
  - intros s. exact I.
  - destruct (Py.len files <? m); [|apply adds_only_ret].
    apply adds_only_bind.
    + apply adds_only_call. intros ok. exact I.
    + intros response. destruct (RContents response); [|apply adds_only_ret].
      destruct (negb _); [apply adds_only_ret|].
      apply adds_only_bind; [apply adds_only_emit; exact I|].
      intros _. apply IH.
Qed.

Lemma list_with_pagination_listing fuel b p m :
  adds_only is_listing (Lister.list_with_pagination keep fuel b p m).
Proof. apply pagination_loop_listing. Qed.

Lemma list_by_time_range_listing b p m :
  adds_only is_listing (Lister.list_by_time_range keep b p m).
Proof.
  unfold Lister.list_by_time_range. apply adds_only_bind.
  - apply datetime_now_listing.
  - intros t. apply adds_only_bind.
    + apply start_paginate_listing.
    + intros ps. apply adds_only_ret.
Qed.

End ListerFacts.

(** ** The resilient listing *)

Section RetryFacts.
Context {W : Type} {S3 : S3Client W}.
Variable keep : string -> bool.
Variables pag tr : M W (list obj).
Variables (b p : string) (m : Z).

(** One attempt whose standard listing fails at once with [e]. *)
Lemma attempt_standard_raises e max_retries attempt (s : state W) :
  (forall w, fst (paginate b p m 1000 w) = PagesRaise e) ->
  exists w',
    let t1 := trace s ++ [EvAttempt (attempt + 1); EvPaginate b p m 1000] in
    try_catch (Lister.attempt_body (Lister.list_standard keep b p m) pag tr max_retries attempt)
              (Lister.attempt_handler max_retries attempt) s
    = if permanent e then Raise e (mkState w' t1)
      else Ret None
             (mkState w' (if attempt <? max_retries - 1
                          then t1 ++ [EvSleep (2 ^ attempt * 1000) (jitter_after e)]
                          else t1)).
Proof.
  intros Hfail.
  unfold try_catch, Lister.attempt_body, Lister.list_standard, Lister.start_paginate,
    bind, emit. simpl world. simpl trace.
  specialize (Hfail (world s)).
  destruct (paginate b p m 1000 (world s)) as [ps w1]. simpl in Hfail. subst ps.
  exists w1. cbn [Lister.scan_pages]. unfold raise, Lister.attempt_handler.
  rewrite <- app_assoc. simpl app.
  destruct e as [code|what].
  - change (permanent (ClientError code))
      with (code_in code ["NoSuchBucket"; "AccessDenied"]).
    destruct (code_in code _); [reflexivity|].
    unfold bind, when, sleep, emit, ret. destruct (attempt <? max_retries - 1); reflexivity.
  - simpl permanent.
    unfold bind, when, sleep, emit, ret. destruct (attempt <? max_retries - 1); reflexivity.
Qed.

(** The whole listing when every standard listing fails with [e]. *)
Lemma with_retry_standard_raises e (s : state W) :
  (forall w, fst (paginate b p m 1000 w) = PagesRaise e) ->
  (permanent e = true ->
   exists s',
     Lister.with_retry (Lister.list_standard keep b p m) pag tr 3 s = Raise e s'
     /\ trace s' = trace s ++ [EvAttempt 1; EvPaginate b p m 1000])
  /\ (permanent e = false ->
      exists s',
        Lister.with_retry (Lister.list_standard keep b p m) pag tr 3 s = Ret [] s'
        /\ trace s' = trace s ++
             [EvAttempt 1; EvPaginate b p m 1000; EvSleep 1000 (jitter_after e);
              EvAttempt 2; EvPaginate b p m 1000; EvSleep 2000 (jitter_after e);
              EvAttempt 3; EvPaginate b p m 1000]).
Proof.
  intros Hfail. unfold Lister.with_retry. change (Z.to_nat 3) with 3%nat.
  split; intros Hperm.
  - simpl Lister.retry_from. unfold bind at 1.
    destruct (attempt_standard_raises 3 0 s Hfail) as (w1 & H1).
    rewrite H1, Hperm. eexists. split; reflexivity.
  - simpl Lister.retry_from. unfold bind at 1.
    destruct (attempt_standard_raises 3 0 s Hfail) as (w1 & H1).
    rewrite H1, Hperm. clear H1. cbv zeta.
    unfold bind at 1.
    match goal with |- context [try_catch _ _ ?s1] =>
      destruct (attempt_standard_raises 3 1 s1 Hfail) as (w2 & H2) end.
    rewrite H2, Hperm. clear H2. cbv zeta.
    unfold bind at 1.
    match goal with |- context [try_catch _ _ ?s1] =>
      destruct (attempt_standard_raises 3 2 s1 Hfail) as (w3 & H3) end.
    rewrite H3, Hperm. clear H3. cbv zeta.
    eexists. split; [reflexivity|]. simpl. rewrite <- !app_assoc. reflexivity.
Qed.

End RetryFacts.

Section ListingErrors.
Context {W : Type} {S3 : S3Client W}.

(** C3. When the store answers the listing call with a permanent error
    ([NoSuchBucket] or [AccessDenied]), both resilient listings re-raise
    it from the first attempt: one attempt, one listing call, no sleep.
    When it answers every listing call with any other error, the listing
    is tried three times, with a backoff after the first and the second
    attempt, and the result is the empty list. *)
Theorem listing_permanent_error_not_retried fuel b p m e (s : state W) :
  (forall w, fst (paginate b p m 1000 w) = PagesRaise e) ->
  (permanent e = true ->
   (exists s',
      Mover.get_files_with_retry fuel b p m 3 s = Raise e s'
      /\ trace s' = trace s ++ [EvAttempt 1; EvPaginate b p m 1000])
   /\ (exists s',
         Merge.get_csv_files_with_retry fuel b p m 3 s = Raise e s'
         /\ trace s' = trace s ++ [EvAttempt 1; EvPaginate b p m 1000]))
  /\ (permanent e = false ->
      (exists s',
         Mover.get_files_with_retry fuel b p m 3 s = Ret [] s'
         /\ trace s' = trace s ++
              [EvAttempt 1; EvPaginate b p m 1000; EvSleep 1000 (jitter_after e);
               EvAttempt 2; EvPaginate b p m 1000; EvSleep 2000 (jitter_after e);
               EvAttempt 3; EvPaginate b p m 1000])
      /\ (exists s',
            Merge.get_csv_files_with_retry fuel b p m 3 s = Ret [] s'
            /\ trace s' = trace s ++
                 [EvAttempt 1; EvPaginate b p m 1000; EvSleep 1000 (jitter_after e);
                  EvAttempt 2; EvPaginate b p m 1000; EvSleep 2000 (jitter_after e);
                  EvAttempt 3; EvPaginate b p m 1000])).
Proof.
  intros Hfail.
  unfold Mover.get_files_with_retry, Mover.list_files_standard,
    Merge.get_csv_files_with_retry, Merge.list_csv_files_standard.
  split; intros Hperm; split;
    match goal with
    | |- context [Lister.with_retry (Lister.list_standard ?keep _ _ _) ?pag ?tr] =>
        destruct (@with_retry_standard_raises _ _ keep pag tr b p m e s Hfail)
          as [Hp Ht]
    end; auto.
Qed.

End ListingErrors.

(** A missing bucket is reported from the first attempt; a throttled
    listing is tried three times. *)
Lemma listing_permanent_error_not_retried_witness :
  (exists s',
     @Mover.get_files_with_retry _ (Mock.failing_client (ClientError "NoSuchBucket"))
       5 "bucket" "in/" 1000 3 (Mock.start tt)
     = Raise (ClientError "NoSuchBucket") s'
     /\ trace s' = [EvAttempt 1; EvPaginate "bucket" "in/" 1000 1000])
  /\ (exists s',
        @Merge.get_csv_files_with_retry _ (Mock.failing_client (ClientError "SlowDown"))
          5 "bucket" "in/" 1000 3 (Mock.start tt)
        = Ret [] s'
        /\ count is_attempt (trace s') = 3%nat /\ count is_sleep (trace s') = 2%nat).
Proof.
  split.
  - destruct (@listing_permanent_error_not_retried _
                (Mock.failing_client (ClientError "NoSuchBucket"))
                5 "bucket" "in/" 1000 (ClientError "NoSuchBucket") (Mock.start tt)
                ltac:(reflexivity)) as [Hperm _].
    destruct (Hperm eq_refl) as [Hmover _]. exact Hmover.
  - destruct (@listing_permanent_error_not_retried _
                (Mock.failing_client (ClientError "SlowDown"))
                5 "bucket" "in/" 1000 (ClientError "SlowDown") (Mock.start tt)
                ltac:(reflexivity)) as [_ Htrans].
    destruct (Htrans eq_refl) as [_ (s' & Hrun & Htr)].
    exists s'. split; [exact Hrun|]. rewrite Htr. split; reflexivity.
Defined.

Lemma listing_not_attempt added :
  Forall is_listing added -> count is_attempt added = 0%nat.
Proof.
  intros H. apply count_none_of. unfold none_of.
  eapply Forall_impl; [|exact H]. intros [] Hev; simpl in *; tauto.
Qed.

Section EmptyListing.
Context {W : Type}.
Variables std pag tr : M W (list obj).
Hypothesis std_quiet : adds_only is_listing std.
Hypothesis pag_quiet : adds_only is_listing pag.
Hypothesis tr_quiet : adds_only is_listing tr.
Hypothesis std_nothing : yields_nothing std.
Hypothesis pag_nothing : yields_nothing pag.
Hypothesis tr_nothing : yields_nothing tr.

(** A strategy that yields nothing, with what it adds to the trace. *)
Lemma strategy_yields_nothing (m : M W (list obj)) (s : state W) :
  adds_only is_listing m -> yields_nothing m ->
  exists s' added,
    trace s' = trace s ++ added /\ Forall is_listing added
    /\ (m s = Ret [] s' \/ exists e, m s = Raise e s' /\ permanent e = false).
Proof.
  intros Hq Hn. specialize (Hq s).
  destruct (Hn s) as [(s' & Hrun) | (e & s' & Hrun & Hperm)]; rewrite Hrun in Hq;
    destruct Hq as (added & Htr & Hlist); exists s', added;
    (split; [exact Htr|]); (split; [exact Hlist|]); [left; exact Hrun|right].
  exists e. split; [exact Hrun|exact Hperm].
Qed.

(** What the handler does with an error that is not permanent. *)
Lemma attempt_handler_transient max_retries attempt e (s : state W) :
  permanent e = false ->
  exists s' added,
    Lister.attempt_handler max_retries attempt e s = Ret None s'
    /\ trace s' = trace s ++ added /\ Forall is_listing added.
Proof.
  intros Hperm. unfold Lister.attempt_handler.
  destruct e as [code|what].
  - change (permanent (ClientError code))
      with (code_in code ["NoSuchBucket"; "AccessDenied"]) in Hperm.
    rewrite Hperm. unfold bind, when, sleep, emit, ret.
    destruct (attempt <? max_retries - 1).
    + eexists _, [_]. repeat split. repeat constructor.
    + eexists _, []. rewrite app_nil_r. repeat split. constructor.
  - unfold bind, when, sleep, emit, ret.
    destruct (attempt <? max_retries - 1).
    + eexists _, [_]. repeat split. repeat constructor.
    + eexists _, []. rewrite app_nil_r. repeat split. constructor.
Qed.

Lemma backoff_listing max_retries attempt (s : state W) :
  exists s' added,
    (when (attempt <? max_retries - 1) (sleep (2 ^ attempt * 1000) true) ;; ret None)%m s
    = Ret (@None (list obj)) s'
    /\ trace s' = trace s ++ added /\ Forall is_listing added.
Proof.
  unfold bind, when, sleep, emit, ret.
  destruct (attempt <? max_retries - 1).
  - eexists _, [_]. repeat split. repeat constructor.
  - eexists _, []. rewrite app_nil_r. repeat split. constructor.
Qed.

(** One attempt finds nothing and falls through to the next. *)
Lemma attempt_yields_nothing max_retries attempt (s : state W) :
  exists s' added,
    try_catch (Lister.attempt_body std pag tr max_retries attempt)
              (Lister.attempt_handler max_retries attempt) s = Ret None s'
    /\ trace s' = trace s ++ EvAttempt (attempt + 1) :: added
    /\ Forall is_listing added.
Proof.
  unfold try_catch, Lister.attempt_body. unfold bind at 1. unfold emit at 1.
  set (s0 := mkState (world s) (trace s ++ [EvAttempt (attempt + 1)])).
  assert (Hs0 : forall (s' : state W) added, trace s' = trace s0 ++ added ->
                trace s' = trace s ++ EvAttempt (attempt + 1) :: added).
  { intros s' added ->. unfold s0. simpl. rewrite <- app_assoc. reflexivity. }
  assert (Hhandle : forall e (s1 : state W) added1,
            trace s1 = trace s0 ++ added1 -> Forall is_listing added1 ->
            permanent e = false ->
            exists s' added,
              Lister.attempt_handler max_retries attempt e s1 = Ret None s'
              /\ trace s' = trace s ++ EvAttempt (attempt + 1) :: added
              /\ Forall is_listing added).
  { intros e s1 added1 Htr1 Hl1 Hperm.
    destruct (attempt_handler_transient max_retries attempt e s1 Hperm)
      as (s' & added & Hrun & Htr & Hl).
    exists s', (added1 ++ added). split; [exact Hrun|]. split.
    - apply Hs0. rewrite Htr, Htr1, app_assoc. reflexivity.
    - apply Forall_app. split; assumption. }
  unfold bind at 1.
  destruct (strategy_yields_nothing s0 std_quiet std_nothing)
    as (s1 & added1 & Htr1 & Hl1 & [Hrun1 | (e & Hrun1 & Hperm)]); rewrite Hrun1;
    [|eapply Hhandle; eauto].
  change (Lister.nonempty (@nil obj)) with false. cbv iota.
  (* the manual pagination, on the first attempt *)
  assert (Hpag : exists (s2 : state W) added2,
            trace s2 = trace s0 ++ added2 /\ Forall is_listing added2
            /\ ((if attempt =? 0
                 then files <- pag ;; ret (if Lister.nonempty files then Some files else None)
                 else ret None)%m s1 = Ret None s2
                \/ exists e, (if attempt =? 0
                              then files <- pag ;;
                                   ret (if Lister.nonempty files then Some files else None)
                              else ret None)%m s1 = Raise e s2
                             /\ permanent e = false)).
  { destruct (attempt =? 0).
    - destruct (strategy_yields_nothing s1 pag_quiet pag_nothing)
        as (s2 & added2 & Htr2 & Hl2 & [Hrun2 | (e & Hrun2 & Hperm)]);
        exists s2, (added1 ++ added2);
        (split; [rewrite Htr2, Htr1, app_assoc; reflexivity|]);
        (split; [apply Forall_app; split; assumption|]);
        unfold bind; rewrite Hrun2; [left; reflexivity|right; eauto].
    - exists s1, added1. split; [exact Htr1|]. split; [exact Hl1|]. left. reflexivity. }
  destruct Hpag as (s2 & added2 & Htr2 & Hl2 & [Hrun2 | (e & Hrun2 & Hperm)]);
    unfold bind at 1; rewrite Hrun2; [|eapply Hhandle; eauto].
  (* the time window, on the second attempt *)
  assert (Htime : exists (s3 : state W) added3,
            trace s3 = trace s0 ++ added3 /\ Forall is_listing added3
            /\ ((if attempt =? 1
                 then files <- tr ;; ret (if Lister.nonempty files then Some files else None)
                 else ret None)%m s2 = Ret None s3
                \/ exists e, (if attempt =? 1
                              then files <- tr ;;
                                   ret (if Lister.nonempty files then Some files else None)
                              else ret None)%m s2 = Raise e s3
                             /\ permanent e = false)).
  { destruct (attempt =? 1).
    - destruct (strategy_yields_nothing s2 tr_quiet tr_nothing)
        as (s3 & added3 & Htr3 & Hl3 & [Hrun3 | (e & Hrun3 & Hperm)]);
        exists s3, (added2 ++ added3);
        (split; [rewrite Htr3, Htr2, app_assoc; reflexivity|]);
        (split; [apply Forall_app; split; assumption|]);
        unfold bind; rewrite Hrun3; [left; reflexivity|right; eauto].
    - exists s2, added2. split; [exact Htr2|]. split; [exact Hl2|]. left. reflexivity. }
  destruct Htime as (s3 & added3 & Htr3 & Hl3 & [Hrun3 | (e & Hrun3 & Hperm)]);
    unfold bind at 1; rewrite Hrun3; [|eapply Hhandle; eauto].
  destruct (backoff_listing max_retries attempt s3) as (s4 & added4 & Hrun4 & Htr4 & Hl4).
  rewrite Hrun4. exists s4, (added3 ++ added4). split; [reflexivity|]. split.
  - apply Hs0. rewrite Htr4, Htr3, app_assoc. reflexivity.
  - apply Forall_app. split; assumption.
Qed.

(** Every attempt left is made, and the listing ends empty. *)
Lemma retry_from_yields_nothing max_retries todo : forall attempt (s : state W),
  exists s' added,
    Lister.retry_from std pag tr max_retries todo attempt s = Ret [] s'
    /\ trace s' = trace s ++ added
    /\ count is_attempt added = todo
    /\ Forall is_retry_event added.
Proof.
  induction todo as [|todo IH]; intros attempt s; simpl.
  - exists s, []. rewrite app_nil_r. repeat split. constructor.
  - unfold bind.
    destruct (attempt_yields_nothing max_retries attempt s) as (s1 & added1 & Hrun1 & Htr1 & Hl1).
    rewrite Hrun1.
    destruct (IH (attempt + 1) s1) as (s2 & added2 & Hrun2 & Htr2 & Hcount & Hl2).
    exists s2, ((EvAttempt (attempt + 1) :: added1) ++ added2).
    split; [exact Hrun2|]. split; [rewrite Htr2, Htr1, app_assoc; reflexivity|].
    split.
    + rewrite count_app, Hcount.
      change (EvAttempt (attempt + 1) :: added1) with ([EvAttempt (attempt + 1)] ++ added1).
      rewrite count_app, (listing_not_attempt Hl1). reflexivity.
    + apply Forall_app. split; [|exact Hl2]. constructor; [exact I|].
      eapply Forall_impl; [|exact Hl1]. intros [] Hev; simpl in *; tauto.
Qed.

End EmptyListing.

Section EmptyListingMover.
Context {W : Type} {S3 : S3Client W}.

(** C4. When each of the three strategies, whenever it is run, yields no
    object (or raises an error that is not permanent), the resilient
    listing of the mover returns the empty list, without raising, after
    exactly three top-level attempts. *)
Theorem empty_listing_returns_empty fuel b p m (s : state W) :
  yields_nothing (Mover.list_files_standard b p m) ->
  yields_nothing (Mover.list_files_with_pagination fuel b p m) ->
  yields_nothing (Mover.list_files_by_time_range b p m) ->
  exists s' added,
    Mover.get_files_with_retry fuel b p m 3 s = Ret [] s'
    /\ trace s' = trace s ++ added
    /\ count is_attempt added = 3%nat
    /\ Forall is_retry_event added.
Proof.
  intros Hstd Hpag Htr.
  unfold Mover.get_files_with_retry, Lister.with_retry.
  apply retry_from_yields_nothing; try assumption.
  - apply list_standard_listing.
  - apply list_with_pagination_listing.
  - apply list_by_time_range_listing.
Qed.

End EmptyListingMover.

(** Nothing is ever listed by [Mock.empty_client]. *)
Lemma empty_listing_returns_empty_witness :
  yields_nothing (@Mover.list_files_standard _ Mock.empty_client "bucket" "in/" 1000)
  /\ yields_nothing (@Mover.list_files_with_pagination _ Mock.empty_client 5 "bucket" "in/" 1000)
  /\ yields_nothing (@Mover.list_files_by_time_range _ Mock.empty_client "bucket" "in/" 1000)
  /\ exists s' added,
       @Mover.get_files_with_retry _ Mock.empty_client 5 "bucket" "in/" 1000 3 (Mock.start tt)
       = Ret [] s'
       /\ trace s' = added /\ count is_attempt added = 3%nat.
Proof.
  assert (H1 : yields_nothing
                 (@Mover.list_files_standard _ Mock.empty_client "bucket" "in/" 1000))
    by (intros [[] t]; left; eexists; vm_compute; reflexivity).
  assert (H2 : yields_nothing
                 (@Mover.list_files_with_pagination _ Mock.empty_client 5 "bucket" "in/" 1000))
    by (intros [[] t]; left; eexists; vm_compute; reflexivity).
  assert (H3 : yields_nothing
                 (@Mover.list_files_by_time_range _ Mock.empty_client "bucket" "in/" 1000))
    by (intros [[] t]; left; eexists; vm_compute; reflexivity).
  repeat (split; [assumption|]).
  destruct (@empty_listing_returns_empty _ Mock.empty_client 5 "bucket" "in/" 1000
              (Mock.start tt) H1 H2 H3) as (s' & added & Hrun & Htr & Hcount & _).
  exists s', added. repeat split; assumption.
Defined.

(** ** The listing leaves the store unwritten *)

Section RetryTrace.
Context {W : Type}.
Variables std pag tr : M W (list obj).
Hypothesis std_quiet : adds_only is_listing std.
Hypothesis pag_quiet : adds_only is_listing pag.
Hypothesis tr_quiet : adds_only is_listing tr.

Lemma listing_is_retry_event ev : is_listing ev -> is_retry_event ev.
Proof. destruct ev; simpl; tauto. Qed.

Lemma found_adds_only (m : M W (list obj)) (cond : bool) :
  adds_only is_listing m ->
  adds_only is_retry_event
    (if cond
     then files <- m ;; ret (if Lister.nonempty files then Some files else None)
     else ret None)%m.
Proof.
  intros Hm. destruct cond; [|apply adds_only_ret].
  apply adds_only_bind.
  - eapply adds_only_mono; [apply listing_is_retry_event|exact Hm].
  - intros files. apply adds_only_ret.
Qed.

Lemma backoff_adds_only A cond millis jitter (a : A) :
  adds_only is_retry_event (when cond (@sleep W millis jitter) ;; ret a)%m.
Proof.
  apply adds_only_bind; [|intros; apply adds_only_ret].
  apply adds_only_when. apply adds_only_emit. exact I.
Qed.

Lemma with_retry_adds_only max_retries :
  adds_only is_retry_event (Lister.with_retry std pag tr max_retries).
Proof.
  unfold Lister.with_retry. generalize 0 as attempt.
  induction (Z.to_nat max_retries) as [|todo IH]; intros attempt; simpl.
  - apply adds_only_ret.
  - apply adds_only_bind.
    + apply adds_only_try_catch.
      * unfold Lister.attempt_body.
        apply adds_only_bind; [apply adds_only_emit; exact I|]. intros _.
        apply adds_only_bind;
          [eapply adds_only_mono; [apply listing_is_retry_event|exact std_quiet]|].
        intros files. destruct (Lister.nonempty files); [apply adds_only_ret|].
        apply adds_only_bind; [apply found_adds_only; exact pag_quiet|].
        intros [found|]; [apply adds_only_ret|].
        apply adds_only_bind; [apply found_adds_only; exact tr_quiet|].
        intros [found|]; [apply adds_only_ret|].
        apply backoff_adds_only.
      * intros [code|what]; simpl.
        -- destruct (code_in code _); [apply adds_only_raise|apply backoff_adds_only].
        -- apply backoff_adds_only.
    + intros [files|]; [apply adds_only_ret|apply IH].
Qed.

End RetryTrace.

Section MergeNoFiles.
Context {W : Type} {S3 : S3Client W}.

Lemma get_csv_files_adds_only fuel b p m max_retries :
  adds_only is_retry_event (Merge.get_csv_files_with_retry fuel b p m max_retries).
Proof.
  unfold Merge.get_csv_files_with_retry. apply with_retry_adds_only.
  - apply list_standard_listing.
  - apply list_with_pagination_listing.
  - apply list_by_time_range_listing.
Qed.

(** C8. With both buckets given, when the listing returns no CSV object
    the handler answers 200 with [files_processed = 0] and the message
    "Nenhum arquivo CSV encontrado"; it ends in the state the listing left,
    and nothing it did was a [put_object]. *)
Theorem merge_without_files_writes_nothing fuel sched order event env (s s1 : state W) :
  let source_bucket := Py.or_else (Merge.source_bucket event) (Merge.SOURCE_BUCKET env) in
  let dest_bucket := Py.or_else (Merge.dest_bucket event) (Merge.DEST_BUCKET env) in
  let source_prefix :=
    Merge.str_or_empty (Py.or_else (Merge.source_prefix event) (Merge.SOURCE_PREFIX env)) in
  let max_files := Merge.default 1000 (Merge.max_files_per_execution event) in
  let s0 := if Py.truthy_opt (Merge.output_filename event) then s
            else mkState (snd (time_time (world s))) (trace s) in
  Py.truthy_opt source_bucket = true ->
  Py.truthy_opt dest_bucket = true ->
  Merge.get_csv_files_with_retry fuel (Merge.str_or_empty source_bucket) source_prefix
    max_files 3 s0 = Ret [] s1 ->
  Merge.lambda_handler fuel sched order event env s
  = Ret (Merge.mkResponse 200
           (Merge.BodyNoFiles "Nenhum arquivo CSV encontrado" 0
              (Merge.str_or_empty source_bucket) (Merge.str_or_empty dest_bucket))) s1
  /\ exists added, trace s1 = trace s ++ added /\ none_of is_put added.
Proof.
  intros source_bucket dest_bucket source_prefix max_files s0 Hsrc Hdst Hlist.
  split.
  - unfold Merge.lambda_handler, try_catch. unfold bind at 1.
    fold source_bucket dest_bucket.
    assert (Hname : exists name,
              (if Py.truthy_opt (Merge.output_filename event)
               then ret (Merge.str_or_empty (Merge.output_filename event))
               else t <- Merge.get_time ;;
                    ret ("merged_csv_" ++ Py.str_of_Z t ++ ".csv")%string)%m s
              = Ret name s0).
    { unfold s0. destruct (Py.truthy_opt (Merge.output_filename event)).
      - eexists. reflexivity.
      - unfold bind, Merge.get_time, ret.
        destruct (time_time (world s)) as [t w']. eexists. reflexivity. }
    destruct Hname as (name & Hname). rewrite Hname.
    rewrite Hsrc, Hdst. cbn [negb orb].
    unfold bind at 1. fold source_prefix max_files. rewrite Hlist. reflexivity.
  - pose proof (@get_csv_files_adds_only fuel (Merge.str_or_empty source_bucket)
                  source_prefix max_files 3 s0) as Hq.
    rewrite Hlist in Hq. destruct Hq as (added & Htr & Hev).
    exists added. split.
    + rewrite Htr. unfold s0.
      destruct (Py.truthy_opt (Merge.output_filename event)); reflexivity.
    + unfold none_of. eapply Forall_impl; [|exact Hev].
      intros [] Hq; simpl in *; tauto.
Qed.

End MergeNoFiles.

(** A bucket that holds a text file and a directory marker, no CSV. *)
Lemma merge_without_files_writes_nothing_witness :
  exists s1,
    @Merge.get_csv_files_with_retry _ Mock.mem_client 5 "notes-bucket" "" 10 3
      (Mock.start Mock.notes_store) = Ret [] s1
    /\ @Merge.lambda_handler _ Mock.mem_client 5 [] [] Mock.notes_request Mock.no_environ
         (Mock.start Mock.notes_store)
       = Ret (Merge.mkResponse 200
                (Merge.BodyNoFiles "Nenhum arquivo CSV encontrado" 0
                   "notes-bucket" "merged-bucket")) s1
    /\ none_of is_put (trace s1).
Proof.
  assert (Hlist : exists s1,
            @Merge.get_csv_files_with_retry _ Mock.mem_client 5 "notes-bucket" "" 10 3
              (Mock.start Mock.notes_store) = Ret [] s1)
    by (eexists; vm_compute; reflexivity).
  destruct Hlist as (s1 & Hlist). exists s1. split; [exact Hlist|].
  destruct (@merge_without_files_writes_nothing _ Mock.mem_client 5 [] []
              Mock.notes_request Mock.no_environ (Mock.start Mock.notes_store) s1
              eq_refl eq_refl Hlist) as (Hrun & added & Htr & Hnone).
  split; [exact Hrun|]. rewrite Htr. exact Hnone.
Defined.

(** ** The counters of the merge *)

(** What one content adds: a usable one adds the header (once, if no
    worker wrote it yet) and line 1, and one to both counters; any other
    adds nothing. *)
Lemma contribute_spec sh content rows csv_content :
  let lines := match csv_content with
               | Some c => Py.split_lines (Py.strip c)
               | None => []
               end in
  Merge.contribute sh content rows csv_content
  = if Merge.usable csv_content
    then (Merge.mkShared true (Merge.files_processed sh + 1),
          ((if Merge.header_written sh then content else content ++ [nth 0 lines []])
             ++ [nth 1 lines []],
           rows + 1))
    else (sh, (content, rows)).
Proof.
  unfold Merge.contribute, Merge.usable. destruct csv_content as [c|]; [|reflexivity].
  destruct (Lister.nonempty c); [|reflexivity]. simpl andb.
  destruct (Py.len (Py.split_lines (Py.strip c)) >=? 2); reflexivity.
Qed.

Lemma contribute_counts sh content rows csv_content sh' content' rows' :
  Merge.contribute sh content rows csv_content = (sh', (content', rows')) ->
  Merge.files_processed sh' - Merge.files_processed sh = rows' - rows.
Proof.
  rewrite contribute_spec. destruct (Merge.usable csv_content);
    intros H; injection H as <- <- <-; simpl; lia.
Qed.




Lemma sum_rows_set_nth ws : forall b wk wk',
  nth_error ws b = Some wk ->
  Merge.sum_rows (Merge.set_nth b wk' ws)
  = Merge.sum_rows ws + (Merge.batch_rows wk' - Merge.batch_rows wk).
Proof.
  induction ws as [|w ws IH]; intros [|b] wk wk' Hnth; simpl in *; try discriminate.
  - injection Hnth as ->. lia.
  - rewrite (IH b wk wk' Hnth). lia.
Qed.












Section MergeCounters.
Context {W : Type} {S3 : S3Client W}.

(** [read_csv_from_s3] always returns: a content or [None]. *)
Lemma read_from_returns bucket key max_retries todo : forall attempt (s : state W),
  exists c s', Merge.read_from bucket key max_retries todo attempt s = Ret c s'.
Proof.
  induction todo as [|todo IH]; intros attempt s; simpl.
  - eexists _, _. reflexivity.
  - unfold bind at 1, Merge.read_attempt, try_catch, bind, call, ret.
    destruct (get_object bucket key (world s)) as [[content|e] w1]; simpl.
    + eexists _, _. reflexivity.
    + destruct e as [code|what].
      * destruct (code_in code _).
        -- eexists _, _. reflexivity.
        -- unfold when, sleep, emit, ret.
           destruct (attempt <? max_retries - 1); apply IH.
      * unfold when, sleep, emit, ret.
        destruct (attempt <? max_retries - 1); apply IH.
Qed.

(** A turn of a worker moves the shared counter and its own row count
    by the same amount. *)
Lemma worker_step_counts source_bucket sh wk (s : state W) :
  exists sh' wk' s',
    Merge.worker_step source_bucket sh wk s = Ret (sh', wk') s'
    /\ Merge.files_processed sh' - Merge.files_processed sh
       = Merge.batch_rows wk' - Merge.batch_rows wk.
Proof.
  unfold Merge.worker_step. destruct (Merge.pending wk) as [|file_info rest].
  - exists sh, wk, s. split; [reflexivity|lia].
  - unfold bind at 1, try_catch, bind, Merge.read_csv_from_s3.
    destruct (read_from_returns source_bucket (Key file_info) 2 (Z.to_nat 2) 0 s)
      as (c & s1 & Hread).
    rewrite Hread. unfold ret.
    destruct (Merge.contribute sh (Merge.batch_content wk) (Merge.batch_rows wk) c)
      as [sh' [content' rows']] eqn:Hc.
    eexists _, _, _. split; [reflexivity|]. simpl.
    exact (contribute_counts _ _ _ _ Hc).
Qed.

(** Whatever the schedule, the shared counter stays the sum of the row
    counts of the workers. *)
Lemma run_schedule_counts source_bucket sched : forall sh ws (s : state W),
  Merge.files_processed sh = Merge.sum_rows ws ->
  exists sh' ws' s',
    Merge.run_schedule source_bucket sched sh ws s = Ret (sh', ws') s'
    /\ Merge.files_processed sh' = Merge.sum_rows ws'.
Proof.
  induction sched as [|b sched IH]; intros sh ws s Hinv; simpl.
  - exists sh, ws, s. split; [reflexivity|exact Hinv].
  - destruct (nth_error ws b) as [wk|] eqn:Hnth; [|apply IH; exact Hinv].
    unfold bind at 1.
    destruct (worker_step_counts source_bucket sh wk s) as (sh1 & wk1 & s1 & Hstep & Hdiff).
    rewrite Hstep. apply IH.
    rewrite (sum_rows_set_nth _ _ wk1 Hnth). lia.
Qed.










End MergeCounters.


(** ** The header of the merged file *)

(** When the workers run one after the other and their results are taken
    in the order of submission, the output of the test is as the test
    expects it. *)
Example merge_in_submission_order :
  exists s',
    @Merge.merge_csv_files _ Mock.mem_client [] [] Mock.test_files
      "test-source-bucket" "test-dest-bucket" "merged" "test_merged.csv" 2
      (Mock.start Mock.test_store)
    = Ret (Merge.mkResults 3 "s3://test-dest-bucket/merged/test_merged.csv" 3) s'
    /\ option_map Py.split_lines
         (Mock.find_object "test-dest-bucket" "merged/test_merged.csv" (world s'))
       = Some [Py.txt "name,age,city"; Py.txt "Joao,25,Sao Paulo";
               Py.txt "Maria,30,Rio de Janeiro"; Py.txt "Pedro,35,Belo Horizonte"; []].
Proof. eexists. split; vm_compute; reflexivity. Qed.

(** C2 (the code departs from the claim). The three objects of
    [test_csv_merge.py], batches of two as in the test: the worker of the
    first batch takes the lock first, so the header goes into its
    [batch_content]; [as_completed] hands over the second batch first.
    The counters are 3 and 3 and the header occurs once, but line 0 of the
    output is a data row and the header is line 1. *)
Theorem merge_header_after_data_row :
  exists s',
    @Merge.merge_csv_files _ Mock.mem_client [] [1%nat; 0%nat] Mock.test_files
      "test-source-bucket" "test-dest-bucket" "merged" "test_merged.csv" 2
      (Mock.start Mock.test_store)
    = Ret (Merge.mkResults 3 "s3://test-dest-bucket/merged/test_merged.csv" 3) s'
    /\ option_map Py.split_lines
         (Mock.find_object "test-dest-bucket" "merged/test_merged.csv" (world s'))
       = Some [Py.txt "Pedro,35,Belo Horizonte"; Py.txt "name,age,city";
               Py.txt "Joao,25,Sao Paulo"; Py.txt "Maria,30,Rio de Janeiro"; []].
Proof. eexists. split; vm_compute; reflexivity. Qed.

(** The same when the worker of the second batch takes the lock first and
    the results are taken in the order of submission: the header comes
    after the two rows of the first batch. *)
Example merge_header_in_second_batch :
  exists s',
    @Merge.merge_csv_files _ Mock.mem_client [1%nat] [] Mock.test_files
      "test-source-bucket" "test-dest-bucket" "merged" "test_merged.csv" 2
      (Mock.start Mock.test_store)
    = Ret (Merge.mkResults 3 "s3://test-dest-bucket/merged/test_merged.csv" 3) s'
    /\ option_map Py.split_lines
         (Mock.find_object "test-dest-bucket" "merged/test_merged.csv" (world s'))
       = Some [Py.txt "Joao,25,Sao Paulo"; Py.txt "Maria,30,Rio de Janeiro";
               Py.txt "name,age,city"; Py.txt "Pedro,35,Belo Horizonte"; []].
Proof. eexists. split; vm_compute; reflexivity. Qed.

(** ** The report of the aggregator *)

Section AggregatorFacts.
Context {B : Aggregator.Builtins}.

(** The error list of a report is the first ten errors collected. *)
Lemma summarize_errors now parallel_results a avg r :
  Aggregator.summarize now parallel_results a avg = Ok r ->
  Aggregator.r_errors r = firstn 10 (Aggregator.errors a)
  /\ Aggregator.total_batches r = Py.len parallel_results.
Proof.
  unfold Aggregator.summarize.
  destruct (if Lister.nonempty parallel_results then _ else _); [|discriminate].
  destruct (Aggregator.py_round2 _); [|discriminate].
  destruct (Aggregator.py_sum _); [|discriminate].
  destruct (Aggregator.py_round2 _); [|discriminate].
  intros H. injection H as <-. simpl. split; [|reflexivity].
  destruct (Aggregator.errors a); reflexivity.
Qed.

(** The statistics of an empty array of results. *)
Lemma summarize_empty now v :
  Aggregator.py_round2 (Aggregator.PInt 0) = Ok v ->
  Aggregator.average_time (Aggregator.aggregate []) = Ok (Aggregator.PInt 0)
  /\ exists r,
       Aggregator.summarize now [] (Aggregator.aggregate []) (Aggregator.PInt 0) = Ok r
       /\ Aggregator.success_rate r = Aggregator.PInt 0
       /\ Aggregator.total_batches r = 0.
Proof.
  intros Hround. split; [reflexivity|]. unfold Aggregator.summarize. simpl.
  rewrite Hround. eexists. split; [reflexivity|]. split; reflexivity.
Qed.

Section WithClient.
Context {W : Type} {S3 : S3Client W}.

(** What the handler answers: 500 without a destination bucket or when
    the statistics raise, the report otherwise, whether or not it could
    be saved. *)
Lemma lambda_handler_answer event (s : state W) :
  let results := match Aggregator.parallel_results event with
                 | Some l => l
                 | None => []
                 end in
  if Py.truthy_opt (Aggregator.dest_bucket event) then
    match Aggregator.average_time (Aggregator.aggregate results) with
    | Ok avg =>
        match Aggregator.summarize (fst (now (world s))) results
                (Aggregator.aggregate results) avg with
        | Ok r => exists loc s',
                    Aggregator.lambda_handler event s = Ret (Aggregator.Resp200 r loc) s'
        | Err e => exists msg1 msg2 s',
                     Aggregator.lambda_handler event s = Ret (Aggregator.Resp500 msg1 msg2) s'
        end
    | Err e => exists msg1 msg2 s',
                 Aggregator.lambda_handler event s = Ret (Aggregator.Resp500 msg1 msg2) s'
    end
  else exists msg1 msg2 s',
         Aggregator.lambda_handler event s = Ret (Aggregator.Resp500 msg1 msg2) s'.
Proof.
  intros results.
  remember (Aggregator.lambda_handler event s) as res eqn:Hres.
  unfold Aggregator.lambda_handler, try_catch in Hres. fold results in Hres.
  destruct (Py.truthy_opt (Aggregator.dest_bucket event)); cbn [negb] in Hres;
    cbv beta iota in Hres; [|eexists _, _, _; exact Hres].
  destruct (Aggregator.average_time (Aggregator.aggregate results)) as [avg|e];
    [|eexists _, _, _; exact Hres].
  unfold bind at 1, Lister.datetime_now in Hres.
  destruct (now (world s)) as [t w1]. simpl fst. cbv beta iota in Hres.
  destruct (Aggregator.summarize t results (Aggregator.aggregate results) avg) as [r|e];
    [|eexists _, _, _; exact Hres].
  unfold bind at 1 in Hres. simpl world in Hres. destruct (now w1) as [t' w2].
  simpl trace in Hres. cbv beta iota in Hres.
  unfold bind at 1 in Hres.
  destruct (Aggregator.json_dumps (Aggregator.report_value r)) as [body|e].
  - unfold call in Hres. simpl world in Hres.
    destruct (put_object _ _ _ _ _) as [[[]|e] w3]; eexists _, _; exact Hres.
  - eexists _, _. exact Hres.
Qed.

(** C7. The handler always answers. For an empty [parallel_results] (and
    a destination bucket, and [round(0, 2)] defined) it answers with a
    report whose [success_rate] is the integer 0, no division made, and
    whose [total_batches] is 0. Whatever the input, the error list of the
    report it answers with is the first ten of the errors collected: ten
    entries at most. *)
Theorem aggregator_report_guards event (s : state W) :
  let results := match Aggregator.parallel_results event with
                 | Some l => l
                 | None => []
                 end in
  (exists resp s', Aggregator.lambda_handler event s = Ret resp s')
  /\ (Py.truthy_opt (Aggregator.dest_bucket event) = true ->
      results = [] ->
      (exists v, Aggregator.py_round2 (Aggregator.PInt 0) = Ok v) ->
      exists r loc s',
        Aggregator.lambda_handler event s = Ret (Aggregator.Resp200 r loc) s'
        /\ Aggregator.success_rate r = Aggregator.PInt 0
        /\ Aggregator.total_batches r = 0)
  /\ (forall r loc s',
        Aggregator.lambda_handler event s = Ret (Aggregator.Resp200 r loc) s' ->
        Aggregator.r_errors r
        = firstn 10 (Aggregator.errors (Aggregator.aggregate results))
        /\ (List.length (Aggregator.r_errors r) <= 10)%nat).
Proof.
  intros results. pose proof (lambda_handler_answer event s) as Hans.
  cbv zeta in Hans. fold results in Hans.
  split; [|split].
  - destruct (Py.truthy_opt (Aggregator.dest_bucket event)).
    + destruct (Aggregator.average_time _).
      * destruct (Aggregator.summarize _ _ _ _).
        -- destruct Hans as (loc & s' & H). eauto.
        -- destruct Hans as (m1 & m2 & s' & H). eauto.
      * destruct Hans as (m1 & m2 & s' & H). eauto.
    + destruct Hans as (m1 & m2 & s' & H). eauto.
  - intros Hdest Hempty (v & Hround). rewrite Hdest in Hans. rewrite Hempty in *.
    destruct (summarize_empty (fst (now (world s))) Hround)
      as (Havg & r & Hsum & Hrate & Htotal).
    rewrite Havg, Hsum in Hans. destruct Hans as (loc & s' & H).
    exists r, loc, s'. repeat split; assumption.
  - intros r loc s' Hresp.
    destruct (Py.truthy_opt (Aggregator.dest_bucket event)).
    + destruct (Aggregator.average_time _) as [avg|e].
      * destruct (Aggregator.summarize _ _ _ _) as [r0|e] eqn:Hsum.
        -- destruct Hans as (loc0 & s0 & H). rewrite H in Hresp. injection Hresp as <- _ _.
           destruct (summarize_errors _ _ _ _ Hsum) as [Herr _].
           rewrite Herr. split; [reflexivity|]. rewrite length_firstn. lia.
        -- destruct Hans as (m1 & m2 & s0 & H). rewrite H in Hresp. discriminate.
      * destruct Hans as (m1 & m2 & s0 & H). rewrite H in Hresp. discriminate.
    + destruct Hans as (m1 & m2 & s0 & H). rewrite H in Hresp. discriminate.
Qed.

End WithClient.
End AggregatorFacts.

(** An empty array, and twelve results that each carry an error. *)
Lemma aggregator_report_guards_witness :
  let empty := Aggregator.mkRequest (Some []) (Some "reports") None in
  let failed := Aggregator.PDict [("error", Aggregator.PStr "timeout")] in
  let twelve := Aggregator.mkRequest (Some (repeat failed 12)) (Some "reports") (Some "out/") in
  (exists r loc s',
     @Aggregator.lambda_handler Mock.int_builtins _ Mock.mem_client empty
       (Mock.start Mock.test_store) = Ret (Aggregator.Resp200 r loc) s'
     /\ Aggregator.success_rate r = Aggregator.PInt 0
     /\ Aggregator.total_batches r = 0)
  /\ (exists r loc s',
        @Aggregator.lambda_handler Mock.int_builtins _ Mock.mem_client twelve
          (Mock.start Mock.test_store) = Ret (Aggregator.Resp200 r loc) s'
        /\ Aggregator.r_failed_batches r = 12
        /\ List.length (Aggregator.r_errors r) = 10%nat).
Proof.
  intros empty failed twelve. split.
  - destruct (@aggregator_report_guards Mock.int_builtins _ Mock.mem_client empty
                (Mock.start Mock.test_store)) as (_ & Hempty & _).
    apply Hempty; [reflexivity|reflexivity|eexists; reflexivity].
  - destruct (@aggregator_report_guards Mock.int_builtins _ Mock.mem_client twelve
                (Mock.start Mock.test_store)) as ((resp & s' & Hrun) & _ & Herrors).
    assert (Hresp : exists r loc, resp = Aggregator.Resp200 r loc
                                  /\ Aggregator.r_failed_batches r = 12).
    { vm_compute in Hrun. injection Hrun as <- _. eexists _, _. split; reflexivity. }
    destruct Hresp as (r & loc & -> & Hfailed).
    exists r, loc, s'. split; [exact Hrun|]. split; [exact Hfailed|].
    destruct (Herrors r loc s' Hrun) as [Herr _]. rewrite Herr. reflexivity.
Defined.

(** ** The plan of the batch planner *)

(** The plan of the specification's example: three descriptors,
    [0, 1000), [1000, 2000), [2000, 2500), numbered from 1. *)
Example plan_2500_by_1000 :
  Planner.plan "bucket" "in/" 2500 1000
  = Ok [Planner.mkBatchInfo 1 0 1000 "bucket" "in/" "merged_batch_001.csv";
        Planner.mkBatchInfo 2 1000 2000 "bucket" "in/" "merged_batch_002.csv";
        Planner.mkBatchInfo 3 2000 2500 "bucket" "in/" "merged_batch_003.csv"].
Proof. vm_compute. reflexivity. Qed.

(** Each descriptor of a plan covers [i * B, min((i + 1) * B, total)) and
    is named after its number, padded to three digits. *)
Lemma plan_descriptors source_bucket source_prefix total_files files_per_batch batches :
  Planner.plan source_bucket source_prefix total_files files_per_batch = Ok batches ->
  forall i, (i < List.length batches)%nat ->
    nth_error batches i
    = Some (Planner.mkBatchInfo (Z.of_nat i + 1) (Z.of_nat i * files_per_batch)
              (Z.min (Z.of_nat i * files_per_batch + files_per_batch) total_files)
              source_bucket source_prefix
              ("merged_batch_" ++ Planner.pad3 (Z.of_nat i + 1) ++ ".csv")%string).
Proof.
  unfold Planner.plan.
  destruct (Float.true_divide total_files files_per_batch) as [x|e]; [|discriminate].
  intros H i Hi. injection H as <-.
  unfold Planner.range in *. rewrite !length_map, length_seq in Hi.
  rewrite !nth_error_map, nth_error_seq.
  destruct (Nat.ltb_spec i (Z.to_nat (Float.ceil x))); [|lia].
  reflexivity.
Qed.

(** C6 (the code departs from the claim). The number of descriptors is
    [math.ceil] of a quotient rounded to a float: for 2^54 + 1 files in
    batches of 2^54 the quotient rounds to 1.0 and the plan has one
    descriptor, [0, 2^54), where [ceil(total / per_batch)] is 2; the file
    of index 2^54 is in no batch. *)
Theorem plan_count_rounded_quotient :
  Float.true_divide (2 ^ 54 + 1) (2 ^ 54) = Ok (2 ^ 52, -52)
  /\ Planner.plan "bucket" "in/" (2 ^ 54 + 1) (2 ^ 54)
     = Ok [Planner.mkBatchInfo 1 0 (2 ^ 54) "bucket" "in/" "merged_batch_001.csv"]
  /\ Partitioner.ceil_div (2 ^ 54 + 1) (2 ^ 54) = 2.
Proof. split; [|split]; vm_compute; reflexivity. Qed.

(** ** The quotient of integers below 2^53 *)

Section FloatFacts.

Lemma pow2_step n : 0 < n -> 2 ^ n = 2 ^ (n - 1) * 2.
Proof.
  intros Hn. replace n with (Z.succ (n - 1)) at 1 by lia.
  rewrite Z.pow_succ_r by lia. lia.
Qed.

Lemma round_half_even_upper n d N :
  0 < d -> n <= N * d -> Float.round_half_even n d <= N.
Proof.
  intros Hd Hn. unfold Float.round_half_even.
  pose proof (Z.div_mod n d ltac:(lia)) as Hdm.
  pose proof (Z.mod_pos_bound n d Hd) as Hmod.
  destruct (2 * (n mod d) <? d) eqn:H1; [nia|].
  apply Z.ltb_ge in H1.
  destruct (d <? 2 * (n mod d)); [nia|].
  destruct (Z.even (n / d)); nia.
Qed.

Lemma round_half_even_lower n d N :
  0 < d -> d < 2 * (n - N * d) -> N + 1 <= Float.round_half_even n d.
Proof.
  intros Hd Hn. unfold Float.round_half_even.
  pose proof (Z.div_mod n d ltac:(lia)) as Hdm.
  pose proof (Z.mod_pos_bound n d Hd) as Hmod.
  assert (Hq : N <= n / d) by nia.
  destruct (2 * (n mod d) <? d) eqn:H1.
  - apply Z.ltb_lt in H1. nia.
  - destruct (d <? 2 * (n mod d)) eqn:H2.
    + lia.
    + apply Z.ltb_ge in H1. apply Z.ltb_ge in H2.
      destruct (Z.even (n / d)); nia.
Qed.

Lemma round_half_even_one n : Float.round_half_even n 1 = n.
Proof.
  unfold Float.round_half_even. rewrite Z.mod_1_r, Z.div_1_r. reflexivity.
Qed.

(** [floor_log2_ratio a b] is the [f] with [2^f <= a / b < 2^(f + 1)]. *)
Lemma floor_log2_ratio_spec a b :
  0 < a -> 0 < b ->
  let f := Float.floor_log2_ratio a b in
  (0 <= f -> b * 2 ^ f <= a < b * 2 ^ (f + 1))
  /\ (f < 0 -> b <= a * 2 ^ (- f) /\ a * 2 ^ (- f - 1) < b).
Proof.
  intros Ha Hb. unfold Float.floor_log2_ratio.
  pose proof (Z.log2_spec a Ha) as [Hla Hua].
  pose proof (Z.log2_spec b Hb) as [Hlb Hub].
  pose proof (Z.log2_nonneg a) as Hna. pose proof (Z.log2_nonneg b) as Hnb.
  set (la := Z.log2 a) in *. set (lb := Z.log2 b) in *.
  rewrite <- Z.add_1_r in Hua, Hub.
  rewrite Z.pow_add_r in Hua, Hub by lia. change (2 ^ 1) with 2 in *.
  assert (Hpa : 0 < 2 ^ la) by (apply Z.pow_pos_nonneg; lia).
  assert (Hpb : 0 < 2 ^ lb) by (apply Z.pow_pos_nonneg; lia).
  destruct (0 <=? la - lb) eqn:Hd.
  - apply Z.leb_le in Hd.
    assert (Hsplit : 2 ^ la = 2 ^ lb * 2 ^ (la - lb)).
    { rewrite <- Z.pow_add_r by lia. f_equal. lia. }
    assert (Hpd : 0 < 2 ^ (la - lb)) by (apply Z.pow_pos_nonneg; lia).
    destruct (b * 2 ^ (la - lb) <=? a) eqn:Ht.
    + apply Z.leb_le in Ht. split; [|lia]. intros _.
      rewrite Z.pow_add_r by lia. change (2 ^ 1) with 2. nia.
    + apply Z.leb_gt in Ht. split.
      * intros Hf. replace (la - lb - 1 + 1) with (la - lb) by lia.
        split; [|lia].
        assert (2 ^ (la - lb) = 2 ^ (la - lb - 1) * 2) by (apply pow2_step; lia).
        assert (0 < 2 ^ (la - lb - 1)) by (apply Z.pow_pos_nonneg; lia).
        nia.
      * intros Hf. assert (la - lb = 0) by lia.
        replace (- (la - lb - 1)) with 1 by lia.
        replace (- (la - lb - 1) - 1) with 0 by lia.
        change (2 ^ 1) with 2. change (2 ^ 0) with 1.
        replace (la - lb) with 0 in * by lia. change (2 ^ 0) with 1 in *. nia.
  - apply Z.leb_gt in Hd.
    assert (Hsplit : 2 ^ lb = 2 ^ la * 2 ^ (- (la - lb))).
    { rewrite <- Z.pow_add_r by lia. f_equal. lia. }
    assert (Hpd : 0 < 2 ^ (- (la - lb))) by (apply Z.pow_pos_nonneg; lia).
    destruct (b <=? a * 2 ^ (- (la - lb))) eqn:Ht.
    + apply Z.leb_le in Ht. split; [lia|]. intros _. split; [exact Ht|].
      assert (2 ^ (- (la - lb)) = 2 ^ (- (la - lb) - 1) * 2) by (apply pow2_step; lia).
      assert (0 < 2 ^ (- (la - lb) - 1)) by (apply Z.pow_pos_nonneg; lia).
      nia.
    + apply Z.leb_gt in Ht. split; [lia|]. intros _.
      replace (- (la - lb - 1)) with (- (la - lb) + 1) by lia.
      replace (- (la - lb) + 1 - 1) with (- (la - lb)) by lia.
      split; [|exact Ht].
      rewrite Z.pow_add_r by lia. change (2 ^ 1) with 2. nia.
Qed.

(** Below 2^53 the rounding of the quotient does not cross an integer:
    [math.ceil(a / b)] is the ceiling of the exact quotient. *)
Lemma ceil_true_divide_exact a b :
  0 <= a < 2 ^ 53 -> 0 < b < 2 ^ 53 ->
  exists x, Float.true_divide a b = Ok x /\ Float.ceil x = Partitioner.ceil_div a b.
Proof.
  intros Ha Hb. unfold Float.true_divide.
  destruct (b =? 0) eqn:Hb0; [lia|].
  rewrite (Z.abs_eq a), (Z.abs_eq b) by lia.
  unfold Float.true_divide_pos.
  destruct (a =? 0) eqn:Ha0.
  - apply Z.eqb_eq in Ha0. subst a. eexists. split; [reflexivity|]. simpl.
    unfold Partitioner.ceil_div. symmetry. apply Z.div_small. lia.
  - apply Z.eqb_neq in Ha0.
    replace (Z.sgn a) with 1 by (symmetry; apply Z.sgn_pos; lia).
    replace (Z.sgn b) with 1 by (symmetry; apply Z.sgn_pos; lia).
    pose proof (@floor_log2_ratio_spec a b ltac:(lia) ltac:(lia)) as Hf. cbv zeta in Hf.
    set (f := Float.floor_log2_ratio a b) in *.
    destruct Hf as [Hfpos Hfneg].
    assert (Hf_hi : f <= 52).
    { destruct (Z_lt_le_dec 52 f) as [Hgt|]; [|assumption].
      destruct (Hfpos ltac:(lia)) as [Hlow _].
      assert (2 ^ 53 <= 2 ^ f) by (apply Z.pow_le_mono_r; lia).
      nia. }
    assert (Hf_lo : -53 <= f).
    { destruct (Z_lt_le_dec f (-53)) as [Hlt|]; [|assumption].
      destruct (Hfneg ltac:(lia)) as [_ Hup].
      assert (2 ^ 53 <= 2 ^ (- f - 1)) by (apply Z.pow_le_mono_r; lia).
      nia. }
    rewrite Z.max_l by lia.
    destruct (0 <=? f - 52) eqn:He.
    + (* the quotient is at least 2^52: b = 1 *)
      apply Z.leb_le in He. assert (f = 52) by lia.
      destruct (Hfpos ltac:(lia)) as [Hlow _]. replace f with 52 in * by lia.
      assert (b = 1) by nia. subst b.
      replace (52 - 52) with 0 by lia. change (2 ^ 0) with 1.
      change (1 * 1) with 1. rewrite round_half_even_one, Z.mul_1_r.
      assert (Hov : (2 ^ 1024 <=? a) = false).
      { apply Z.leb_gt. assert (2 ^ 53 < 2 ^ 1024) by (vm_compute; reflexivity). lia. }
      rewrite Hov. cbn [andb].
      rewrite Z.mul_1_l. exists (a, 0). split; [reflexivity|].
      unfold Float.ceil, Partitioner.ceil_div. change (0 <=? 0) with true. cbv iota.
      change (2 ^ 0) with 1. replace (a + 1 - 1) with a by lia.
      rewrite Z.div_1_r. lia.
    + apply Z.leb_gt in He. simpl andb. cbv iota.
      eexists. split; [reflexivity|].
      rewrite !Z.mul_1_l.
      unfold Float.ceil. destruct (0 <=? f - 52) eqn:He'; [apply Z.leb_le in He'; lia|].
      set (sh := - (f - 52)) in *.
      assert (Hsh : 0 < sh) by (unfold sh; lia).
      assert (HP : 0 < 2 ^ sh) by (apply Z.pow_pos_nonneg; lia).
      (* 2^52 * b <= a * 2^sh *)
      assert (Hscale : 2 ^ 52 * b <= a * 2 ^ sh).
      { destruct (Z_lt_le_dec f 0) as [Hneg|Hnn].
        - destruct (Hfneg Hneg) as [Hlow _].
          replace sh with (- f + 52) by (unfold sh; lia).
          rewrite Z.pow_add_r by lia. nia.
        - destruct (Hfpos Hnn) as [Hlow _].
          assert (2 ^ 52 = 2 ^ f * 2 ^ sh).
          { rewrite <- Z.pow_add_r by lia. f_equal. unfold sh. lia. }
          assert (0 < 2 ^ f) by (apply Z.pow_pos_nonneg; lia).
          nia. }
      assert (Hb2 : b < 2 * 2 ^ sh) by nia.
      set (P := 2 ^ sh) in *.
      set (k := Partitioner.ceil_div a b).
      pose proof (@ceil_div_bounds b ltac:(lia) a ltac:(lia)) as Hk. fold k in Hk.
      set (m := Float.round_half_even (a * P) b).
      assert (Hup : m <= k * P).
      { apply round_half_even_upper; [lia|]. nia. }
      assert (Hlow : (k - 1) * P + 1 <= m).
      { apply round_half_even_lower; [lia|]. nia. }
      pose proof (Z.div_mod (- m) P ltac:(lia)) as Hdm.
      pose proof (Z.mod_pos_bound (- m) P HP) as Hmod.
      nia.
Qed.

End FloatFacts.

Section PlanFacts.
Variables source_bucket source_prefix : string.
Variables total_files files_per_batch : Z.
Hypothesis total_range : 0 <= total_files < 2 ^ 53.
Hypothesis batch_range : 0 < files_per_batch < 2 ^ 53.

(** For a number of files and a batch size below 2^53 the plan has
    [ceil(total / per_batch)] descriptors, the [i]-th covering
    [i * B, min((i + 1) * B, total)), named after [i + 1] padded to three
    digits. *)
Theorem plan_below_2_53 :
  exists batches,
    Planner.plan source_bucket source_prefix total_files files_per_batch = Ok batches
    /\ Py.len batches = Partitioner.ceil_div total_files files_per_batch
    /\ forall i, (i < List.length batches)%nat ->
         nth_error batches i
         = Some (Planner.mkBatchInfo (Z.of_nat i + 1) (Z.of_nat i * files_per_batch)
                   (Z.min (Z.of_nat i * files_per_batch + files_per_batch) total_files)
                   source_bucket source_prefix
                   ("merged_batch_" ++ Planner.pad3 (Z.of_nat i + 1) ++ ".csv")%string).
Proof.
  destruct (ceil_true_divide_exact total_range batch_range) as (x & Hdiv & Hceil).
  assert (Hplan : Planner.plan source_bucket source_prefix total_files files_per_batch
                  = Ok (map (Planner.make_batch source_bucket source_prefix
                               total_files files_per_batch)
                            (Planner.range (Float.ceil x)))).
  { unfold Planner.plan. rewrite Hdiv. reflexivity. }
  eexists. split; [exact Hplan|]. split.
  - unfold Py.len, Planner.range. rewrite !length_map, length_seq, Hceil.
    assert (0 <= Partitioner.ceil_div total_files files_per_batch).
    { unfold Partitioner.ceil_div. apply Z.div_pos; lia. }
    lia.
  - apply (plan_descriptors _ _ _ _ Hplan).
Qed.

End PlanFacts.

Lemma plan_below_2_53_witness :
  0 <= 2500 < 2 ^ 53 /\ 0 < 1000 < 2 ^ 53
  /\ exists batches,
       Planner.plan "bucket" "in/" 2500 1000 = Ok batches /\ Py.len batches = 3.
Proof.
  assert (H1 : 0 <= 2500 < 2 ^ 53) by (split; [lia|reflexivity]).
  assert (H2 : 0 < 1000 < 2 ^ 53) by (split; reflexivity).
  split; [exact H1|]. split; [exact H2|].
  destruct (@plan_below_2_53 "bucket" "in/" 2500 1000 H1 H2) as (batches & Hplan & Hlen & _).
  exists batches. split; [exact Hplan|]. rewrite Hlen. reflexivity.
Defined.

(** ** Batch sizes that are not positive *)

Section MoverBatchSize.
Context {W : Type} {S3 : S3Client W}.

(** A batch size of zero raises ([range] refuses a zero step); a negative
    one gives an empty range: no file is moved and both counters stay 0. *)
Remark process_files_in_batches_nonpositive files sb db sp dp batch_size (s : state W) :
  (batch_size = 0 ->
   exists e, Mover.process_files_in_batches files sb db sp dp batch_size s = Raise e s)
  /\ (batch_size < 0 ->
      Mover.process_files_in_batches files sb db sp dp batch_size s
      = Ret (Mover.mkResults 0 0) s).
Proof.
  unfold Mover.process_files_in_batches, Py.range0. split; intros Hb.
  - subst batch_size. simpl. eexists. reflexivity.
  - destruct (batch_size =? 0) eqn:H0; [lia|].
    destruct (batch_size <? 0) eqn:Hneg; [reflexivity|lia].
Qed.

End MoverBatchSize.

(** ** The fuel of the manual pagination *)

Section PaginationFuel.
Context {W : Type} {S3 : S3Client W}.
Variable keep : string -> bool.

(** Fuel only bounds the number of pages asked for: a run that ends with
    some fuel ends the same way with any more. *)
Lemma pagination_loop_fuel_mono b p m fuel : forall fuel' files token (s : state W),
  (fuel <= fuel')%nat ->
  Lister.pagination_loop keep fuel b p m files token s <> OutOfFuel ->
  Lister.pagination_loop keep fuel' b p m files token s
  = Lister.pagination_loop keep fuel b p m files token s.
Proof.
  induction fuel as [|fuel IH]; intros fuel' files token s Hle Hdef; simpl in *.
  - congruence.
  - destruct fuel' as [|fuel']; [lia|]. simpl.
    destruct (Py.len files <? m); [|reflexivity].
    unfold bind at 1 in Hdef. unfold bind at 1. unfold bind at 2.
    destruct (call _ _ s) as [response s1|e s1|]; [|reflexivity|reflexivity].
    destruct (RContents response) as [objs|]; [|reflexivity].
    destruct (negb _); [reflexivity|].
    unfold bind, sleep, emit in *. apply IH; [lia|exact Hdef].
Qed.

(** A store whose pages are never truncated is listed with one unit of
    fuel. *)
Lemma list_with_pagination_one_page b p m fuel (s : state W) :
  (forall max_keys token w response,
     fst (list_objects_v2 b p max_keys token w) = Ok response ->
     IsTruncated response <> Some true) ->
  Lister.list_with_pagination keep (S fuel) b p m s <> OutOfFuel.
Proof.
  intros Hpages. unfold Lister.list_with_pagination. simpl.
  destruct (Py.len [] <? m); [|discriminate].
  unfold bind, call.
  destruct (list_objects_v2 b p _ None (world s)) as [[response|e] w1] eqn:Hcall;
    [|discriminate].
  destruct (RContents response); [|discriminate].
  specialize (Hpages _ _ _ response ltac:(rewrite Hcall; reflexivity)).
  destruct (IsTruncated response) as [[|]|]; simpl; try discriminate. congruence.
Qed.

End PaginationFuel.

(* ===================================================================== *)
(** * Further properties of the code *)
(* ===================================================================== *)

(** ** What a move does to the source *)

Section MoveOutcome.
Context {W : Type} {S3 : S3Client W}.





(** X2. A copy refused with [NoSuchKey], [NoSuchBucket] or [AccessDenied]
    ends the move at once: one copy call, no probe, no delete, no pause,
    and [False]. *)
Theorem move_file_permanent_copy_error sb sk db dk max_retries code (s : state W) :
  0 < max_retries ->
  code_in code ["NoSuchKey"; "NoSuchBucket"; "AccessDenied"] = true ->
  (forall w, fst (copy_object sb sk db dk w) = Err (ClientError code)) ->
  exists s',
    Mover.move_file sb sk db dk max_retries s = Ret false s'
    /\ trace s' = trace s ++ [EvCopy sb sk db dk false].
Proof.
  intros Hpos Hcode Hcopy. unfold Mover.move_file.
  destruct (Z.to_nat max_retries) as [|todo] eqn:Htodo; [lia|].
  simpl. unfold bind at 1, Mover.move_file_attempt, try_catch, bind, call.
  specialize (Hcopy (world s)).
  destruct (copy_object sb sk db dk (world s)) as [[[]|e] w1]; simpl in Hcopy;
    [discriminate|].
  injection Hcopy as ->. rewrite Hcode. eexists. split; reflexivity.
Qed.

End MoveOutcome.

(** A store that knows no such key. *)
Lemma move_file_permanent_copy_error_witness :
  let client := Mock.scripted (Err (ClientError "NoSuchKey")) (Ok tt) PagesEnd
                  (Ok Mock.empty_response) in
  0 < 2
  /\ (forall w, fst (@copy_object _ client "src" "gone.csv" "dst" "moved/gone.csv" w)
                = Err (ClientError "NoSuchKey"))
  /\ exists s',
       @Mover.move_file _ client "src" "gone.csv" "dst" "moved/gone.csv" 2 (Mock.start tt)
       = Ret false s'
       /\ trace s' = [EvCopy "src" "gone.csv" "dst" "moved/gone.csv" false].
Proof.
  intros client. split; [lia|]. split; [reflexivity|].
  apply (@move_file_permanent_copy_error _ client "src" "gone.csv" "dst" "moved/gone.csv"
           2 "NoSuchKey" (Mock.start tt)).
  - lia.
  - reflexivity.
  - intros w. reflexivity.
Defined.

Section MoverDeletes.
Context {W : Type} {S3 : S3Client W}.




End MoverDeletes.


(** ** The destination key *)

Lemma prefix_app p rest : prefix p (p ++ rest)%string = true.
Proof.
  induction p as [|c p IH]; simpl.
  - destruct rest; reflexivity.
  - destruct (ascii_dec c c) as [_|Hne]; [exact IH|congruence].
Qed.

Lemma substring_whole s : substring 0 (String.length s) s = s.
Proof. induction s as [|c s IH]; simpl; [reflexivity|rewrite IH; reflexivity]. Qed.

Lemma drop_app p rest : Py.drop (String.length p) (p ++ rest)%string = rest.
Proof.
  unfold Py.drop. induction p as [|c p IH]; simpl.
  - rewrite Nat.sub_0_r. apply substring_whole.
  - exact IH.
Qed.

(** [s.endswith('/')] looks at the last character. *)
Lemma endswith_slash_cons c r :
  Py.endswith (String c r) "/"
  = match r with
    | EmptyString => Ascii.eqb c Py.slash
    | _ => Py.endswith r "/"
    end.
Proof.
  unfold Py.endswith. destruct r as [|c' r']; simpl.
  - unfold Py.slash. destruct (Ascii.eqb c "/"); reflexivity.
  - rewrite Nat.sub_0_r. reflexivity.
Qed.

Lemma rstrip_slash_no_trailing s : Py.endswith (Py.rstrip_slash s) "/" = false.
Proof.
  induction s as [|c s IH]; [reflexivity|]. simpl.
  destruct (Py.rstrip_slash s) as [|c' r'] eqn:Hr.
  - destruct (Ascii.eqb c Py.slash) eqn:Hc; [reflexivity|].
    rewrite endswith_slash_cons. exact Hc.
  - rewrite endswith_slash_cons. exact IH.
Qed.

Lemma lstrip_slash_no_leading s : Py.startswith (Py.lstrip_slash s) "/" = false.
Proof.
  induction s as [|c s IH]; [reflexivity|]. cbn [Py.lstrip_slash].
  destruct (Ascii.eqb_spec c Py.slash) as [->|Hne]; [exact IH|].
  unfold Py.startswith. cbn [prefix].
  destruct (ascii_dec "/" c) as [Heq|_]; [|reflexivity].
  unfold Py.slash in Hne. congruence.
Qed.

(** X4. A key under the source prefix goes to the destination prefix with
    its relative path: [source_prefix ++ rest] becomes
    [dest_prefix.rstrip('/') + '/' + rest.lstrip('/')], and the two parts
    meet in exactly one slash (the first does not end with one, the second
    does not start with one). *)
Theorem dest_key_keeps_relative_path source_prefix dest_prefix rest :
  source_prefix <> EmptyString -> dest_prefix <> EmptyString ->
  Mover.dest_key_of source_prefix dest_prefix (source_prefix ++ rest)%string
  = (Py.rstrip_slash dest_prefix ++ "/" ++ Py.lstrip_slash rest)%string
  /\ Py.endswith (Py.rstrip_slash dest_prefix) "/" = false
  /\ Py.startswith (Py.lstrip_slash rest) "/" = false.
Proof.
  intros Hsp Hdp. split; [|split].
  - unfold Mover.dest_key_of, Py.startswith.
    rewrite prefix_app, drop_app.
    destruct source_prefix; [congruence|]. destruct dest_prefix; [congruence|].
    reflexivity.
  - apply rstrip_slash_no_trailing.
  - apply lstrip_slash_no_leading.
Qed.

Lemma dest_key_keeps_relative_path_witness :
  "incoming/" <> EmptyString /\ "archive//" <> EmptyString
  /\ Mover.dest_key_of "incoming/" "archive//" "incoming//2025/a.csv" = "archive/2025/a.csv".
Proof.
  split; [discriminate|]. split; [discriminate|].
  destruct (@dest_key_keeps_relative_path "incoming/" "archive//" "/2025/a.csv"
              ltac:(discriminate) ltac:(discriminate)) as [Hkey _].
  exact Hkey.
Defined.

(** Without a destination prefix the key is only stripped of the
    source prefix; without a source prefix, or for a key that is not under
    it, the whole key goes under the destination prefix. *)
Remark dest_key_without_prefix source_prefix dest_prefix source_key :
  (dest_prefix = EmptyString ->
   Py.startswith source_key source_prefix = false \/ source_prefix = EmptyString ->
   Mover.dest_key_of source_prefix dest_prefix source_key = source_key)
  /\ (dest_prefix <> EmptyString ->
      Py.startswith source_key source_prefix = false \/ source_prefix = EmptyString ->
      Mover.dest_key_of source_prefix dest_prefix source_key
      = (Py.rstrip_slash dest_prefix ++ "/" ++ source_key)%string).
Proof.
  unfold Mover.dest_key_of. split; intros Hdp Hsp.
  - subst dest_prefix. simpl.
    destruct Hsp as [Hsp | ->]; [rewrite Hsp, andb_false_r|]; reflexivity.
  - destruct dest_prefix; [congruence|].
    destruct Hsp as [Hsp | ->]; [rewrite Hsp, andb_false_r|]; reflexivity.
Qed.

Lemma dest_key_without_prefix_witness :
  Mover.dest_key_of "in/" "" "other/a.csv" = "other/a.csv"
  /\ Mover.dest_key_of "" "out/" "a.csv" = "out/a.csv".
Proof.
  destruct (@dest_key_without_prefix "in/" "" "other/a.csv") as [H1 _].
  destruct (@dest_key_without_prefix "" "out/" "a.csv") as [_ H2].
  split.
  - apply H1; [reflexivity|left; reflexivity].
  - apply H2; [discriminate|right; reflexivity].
Defined.

(** ** What the listing strategies return *)

Section ScanFacts.
Variable keep : obj -> bool.
Variable max_files : Z.
Hypothesis max_files_pos : 1 <= max_files.





End ScanFacts.





Section StrategyResults.
Context {W : Type} {S3 : S3Client W}.
Variable keep : string -> bool.



(** The loop of the manual pagination asks for 1 to 1000 keys at a time
    and collects kept objects only. *)
Lemma pagination_loop_limits fuel b p max_files : forall files token,
  adds_only asks_within_limits (Lister.pagination_loop keep fuel b p max_files files token)
  /\ (Forall (fun o => keep (Key o) = true) files ->
      forall (s : state W) result s',
        Lister.pagination_loop keep fuel b p max_files files token s = Ret result s' ->
        Forall (fun o => keep (Key o) = true) result).
Proof.
  induction fuel as [|fuel IH]; intros files token; simpl.
  - split; [intros s; exact I|]. intros _ s result s' H. discriminate.
  - destruct (Py.len files <? max_files) eqn:Hmore.
    2:{ split; [apply adds_only_ret|]. intros Hfiles s result s' H.
        injection H as <- _. exact Hfiles. }
    apply Z.ltb_lt in Hmore. split.
    + apply adds_only_bind.
      * apply adds_only_call. intros ok. unfold asks_within_limits. simpl. lia.
      * intros response. destruct (RContents response); [|apply adds_only_ret].
        destruct (negb _); [apply adds_only_ret|].
        apply adds_only_bind; [apply adds_only_emit; exact I|].
        intros _. apply IH.
    + intros Hfiles s result s'. unfold bind at 1.
      destruct (call _ _ s) as [response s1|e s1|]; [|discriminate|discriminate].
      destruct (RContents response) as [objs|].
      2:{ intros H. injection H as <- _. exact Hfiles. }
      assert (Hnew : Forall (fun o => keep (Key o) = true)
                       (files ++ filter (fun o => keep (Key o)) objs)).
      { apply Forall_app. split; [exact Hfiles|].
        apply Forall_forall. intros o Ho. apply filter_In in Ho. tauto. }
      destruct (negb _).
      * intros H. injection H as <- _. exact Hnew.
      * unfold bind, sleep, emit. apply IH. exact Hnew.
Qed.

(** X7. The manual pagination asks for between 1 and 1000 keys at every
    call, returns kept objects only, and for [max_files <= 0] returns the
    empty list without any call. *)
Theorem list_with_pagination_limits fuel b p max_files :
  adds_only asks_within_limits (Lister.list_with_pagination keep fuel b p max_files)
  /\ (forall (s : state W) files s',
        Lister.list_with_pagination keep fuel b p max_files s = Ret files s' ->
        Forall (fun o => keep (Key o) = true) files)
  /\ (max_files <= 0 ->
      forall s : state W,
        Lister.list_with_pagination keep (S fuel) b p max_files s = Ret [] s).
Proof.
  unfold Lister.list_with_pagination. split; [|split].
  - apply pagination_loop_limits.
  - apply pagination_loop_limits. constructor.
  - intros Hm s. simpl.
    destruct (Py.len [] <? max_files) eqn:H; [|reflexivity].
    apply Z.ltb_lt in H. unfold Py.len in H. simpl in H. lia.
Qed.

End StrategyResults.



Lemma list_with_pagination_limits_witness :
  0 <= 0
  /\ @Mover.list_files_with_pagination _ Mock.mem_client 1 "test-source-bucket" "" 0
       (Mock.start Mock.test_store) = Ret [] (Mock.start Mock.test_store)
  /\ exists files s',
       @Mover.list_files_with_pagination _ Mock.mem_client 3 "notes-bucket" "" 10
         (Mock.start Mock.notes_store) = Ret files s'
       /\ Forall (fun o => Mover.keep_file (Key o) = true) files
       /\ Forall asks_within_limits (trace s').
Proof.
  split; [lia|].
  destruct (@list_with_pagination_limits _ Mock.mem_client Mover.keep_file 0
              "test-source-bucket" "" 0) as (_ & _ & Hzero).
  split; [apply Hzero; lia|].
  destruct (@list_with_pagination_limits _ Mock.mem_client Mover.keep_file 3
              "notes-bucket" "" 10) as (Hasks & Hkept & _).
  specialize (Hasks (Mock.start Mock.notes_store)).
  unfold Mover.list_files_with_pagination.
  destruct (Lister.list_with_pagination Mover.keep_file 3 "notes-bucket" "" 10
              (Mock.start Mock.notes_store)) as [files s'| |] eqn:Hrun.
  - exists files, s'. split; [reflexivity|]. split; [eapply Hkept; exact Hrun|].
    destruct Hasks as (added & Htr & Hall). rewrite Htr. exact Hall.
  - vm_compute in Hrun. discriminate.
  - vm_compute in Hrun. discriminate.
Defined.

(** ** The first attempt of the resilient listing *)

Section FirstAttempt.
Context {W : Type}.
Variables std pag tr : M W (list obj).

(** X8. The first attempt ends the listing in three cases, each without
    a pause and without a second attempt, in the state the last strategy
    run left: the standard listing finds objects (they are returned, no
    other strategy is run); it finds none and the manual pagination finds
    some (they are returned); it finds none and the manual pagination
    meets a permanent error (it is raised). *)
Theorem first_attempt_ends_listing max_retries (s s1 : state W) :
  0 < max_retries ->
  let s0 := mkState (world s) (trace s ++ [EvAttempt 1]) in
  (forall files, files <> [] -> std s0 = Ret files s1 ->
     Lister.with_retry std pag tr max_retries s = Ret files s1)
  /\ (forall files s2, files <> [] -> std s0 = Ret [] s1 -> pag s1 = Ret files s2 ->
        Lister.with_retry std pag tr max_retries s = Ret files s2)
  /\ (forall e s2, permanent e = true -> std s0 = Ret [] s1 -> pag s1 = Raise e s2 ->
        Lister.with_retry std pag tr max_retries s = Raise e s2).
Proof.
  intros Hpos. cbv zeta. unfold Lister.with_retry.
  destruct (Z.to_nat max_retries) as [|todo] eqn:Htodo; [lia|].
  simpl Lister.retry_from. unfold try_catch, Lister.attempt_body.
  split; [|split].
  - intros files Hne Hstd.
    unfold bind at 1. unfold bind at 1, emit at 1. change (0 + 1) with 1.
    unfold bind at 1. cbv beta. rewrite Hstd.
    destruct files; [congruence|]. reflexivity.
  - intros files s2 Hne Hstd Hpag.
    unfold bind at 1. unfold bind at 1, emit at 1. change (0 + 1) with 1.
    unfold bind at 1. cbv beta. rewrite Hstd.
    change (Lister.nonempty (@nil obj)) with false. cbv iota.
    change (0 =? 0) with true. cbv iota.
    unfold bind at 1. unfold bind at 1. cbv beta. rewrite Hpag.
    destruct files; [congruence|]. reflexivity.
  - intros e s2 Hperm Hstd Hpag.
    unfold bind at 1. unfold bind at 1, emit at 1. change (0 + 1) with 1.
    unfold bind at 1. cbv beta. rewrite Hstd.
    change (Lister.nonempty (@nil obj)) with false. cbv iota.
    change (0 =? 0) with true. cbv iota.
    unfold bind at 1. unfold bind at 1. cbv beta. rewrite Hpag.
    unfold Lister.attempt_handler. destruct e as [code|what]; [|discriminate].
    change (permanent (ClientError code))
      with (code_in code ["NoSuchBucket"; "AccessDenied"]) in Hperm.
    rewrite Hperm. reflexivity.
Qed.

End FirstAttempt.

(** The three test objects are found by the first standard listing; an
    empty standard listing followed by a refused single-page listing
    raises at once. *)
Lemma first_attempt_ends_listing_witness :
  (exists files s',
     @Merge.get_csv_files_with_retry _ Mock.mem_client 5 "test-source-bucket" "" 10 3
       (Mock.start Mock.test_store) = Ret files s'
     /\ map Key files = ["test1.csv"; "test2.csv"; "test3.csv"]
     /\ trace s' = [EvAttempt 1; EvPaginate "test-source-bucket" "" 10 1000])
  /\ (let client := Mock.scripted (Ok tt) (Ok tt) PagesEnd (Err (ClientError "AccessDenied")) in
      exists s',
        @Mover.get_files_with_retry _ client 5 "bucket" "" 10 3 (Mock.start tt)
        = Raise (ClientError "AccessDenied") s'
        /\ trace s' = [EvAttempt 1; EvPaginate "bucket" "" 10 1000;
                       EvListObjectsV2 "bucket" "" 10 None false]).
Proof.
  split.
  - pose (s1 := mkState Mock.test_store
                  [EvAttempt 1; EvPaginate "test-source-bucket" "" 10 1000]).
    destruct (@first_attempt_ends_listing _
                (@Merge.list_csv_files_standard _ Mock.mem_client "test-source-bucket" "" 10)
                (@Merge.list_csv_files_with_pagination _ Mock.mem_client 5
                   "test-source-bucket" "" 10)
                (@Merge.list_csv_files_by_time_range _ Mock.mem_client
                   "test-source-bucket" "" 10)
                3 (Mock.start Mock.test_store) s1 ltac:(lia)) as (Hfound & _ & _).
    eexists _, s1. split; [apply Hfound; [|vm_compute; reflexivity]; discriminate|].
    split; reflexivity.
  - intros client.
    pose (s1 := mkState tt [EvAttempt 1; EvPaginate "bucket" "" 10 1000]).
    destruct (@first_attempt_ends_listing _
                (@Mover.list_files_standard _ client "bucket" "" 10)
                (@Mover.list_files_with_pagination _ client 5 "bucket" "" 10)
                (@Mover.list_files_by_time_range _ client "bucket" "" 10)
                3 (Mock.start tt) s1 ltac:(lia)) as (_ & _ & Hraise).
    eexists. split.
    + apply (Hraise (ClientError "AccessDenied")); [reflexivity| |];
        vm_compute; reflexivity.
    + reflexivity.
Defined.

(** ** The handlers *)

Section Handlers.
Context {W : Type} {S3 : S3Client W}.


Lemma get_files_adds_only fuel b p m max_retries :
  adds_only is_retry_event (Mover.get_files_with_retry fuel b p m max_retries).
Proof.
  unfold Mover.get_files_with_retry. apply with_retry_adds_only.
  - apply list_standard_listing.
  - apply list_with_pagination_listing.
  - apply list_by_time_range_listing.
Qed.

(** X10. With both buckets, what the mover's handler answers follows the
    listing and the moves. When the listing returns nothing it answers 200
    with "Nenhum arquivo encontrado" and issues no copy and no delete.
    When it returns files and the batch size is positive, it answers 200
    with the two counters of the moves, which add up to the number of
    files listed. When it returns files and the batch size is zero, it
    answers 500. *)
Theorem mover_handler_answers fuel event env (s s1 : state W) files :
  let source_bucket := Py.or_else (MoverLambda.source_bucket event) (Merge.SOURCE_BUCKET env) in
  let dest_bucket := Py.or_else (MoverLambda.dest_bucket event) (Merge.DEST_BUCKET env) in
  let source_prefix :=
    Merge.str_or_empty (Py.or_else (MoverLambda.source_prefix event)
                          (Merge.SOURCE_PREFIX env)) in
  let max_files := Merge.default 1000 (MoverLambda.max_files_per_execution event) in
  let batch_size := Merge.default 100 (MoverLambda.batch_size event) in
  Py.truthy_opt source_bucket = true ->
  Py.truthy_opt dest_bucket = true ->
  Mover.get_files_with_retry fuel (Merge.str_or_empty source_bucket) source_prefix
    max_files 3 s = Ret files s1 ->
  (files = [] ->
   MoverLambda.lambda_handler fuel event env s
   = Ret (MoverLambda.mkResponse 200
            (MoverLambda.BodyNoFiles "Nenhum arquivo encontrado" 0
               (Merge.str_or_empty source_bucket) (Merge.str_or_empty dest_bucket))) s1
   /\ exists added, trace s1 = trace s ++ added
                    /\ none_of is_copy added /\ none_of is_delete added)
  /\ (files <> [] -> 0 < batch_size ->
      exists processed errors s',
        MoverLambda.lambda_handler fuel event env s
        = Ret (MoverLambda.mkResponse 200
                 (MoverLambda.BodyDone "Processamento concluído" processed errors
                    (Merge.str_or_empty source_bucket) (Merge.str_or_empty dest_bucket))) s'
        /\ processed + errors = Py.len files)
  /\ (files <> [] -> batch_size = 0 ->
      exists message,
        MoverLambda.lambda_handler fuel event env s
        = Ret (MoverLambda.mkResponse 500
                 (MoverLambda.BodyError message "Erro na execução da Lambda")) s1).
Proof.
  intros source_bucket dest_bucket source_prefix max_files batch_size Hsrc Hdst Hlist.
  assert (Hrun : MoverLambda.lambda_handler fuel event env s
                 = match (if negb (Lister.nonempty files) then
                            ret (MoverLambda.mkResponse 200
                                   (MoverLambda.BodyNoFiles "Nenhum arquivo encontrado" 0
                                      (Merge.str_or_empty source_bucket)
                                      (Merge.str_or_empty dest_bucket)))
                          else
                            results <- Mover.process_files_in_batches files
                                         (Merge.str_or_empty source_bucket)
                                         (Merge.str_or_empty dest_bucket) source_prefix
                                         (Merge.str_or_empty
                                            (Py.or_else (MoverLambda.dest_prefix event)
                                               (Merge.DEST_PREFIX env)))
                                         batch_size ;;
                            ret (MoverLambda.mkResponse 200
                                   (MoverLambda.BodyDone "Processamento concluído"
                                      (Mover.success_count results)
                                      (Mover.error_count results)
                                      (Merge.str_or_empty source_bucket)
                                      (Merge.str_or_empty dest_bucket))))%m s1 with
                   | Ret a s' => Ret a s'
                   | Raise e s' =>
                       Ret (MoverLambda.mkResponse 500
                              (MoverLambda.BodyError (Merge.str_of_exn e)
                                 "Erro na execução da Lambda")) s'
                   | OutOfFuel => OutOfFuel
                   end).
  { unfold MoverLambda.lambda_handler, try_catch.
    fold source_bucket dest_bucket. rewrite Hsrc, Hdst. cbn [negb orb].
    unfold bind at 1. fold source_prefix max_files. rewrite Hlist. reflexivity. }
  split; [|split].
  - intros ->. rewrite Hrun. split; [reflexivity|].
    pose proof (@get_files_adds_only fuel (Merge.str_or_empty source_bucket)
                  source_prefix max_files 3 s) as Hq.
    rewrite Hlist in Hq. destruct Hq as (added & Htr & Hev).
    exists added. split; [exact Htr|].
    split; unfold none_of; (eapply Forall_impl; [|exact Hev]);
      intros [] Hq; simpl in *; tauto.
  - intros Hne Hpos. rewrite Hrun.
    destruct files as [|f rest]; [congruence|]. cbn [Lister.nonempty negb].
    unfold bind, Mover.process_files_in_batches, Py.range0.
    destruct (batch_size =? 0) eqn:H0; [lia|].
    destruct (batch_size <? 0) eqn:Hneg; [lia|].
    match goal with |- context [Mover.process_starts ?starts ?fs ?sb ?db ?sp ?dp ?bs 0 0 s1] =>
      destruct (process_starts_counts fs sb db sp dp bs starts 0 0 s1)
        as (r & s' & Hproc & Hsum)
    end.
    rewrite Hproc. exists (Mover.success_count r), (Mover.error_count r), s'.
    split; [reflexivity|].
    rewrite Hsum, (@concat_range_up _ (f :: rest) batch_size Hpos
                     (Z.to_nat (Py.len (f :: rest))) 0) by lia.
    reflexivity.
  - intros Hne Hzero. rewrite Hrun.
    destruct files as [|f rest]; [congruence|]. cbn [Lister.nonempty negb].
    unfold bind, Mover.process_files_in_batches, Py.range0. rewrite Hzero. simpl.
    eexists. reflexivity.
Qed.

End Handlers.


(** The three objects of the test bucket, moved in batches of two. *)
Lemma mover_handler_answers_witness :
  let event := MoverLambda.mkRequest (Some "test-source-bucket") (Some "dst") None
                 (Some "moved") None (Some 2) in
  exists processed errors s',
    @MoverLambda.lambda_handler _ Mock.mem_client 5 event Mock.no_environ
      (Mock.start Mock.test_store)
    = Ret (MoverLambda.mkResponse 200
             (MoverLambda.BodyDone "Processamento concluído" processed errors
                "test-source-bucket" "dst")) s'
    /\ processed + errors = 3.
Proof.
  intros event.
  assert (Hlist : exists s1,
            @Mover.get_files_with_retry _ Mock.mem_client 5 "test-source-bucket" "" 1000 3
              (Mock.start Mock.test_store) = Ret Mock.test_files s1).
  { vm_compute. eexists. reflexivity. }
  destruct Hlist as (s1 & Hlist).
  destruct (@mover_handler_answers _ Mock.mem_client 5 event Mock.no_environ
              (Mock.start Mock.test_store) s1 Mock.test_files
              eq_refl eq_refl Hlist) as (_ & Hdone & _).
  apply Hdone.
  - discriminate.
  - reflexivity.
Defined.

(** ** Reading one CSV object *)

Section ReadCsv.
Context {W : Type} {S3 : S3Client W}.



(** X12. An object the store refuses with [NoSuchKey], [NoSuchBucket] or
    [AccessDenied] is given up after one get, without a pause. *)
Theorem read_csv_permanent_error bucket key max_retries code (s : state W) :
  0 < max_retries ->
  code_in code ["NoSuchKey"; "NoSuchBucket"; "AccessDenied"] = true ->
  fst (get_object bucket key (world s)) = Err (ClientError code) ->
  exists s',
    Merge.read_csv_from_s3 bucket key max_retries s = Ret None s'
    /\ trace s' = trace s ++ [EvGet bucket key false].
Proof.
  intros Hpos Hcode Hget. unfold Merge.read_csv_from_s3.
  destruct (Z.to_nat max_retries) as [|todo] eqn:Htodo; [lia|].
  simpl. unfold bind at 1, Merge.read_attempt, try_catch, bind, call.
  destruct (get_object bucket key (world s)) as [[content|e] w1]; simpl in Hget;
    [discriminate|].
  injection Hget as ->. rewrite Hcode. eexists. split; reflexivity.
Qed.

End ReadCsv.

(** An object that is not in the store. *)
Lemma read_csv_permanent_error_witness :
  0 < 2
  /\ fst (@get_object _ Mock.mem_client "test-source-bucket" "gone.csv" Mock.test_store)
     = Err (ClientError "NoSuchKey")
  /\ exists s',
       @Merge.read_csv_from_s3 _ Mock.mem_client "test-source-bucket" "gone.csv" 2
         (Mock.start Mock.test_store) = Ret None s'
       /\ trace s' = [EvGet "test-source-bucket" "gone.csv" false].
Proof.
  split; [lia|]. split; [reflexivity|].
  apply (@read_csv_permanent_error _ Mock.mem_client "test-source-bucket" "gone.csv" 2
           "NoSuchKey" (Mock.start Mock.test_store)).
  - lia.
  - reflexivity.
  - reflexivity.
Defined.

(** ** What the merge writes *)










Section MergeOutput.
Context {W : Type} {S3 : S3Client W}.





Lemma total_fresh f (batches : list (list obj)) :
  Merge.total f (map (fun batch => Merge.mkWorker batch [] 0) batches)
  = fold_right (fun batch acc => f (Merge.mkWorker batch [] 0) + acc) 0 batches.
Proof. induction batches as [|batch rest IH]; simpl; [reflexivity|rewrite IH; reflexivity]. Qed.





End MergeOutput.


Section MergeHandler.
Context {W : Type} {S3 : S3Client W}.


End MergeHandler.


(** ** The counters of the aggregator *)

Section AggregatorCounters.
Context {B : Aggregator.Builtins}.

(** How far the body of the [try] moves the locals of the loop; an
    exception comes before the error entry is made. *)
Lemma classify_step result a o a' :
  Aggregator.classify result a = (o, a') ->
  0 <= Aggregator.successful_batches a' - Aggregator.successful_batches a <= 1
  /\ 0 <= Py.len (Aggregator.errors a') - Py.len (Aggregator.errors a) <= 1
  /\ Py.len (Aggregator.errors a') - Py.len (Aggregator.errors a)
     <= Aggregator.failed_batches a' - Aggregator.failed_batches a <= 1
  /\ 0 <= Py.len (Aggregator.execution_times a') - Py.len (Aggregator.execution_times a)
     <= Aggregator.successful_batches a' - Aggregator.successful_batches a
  /\ 0 <= Py.len (Aggregator.output_files a') - Py.len (Aggregator.output_files a)
     <= Py.len (Aggregator.execution_times a') - Py.len (Aggregator.execution_times a)
  /\ (forall e, o = Err e -> Aggregator.errors a' = Aggregator.errors a).
Proof.
  intros H.
  cbv beta iota zeta delta
    [Aggregator.classify Aggregator.sbind Aggregator.lift
     Aggregator.sret Aggregator.add_failed Aggregator.add_successful
     Aggregator.append_error Aggregator.add_files Aggregator.add_rows
     Aggregator.append_time Aggregator.append_output Aggregator.update] in H.
  repeat (match type of H with
          | context [match ?x with Ok _ => _ | Err _ => _ end] =>
              lazymatch x with
              | context [match _ with _ => _ end] => fail
              | context [if _ then _ else _] => fail
              | _ => destruct x
              end
          | context [if ?b then _ else _] =>
              lazymatch b with
              | context [match _ with _ => _ end] => fail
              | context [if _ then _ else _] => fail
              | _ => destruct b
              end
          end; cbv beta iota in H);
    injection H as <- <-;
    cbv beta iota delta
      [Aggregator.successful_batches Aggregator.failed_batches Aggregator.errors
       Aggregator.execution_times Aggregator.output_files];
    unfold Py.len; rewrite ?length_app; cbn [List.length];
    (repeat split; try lia; try discriminate; try reflexivity).
Qed.

(** How far one result moves the locals of the loop. *)
Lemma aggregate_one_step result a :
  let a' := Aggregator.aggregate_one result a in
  0 <= Aggregator.successful_batches a' - Aggregator.successful_batches a <= 1
  /\ 0 <= Py.len (Aggregator.errors a') - Py.len (Aggregator.errors a) <= 1
  /\ Py.len (Aggregator.errors a') - Py.len (Aggregator.errors a)
     <= Aggregator.failed_batches a' - Aggregator.failed_batches a <= 2
  /\ 0 <= Py.len (Aggregator.execution_times a') - Py.len (Aggregator.execution_times a)
     <= Aggregator.successful_batches a' - Aggregator.successful_batches a
  /\ 0 <= Py.len (Aggregator.output_files a') - Py.len (Aggregator.output_files a)
     <= Py.len (Aggregator.execution_times a') - Py.len (Aggregator.execution_times a).
Proof.
  intros a'. subst a'. unfold Aggregator.aggregate_one.
  destruct (Aggregator.classify result a) as [o a1] eqn:Hc.
  destruct (classify_step _ _ Hc) as (Hs & He & Hf & Ht & Ho & Herr).
  destruct o as [u|e]; cbv beta iota; [lia|].
  specialize (Herr e eq_refl).
  unfold Aggregator.sbind, Aggregator.add_failed, Aggregator.append_error,
    Aggregator.update.
  cbn [snd Aggregator.successful_batches Aggregator.failed_batches Aggregator.errors
       Aggregator.execution_times Aggregator.output_files].
  rewrite Herr in *. unfold Py.len in *. rewrite length_app. cbn [List.length]. lia.
Qed.

Lemma aggregate_from_bounds results : forall a,
  let a' := fold_left (fun a result => Aggregator.aggregate_one result a) results a in
  0 <= Aggregator.successful_batches a' - Aggregator.successful_batches a <= Py.len results
  /\ 0 <= Py.len (Aggregator.errors a') - Py.len (Aggregator.errors a) <= Py.len results
  /\ Py.len (Aggregator.errors a') - Py.len (Aggregator.errors a)
     <= Aggregator.failed_batches a' - Aggregator.failed_batches a <= 2 * Py.len results
  /\ 0 <= Py.len (Aggregator.execution_times a') - Py.len (Aggregator.execution_times a)
     <= Aggregator.successful_batches a' - Aggregator.successful_batches a
  /\ 0 <= Py.len (Aggregator.output_files a') - Py.len (Aggregator.output_files a)
     <= Py.len (Aggregator.execution_times a') - Py.len (Aggregator.execution_times a).
Proof.
  induction results as [|result results IH]; intros a; cbv zeta; cbn [fold_left].
  - change (Py.len (@nil Aggregator.pyval)) with 0. lia.
  - pose proof (aggregate_one_step result a) as Hone. cbv zeta in Hone.
    specialize (IH (Aggregator.aggregate_one result a)). cbv zeta in IH.
    change (Py.len (result :: results)) with (Z.of_nat (S (List.length results))).
    rewrite Nat2Z.inj_succ. fold (Py.len results). lia.
Qed.

(** A result that is the string "error" is counted as failed twice: once
    in its branch, once more when [result['error']] raises. *)
Lemma aggregate_one_error_string a :
  let a' := Aggregator.aggregate_one (Aggregator.PStr "error") a in
  Aggregator.failed_batches a' = Aggregator.failed_batches a + 2
  /\ Aggregator.successful_batches a' = Aggregator.successful_batches a
  /\ Py.len (Aggregator.errors a') = Py.len (Aggregator.errors a) + 1.
Proof.
  unfold Aggregator.aggregate_one, Aggregator.classify, Aggregator.sbind, Aggregator.lift,
    Aggregator.sret, Aggregator.add_failed, Aggregator.append_error, Aggregator.update.
  cbn. unfold Py.len. rewrite length_app. cbn [List.length]. lia.
Qed.

Lemma aggregate_error_strings n : forall a,
  let a' := fold_left (fun a result => Aggregator.aggregate_one result a)
              (repeat (Aggregator.PStr "error") n) a in
  Aggregator.failed_batches a' = Aggregator.failed_batches a + 2 * Z.of_nat n
  /\ Aggregator.successful_batches a' = Aggregator.successful_batches a
  /\ Py.len (Aggregator.errors a') = Py.len (Aggregator.errors a) + Z.of_nat n.
Proof.
  induction n as [|n IH]; intros a; cbn [repeat fold_left].
  - cbv zeta. lia.
  - pose proof (aggregate_one_error_string a) as Hone. cbv zeta in Hone.
    specialize (IH (Aggregator.aggregate_one (Aggregator.PStr "error") a)).
    cbv zeta in IH. cbv zeta. lia.
Qed.

(** X15. The counters of the aggregation, whatever the results are and
    whatever the builtins do with them. A result is counted as successful
    once at most, and adds an execution time and an output file only when
    it is. It leaves one error entry at most, but may be counted as failed
    twice, so [failed_batches] lies between the number of error entries
    and twice the number of results: [n] results that are the string
    "error" give [failed_batches = 2 n] with [n] error entries. *)
Theorem aggregate_counter_bounds :
  (forall results,
     let a := Aggregator.aggregate results in
     0 <= Aggregator.successful_batches a <= Py.len results
     /\ Py.len (Aggregator.errors a) <= Py.len results
     /\ Py.len (Aggregator.errors a) <= Aggregator.failed_batches a <= 2 * Py.len results
     /\ Py.len (Aggregator.execution_times a) <= Aggregator.successful_batches a
     /\ Py.len (Aggregator.output_files a) <= Py.len (Aggregator.execution_times a))
  /\ (forall n,
        let a := Aggregator.aggregate (repeat (Aggregator.PStr "error") n) in
        Aggregator.failed_batches a = 2 * Z.of_nat n
        /\ Aggregator.successful_batches a = 0
        /\ Py.len (Aggregator.errors a) = Z.of_nat n).
Proof.
  split.
  - intros results a.
    pose proof (aggregate_from_bounds results
                  (Aggregator.mkAcc (Aggregator.PInt 0) (Aggregator.PInt 0) 0 0 [] [] []))
      as H.
    cbv zeta in H. fold (Aggregator.aggregate results) in H. fold a in H.
    cbn [Aggregator.successful_batches Aggregator.failed_batches Aggregator.errors
         Aggregator.execution_times Aggregator.output_files] in H.
    change (Py.len (@nil Aggregator.pyval)) with 0 in H. lia.
  - intros n a.
    pose proof (aggregate_error_strings n
                  (Aggregator.mkAcc (Aggregator.PInt 0) (Aggregator.PInt 0) 0 0 [] [] []))
      as H.
    cbv zeta in H. fold (Aggregator.aggregate (repeat (Aggregator.PStr "error") n)) in H.
    fold a in H.
    cbn [Aggregator.successful_batches Aggregator.failed_batches Aggregator.errors] in H.
    change (Py.len (@nil Aggregator.pyval)) with 0 in H. lia.
Qed.

Section WithClient.
Context {W : Type} {S3 : S3Client W}.

(** X16. The aggregator's handler always answers, and calls the store
    once at most. A 500 answer has called it not at all. A 200 answer has
    put, under the key of the location it answers, the serialised report
    it answers with, whether the put succeeded or not; it has put nothing
    if the report could not be serialised. *)
Theorem aggregator_saves_what_it_answers event (s : state W) :
  exists resp s' added,
    Aggregator.lambda_handler event s = Ret resp s'
    /\ trace s' = trace s ++ added
    /\ match resp with
       | Aggregator.Resp500 _ _ => added = []
       | Aggregator.Resp200 r loc =>
           exists key,
             loc = ("s3://" ++ Merge.str_or_empty (Aggregator.dest_bucket event)
                    ++ "/" ++ key)%string
             /\ match Aggregator.json_dumps (Aggregator.report_value r) with
                | Ok body =>
                    exists ok,
                      added = [EvPut (Merge.str_or_empty (Aggregator.dest_bucket event))
                                 key body "application/json" ok]
                | Err _ => added = []
                end
       end.
Proof.
  remember (Aggregator.lambda_handler event s) as res eqn:Hres.
  unfold Aggregator.lambda_handler, try_catch in Hres.
  destruct (Py.truthy_opt (Aggregator.dest_bucket event)); cbn [negb] in Hres;
    cbv beta iota in Hres.
  2:{ exists (Aggregator.Resp500 "dest_bucket é obrigatório"
                "Erro na agregação de resultados"), s, [].
      rewrite app_nil_r. split; [exact Hres|]. split; reflexivity. }
  destruct (Aggregator.average_time _) as [avg|e].
  2:{ eexists (Aggregator.Resp500 _ _), s, []. rewrite app_nil_r.
      split; [exact Hres|]. split; reflexivity. }
  unfold bind at 1, Lister.datetime_now in Hres.
  destruct (now (world s)) as [t w1]. cbv beta iota in Hres.
  destruct (Aggregator.summarize t _ _ avg) as [r|e].
  2:{ eexists (Aggregator.Resp500 _ _), _, []. rewrite app_nil_r.
      split; [exact Hres|]. split; reflexivity. }
  unfold bind at 1 in Hres. simpl world in Hres. destruct (now w1) as [t' w2].
  simpl trace in Hres. cbv beta iota in Hres.
  unfold bind at 1 in Hres.
  destruct (Aggregator.json_dumps (Aggregator.report_value r)) as [body|e] eqn:Hdumps.
  - unfold call in Hres. simpl world in Hres.
    destruct (put_object _ _ _ _ _) as [[[]|e] w3]; cbn in Hres;
      eexists (Aggregator.Resp200 r _), _, [_];
      (split; [exact Hres|]); (split; [reflexivity|]);
      eexists; (split; [reflexivity|]); rewrite Hdumps; eexists; reflexivity.
  - cbn in Hres. eexists (Aggregator.Resp200 r _), _, []. rewrite app_nil_r.
    split; [exact Hres|]. split; [reflexivity|].
    eexists. split; [reflexivity|]. rewrite Hdumps. reflexivity.
Qed.

End WithClient.

End AggregatorCounters.

(** ** The plan as a tiling, and the inputs at its edges *)

Section PlanTiling.
Variables source_bucket source_prefix : string.
Variables total_files files_per_batch : Z.
Hypothesis total_range : 0 <= total_files < 2 ^ 53.
Hypothesis batch_range : 0 < files_per_batch < 2 ^ 53.

(** X17. For a number of files and a batch size below 2^53 the
    descriptors of the plan tile the indices [0, total_files): none is
    empty or longer than the batch size, each starts where the one before
    ends, the first starts at 0 and the last ends at [total_files]; there
    is none when there is no file. *)
Theorem plan_tiles_the_files :
  exists batches,
    Planner.plan source_bucket source_prefix total_files files_per_batch = Ok batches
    /\ (total_files = 0 -> batches = [])
    /\ (forall i d, nth_error batches i = Some d ->
          Planner.batch_start_index d < Planner.batch_end_index d
          <= Planner.batch_start_index d + files_per_batch)
    /\ (forall d, nth_error batches 0 = Some d -> Planner.batch_start_index d = 0)
    /\ (forall i d d', nth_error batches i = Some d -> nth_error batches (S i) = Some d' ->
          Planner.batch_start_index d' = Planner.batch_end_index d)
    /\ (forall d, nth_error batches (List.length batches - 1) = Some d ->
          Planner.batch_end_index d = total_files).
Proof.
  destruct (ceil_true_divide_exact total_range batch_range) as (x & Hdiv & Hceil).
  assert (Hplan : Planner.plan source_bucket source_prefix total_files files_per_batch
                  = Ok (map (Planner.make_batch source_bucket source_prefix
                               total_files files_per_batch)
                            (Planner.range (Float.ceil x)))).
  { unfold Planner.plan. rewrite Hdiv. reflexivity. }
  set (batches := map _ _) in Hplan.
  assert (Hlen : Z.of_nat (List.length batches)
                 = Z.max 0 (Partitioner.ceil_div total_files files_per_batch)).
  { unfold batches, Planner.range. rewrite !length_map, length_seq, Hceil. lia. }
  assert (Hnth : forall i d, nth_error batches i = Some d ->
            (i < List.length batches)%nat
            /\ Planner.batch_start_index d = Z.of_nat i * files_per_batch
            /\ Planner.batch_end_index d
               = Z.min (Z.of_nat i * files_per_batch + files_per_batch) total_files).
  { intros i d Hd.
    assert (Hi : (i < List.length batches)%nat).
    { apply nth_error_Some. congruence. }
    rewrite (plan_descriptors _ _ _ _ Hplan Hi) in Hd. injection Hd as <-.
    split; [exact Hi|]. split; reflexivity. }
  assert (Hbounds : 0 < total_files ->
            files_per_batch * (Partitioner.ceil_div total_files files_per_batch - 1)
            < total_files
            <= files_per_batch * Partitioner.ceil_div total_files files_per_batch).
  { intros Hpos. apply ceil_div_bounds; lia. }
  assert (Hzero : total_files = 0 -> batches = []).
  { intros H0. apply length_zero_iff_nil.
    assert (Partitioner.ceil_div total_files files_per_batch <= 0).
    { apply ceil_div_nonpos; lia. }
    lia. }
  exists batches. split; [exact Hplan|]. split; [exact Hzero|].
  assert (Hpos : forall i, (i < List.length batches)%nat -> 0 < total_files).
  { intros i Hi. destruct (Z.eq_dec total_files 0) as [H0|H0]; [|lia].
    rewrite (Hzero H0) in Hi. simpl in Hi. lia. }
  split; [|split; [|split]].
  - intros i d Hd. destruct (Hnth i d Hd) as (Hi & -> & ->).
    specialize (Hbounds (Hpos i Hi)). nia.
  - intros d Hd. destruct (Hnth 0%nat d Hd) as (_ & -> & _). lia.
  - intros i d d' Hd Hd'.
    destruct (Hnth i d Hd) as (_ & _ & ->).
    destruct (Hnth (S i) d' Hd') as (Hi & -> & _).
    specialize (Hbounds (Hpos (S i) Hi)). nia.
  - intros d Hd. destruct (Hnth _ d Hd) as (Hi & _ & ->).
    specialize (Hbounds (Hpos _ Hi)). nia.
Qed.

End PlanTiling.

(** 2500 files in batches of 1000. *)
Lemma plan_tiles_the_files_witness :
  0 <= 2500 < 2 ^ 53 /\ 0 < 1000 < 2 ^ 53
  /\ exists batches,
       Planner.plan "bucket" "in/" 2500 1000 = Ok batches
       /\ (forall d, nth_error batches 0 = Some d -> Planner.batch_start_index d = 0)
       /\ (forall d, nth_error batches (List.length batches - 1) = Some d ->
             Planner.batch_end_index d = 2500).
Proof.
  assert (Ht : 0 <= 2500 < 2 ^ 53) by (split; [lia|reflexivity]).
  assert (Hb : 0 < 1000 < 2 ^ 53) by (split; reflexivity).
  split; [exact Ht|]. split; [exact Hb|].
  destruct (@plan_tiles_the_files "bucket" "in/" 2500 1000 Ht Hb)
    as (batches & Hplan & _ & _ & Hfirst & _ & Hlast).
  exists batches. split; [exact Hplan|]. split; [exact Hfirst|exact Hlast].
Defined.

Lemma round_half_even_nonneg n d : 0 <= n -> 0 < d -> 0 <= Float.round_half_even n d.
Proof.
  intros Hn Hd. unfold Float.round_half_even.
  pose proof (Z.div_pos n d Hn Hd).
  destruct (2 * (n mod d) <? d); [lia|].
  destruct (d <? 2 * (n mod d)); [lia|].
  destruct (Z.even (n / d)); lia.
Qed.

(** The mantissa of a quotient of non-negative integers is not negative. *)
Lemma true_divide_pos_nonneg a b m e :
  0 <= a -> 0 < b -> Float.true_divide_pos a b = Ok (m, e) -> 0 <= m.
Proof.
  intros Ha Hb. unfold Float.true_divide_pos.
  destruct (a =? 0); [intros H; injection H as <- <-; lia|].
  set (e0 := Z.max (Float.floor_log2_ratio a b - 52) (-1074)).
  destruct (0 <=? e0) eqn:He0.
  - destruct (andb _ _); [discriminate|]. intros H. injection H as <- <-.
    apply round_half_even_nonneg; [lia|].
    apply Z.leb_le in He0. apply Z.mul_pos_pos; [lia|]. apply Z.pow_pos_nonneg; lia.
  - cbn [andb]. intros H. injection H as <- <-.
    apply round_half_even_nonneg; [|lia].
    apply Z.mul_nonneg_nonneg; [lia|]. apply Z.pow_nonneg. lia.
Qed.

(** [math.ceil] of a quotient that is not positive is not positive. *)
Lemma ceil_nonpos m e : m <= 0 -> Float.ceil (m, e) <= 0.
Proof.
  intros Hm. unfold Float.ceil. destruct (0 <=? e) eqn:He.
  - apply Z.leb_le in He. assert (0 < 2 ^ e) by (apply Z.pow_pos_nonneg; lia). nia.
  - apply Z.leb_gt in He. assert (0 < 2 ^ (- e)) by (apply Z.pow_pos_nonneg; lia).
    assert (0 <= - m / 2 ^ (- e)) by (apply Z.div_pos; lia). lia.
Qed.

(** X18. The planner at the edges of its input. Without a source bucket
    it answers 500. With a batch size of zero it answers 500 with
    "division by zero". With a negative batch size it plans no batch at
    all, whatever the number of files, and answers 200 (or 500 when the
    quotient overflows a float, which it does not below 2^53). *)
Theorem planner_edge_inputs event :
  let total_files := match Planner.ev_total_files event with Some n => n | None => 300000 end in
  let files_per_batch :=
    match Planner.ev_files_per_batch event with Some n => n | None => 1000 end in
  (Py.truthy_opt (Planner.ev_source_bucket event) = false ->
   Planner.lambda_handler event
   = Planner.Resp500 "source_bucket é obrigatório" "Erro na geração de lotes")
  /\ (Py.truthy_opt (Planner.ev_source_bucket event) = true ->
      files_per_batch = 0 ->
      Planner.lambda_handler event
      = Planner.Resp500 "division by zero" "Erro na geração de lotes")
  /\ (Py.truthy_opt (Planner.ev_source_bucket event) = true ->
      files_per_batch < 0 -> 0 <= total_files ->
      (Planner.lambda_handler event = Planner.Resp200 [] 0 total_files files_per_batch
       \/ Planner.lambda_handler event
          = Planner.Resp500 "integer division result too large for a float"
              "Erro na geração de lotes")
      /\ (total_files < 2 ^ 53 -> - 2 ^ 53 < files_per_batch ->
          Planner.lambda_handler event
          = Planner.Resp200 [] 0 total_files files_per_batch)).
Proof.
  intros total_files files_per_batch.
  split; [|split].
  - intros Hsrc. unfold Planner.lambda_handler. rewrite Hsrc. reflexivity.
  - intros Hsrc Hzero. unfold Planner.lambda_handler. rewrite Hsrc.
    fold files_per_batch. rewrite Hzero. reflexivity.
  - intros Hsrc Hneg Htotal.
    assert (Hrun : Planner.lambda_handler event
                   = match Float.true_divide_pos (Z.abs total_files)
                             (Z.abs files_per_batch) with
                     | Ok _ => Planner.Resp200 [] 0 total_files files_per_batch
                     | Err e => Planner.Resp500 (Merge.str_of_exn e)
                                  "Erro na geração de lotes"
                     end).
    { unfold Planner.lambda_handler. rewrite Hsrc. cbn [negb].
      fold total_files files_per_batch. unfold Planner.plan, Float.true_divide.
      destruct (files_per_batch =? 0) eqn:H0; [lia|].
      destruct (Float.true_divide_pos (Z.abs total_files) (Z.abs files_per_batch))
        as [[m e]|err] eqn:Hdiv; [|reflexivity].
      assert (Hm : 0 <= m).
      { eapply true_divide_pos_nonneg; [| |exact Hdiv]; lia. }
      assert (Hceil : Float.ceil (Z.sgn total_files * Z.sgn files_per_batch * m, e) <= 0).
      { apply ceil_nonpos.
        replace (Z.sgn files_per_batch) with (-1) by (symmetry; apply Z.sgn_neg; lia).
        pose proof (Z.sgn_nonneg total_files) as Hs. nia. }
      assert (Hnone : Z.to_nat (Float.ceil (Z.sgn total_files * Z.sgn files_per_batch * m, e))
                      = 0%nat) by lia.
      cbv beta iota zeta. unfold Planner.range. rewrite Hnone. reflexivity. }
    split.
    + rewrite Hrun. unfold Float.true_divide_pos.
      destruct (Z.abs total_files =? 0); [left; reflexivity|].
      destruct (andb _ _); [right; reflexivity|left; reflexivity].
    + intros Hlt Hgt. rewrite Hrun.
      destruct (@ceil_true_divide_exact total_files (- files_per_batch)
                  ltac:(lia) ltac:(lia)) as (x & Hdiv & _).
      unfold Float.true_divide in Hdiv.
      destruct (- files_per_batch =? 0); [discriminate|].
      rewrite Z.abs_opp in Hdiv.
      destruct (Float.true_divide_pos (Z.abs total_files) (Z.abs files_per_batch))
        as [[m e]|err]; [reflexivity|discriminate].
Qed.

(** Batches of minus a thousand files. *)
Lemma planner_edge_inputs_witness :
  Planner.lambda_handler (Planner.mkRequest None None None None)
  = Planner.Resp500 "source_bucket é obrigatório" "Erro na geração de lotes"
  /\ Planner.lambda_handler (Planner.mkRequest (Some "bucket") None (Some 2500) (Some 0))
     = Planner.Resp500 "division by zero" "Erro na geração de lotes"
  /\ Planner.lambda_handler
       (Planner.mkRequest (Some "bucket") None (Some 2500) (Some (-1000)))
     = Planner.Resp200 [] 0 2500 (-1000).
Proof.
  split; [|split].
  - apply (planner_edge_inputs (Planner.mkRequest None None None None)). reflexivity.
  - apply (planner_edge_inputs (Planner.mkRequest (Some "bucket") None (Some 2500) (Some 0)));
      reflexivity.
  - apply (planner_edge_inputs
             (Planner.mkRequest (Some "bucket") None (Some 2500) (Some (-1000))));
      try reflexivity; simpl; lia.
Defined.

(** ** A negative batch size *)

Lemma no_future_completes order :
  Merge.completion_order order 0 = [].
Proof.
  unfold Merge.completion_order.
  replace (filter (fun b => Nat.ltb b 0) order) with (@nil nat); [reflexivity|].
  induction order as [|b order IH]; [reflexivity|]. simpl. exact IH.
Qed.

Section NegativeBatchSize.
Context {W : Type} {S3 : S3Client W}.

Lemma run_schedule_no_worker source_bucket sched : forall sh (s : state W),
  Merge.run_schedule source_bucket sched sh [] s = Ret (sh, []) s.
Proof.
  induction sched as [|b sched IH]; intros sh s; simpl; [reflexivity|].
  destruct b; simpl; apply IH.
Qed.

(** X19. A negative batch size makes an empty [range]: both orchestrators
    drop every file without an error. The mover returns both counters at
    0 without calling the store. The merge reads nothing and puts an
    empty object under the output key, answering 0 files and 0 rows if
    the put succeeds. *)
Theorem negative_batch_size_drops_files sched order files source_bucket dest_bucket
    source_prefix dest_prefix output_filename batch_size (s : state W) :
  batch_size < 0 ->
  files <> [] ->
  let output_key :=
    if Py.truthy dest_prefix
    then (Py.rstrip_slash dest_prefix ++ "/" ++ output_filename)%string
    else output_filename in
  Mover.process_files_in_batches files source_bucket dest_bucket source_prefix dest_prefix
    batch_size s
  = Ret (Mover.mkResults 0 0) s
  /\ exists w',
       (Merge.merge_csv_files sched order files source_bucket dest_bucket dest_prefix
          output_filename batch_size s
        = Ret (Merge.mkResults 0 ("s3://" ++ dest_bucket ++ "/" ++ output_key)%string 0)
            (mkState w' (trace s ++ [EvPut dest_bucket output_key [] "text/csv" true])))
       \/ exists e,
            Merge.merge_csv_files sched order files source_bucket dest_bucket dest_prefix
              output_filename batch_size s
            = Raise e
                (mkState w' (trace s ++ [EvPut dest_bucket output_key [] "text/csv" false])).
Proof.
  intros Hneg Hne output_key. split.
  - apply process_files_in_batches_nonpositive. exact Hneg.
  - remember (Merge.merge_csv_files sched order files source_bucket dest_bucket
                dest_prefix output_filename batch_size s) as res eqn:Hres.
    unfold Merge.merge_csv_files in Hres.
    destruct files as [|f rest]; [congruence|].
    assert (Hmin : (Z.min 10 (Py.len (f :: rest)) <=? 0) = false).
    { apply Z.leb_gt. unfold Py.len. cbn [List.length]. lia. }
    rewrite Hmin in Hres. unfold Partitioner.batches, Py.range0 in Hres.
    destruct (batch_size =? 0) eqn:H0; [lia|].
    destruct (batch_size <? 0) eqn:Hlt; [|lia].
    cbn [map] in Hres. unfold bind at 1 in Hres.
    rewrite run_schedule_no_worker in Hres.
    cbn [List.length] in Hres. rewrite no_future_completes in Hres.
    cbn [map flat_map fold_left Merge.files_processed] in Hres.
    fold output_key in Hres. unfold bind, call, ret in Hres.
    match type of Hres with context [put_object ?b ?k ?body ?ct ?w] =>
      destruct (put_object b k body ct w) as [[[]|e] w']
    end; exists w'.
    + left. exact Hres.
    + right. exists e. exact Hres.
Qed.

End NegativeBatchSize.

(** The three files of the test, in batches of minus one. *)
Lemma negative_batch_size_drops_files_witness :
  -1 < 0 /\ Mock.test_files <> []
  /\ @Mover.process_files_in_batches _ Mock.mem_client Mock.test_files
       "test-source-bucket" "test-dest-bucket" "" "moved/" (-1) (Mock.start Mock.test_store)
     = Ret (Mover.mkResults 0 0) (Mock.start Mock.test_store).
Proof.
  split; [lia|]. split; [discriminate|].
  apply (@negative_batch_size_drops_files _ Mock.mem_client [] [] Mock.test_files
           "test-source-bucket" "test-dest-bucket" "" "moved/" "out.csv" (-1)
           (Mock.start Mock.test_store)).
  - lia.
  - discriminate.
Defined.

(** ** Full batches *)

Section FullBatches.
Variable A : Type.
Variable files : list A.
Variable B : Z.
Hypothesis B_pos : 0 < B.

(** X20. For a batch size [B > 0] no batch is empty, and every batch but
    the last has exactly [B] elements. *)
Theorem batches_full_but_last :
  exists bs,
    Partitioner.batches files B = Ok bs
    /\ Forall (fun b => 0 < Py.len b) bs
    /\ forall k, (S k < List.length bs)%nat -> Py.len (nth k bs []) = B.
Proof.
  rewrite (batches_seq files B_pos).
  set (n := Z.to_nat (Partitioner.ceil_div (Py.len files) B)).
  eexists. split; [reflexivity|].
  assert (Hslice : forall k, (k < n)%nat ->
            0 < Py.len (Py.slice files (Z.of_nat k * B) (Z.of_nat k * B + B))
            /\ ((S k < n)%nat ->
                Py.len (Py.slice files (Z.of_nat k * B) (Z.of_nat k * B + B)) = B)).
  { intros k Hk. rewrite (len_slice files B_pos) by lia.
    assert (Hpos : 0 < Py.len files).
    { destruct (Z_lt_le_dec 0 (Py.len files)) as [H|H]; [exact H|].
      pose proof (@ceil_div_nonpos B B_pos (Py.len files) H). lia. }
    pose proof (@ceil_div_bounds B B_pos (Py.len files) Hpos) as Hb.
    split; [nia|]. intros Hk'. nia. }
  split.
  - apply Forall_forall. intros b Hb. apply in_map_iff in Hb as (k & <- & Hk).
    apply in_seq in Hk. apply Hslice. lia.
  - intros k Hk. rewrite length_map, length_seq in Hk.
    rewrite (nth_indep _ [] (Py.slice files (Z.of_nat n * B) (Z.of_nat n * B + B)))
      by (rewrite length_map, length_seq; lia).
    rewrite (map_nth (fun k => Py.slice files (Z.of_nat k * B) (Z.of_nat k * B + B))).
    rewrite seq_nth by lia. apply Hslice; lia.
Qed.

End FullBatches.

(** Five files in batches of two: two full batches and one more. *)
Lemma batches_full_but_last_witness :
  0 < 2
  /\ exists bs,
       Partitioner.batches [1; 2; 3; 4; 5] 2 = Ok bs
       /\ Forall (fun b => 0 < Py.len b) bs
       /\ forall k, (S k < List.length bs)%nat -> Py.len (nth k bs []) = 2.
Proof.
  split; [lia|].
  apply (@batches_full_but_last Z [1; 2; 3; 4; 5] 2). lia.
Defined.
